(** * GoogleMonicaSync: the Monica collaborator (helpers/MonicaHelper.py)
    and the script (GMSync.py)

    A shallow embedding of class [Monica] and of
    [MonicaContactUploadForm], and the properties of the directory
    collaborator that the reconciliation engine relies on; then, in
    module [GMSync], the script that starts a sync.

    Conventions of the embedding.
    - JSON dictionaries whose keys the code reads are records; a contact
      carries ["id"], ["complete_name"], ["updated_at"] and ["tags"].
    - An id is a Python value: an [int] when it comes out of a JSON
      payload, a [str] when the caller passes one.  Dictionary keys are
      compared as Python compares them ([5] and ["5"] are different
      keys); the contact cache compares [str(..)] of both sides, as the
      source does.
    - The remote is a stream of responses: the request issued when
      [api_requests] is [n] is answered by [remote n].  Nothing is
      assumed of the stream, so a statement over all streams covers every
      behaviour of the server.
    - The remote always answers, and with JSON: connection failures and
      bodies that are not JSON are outside the embedding.
    - [while True] loops run on fuel; [OutOfFuel] is the only outcome
      that stands for a loop that has not finished. *)

From Stdlib Require Import ZArith DecimalString.
From stdpp Require Import gmap strings list.

Open Scope string_scope.
Open Scope Z_scope.

(** ** Python values used by the collaborator *)

Module Py.

(** A contact id, as Python holds it. *)
Inductive id :=
| Int (z : Z)
| Str (s : string).

#[global] Instance id_eq_dec : EqDecision id.
Proof. solve_decision. Defined.

#[global] Instance id_countable : Countable id.
Proof.
  refine (inj_countable'
            (fun i => match i with Int z => inl z | Str s => inr s end)
            (fun x => match x with inl z => Int z | inr s => Str s end) _).
  intros []; reflexivity.
Defined.

(** [str(x)]: decimal digits for an [int], the string itself for a [str]. *)
Definition str (x : id) : string :=
  match x with
  | Int z => NilZero.string_of_int (Z.to_int z)
  | Str s => s
  end.

(** [needle in hay] on strings. *)
Fixpoint contains (needle hay : string) : bool :=
  String.prefix needle hay
  || match hay with
     | EmptyString => false
     | String _ rest => contains needle rest
     end.

(** [x in xs] on a list of strings. *)
Definition mem (x : string) (xs : list string) : bool :=
  bool_decide (x ∈ xs).

(** Python's truth value of an id: [0] and the empty string are false. *)
Definition truthy_id (x : id) : bool :=
  match x with
  | Int z => negb (z =? 0)
  | Str s => negb (String.eqb s "")
  end.

(** [repr] of a [str].  Python takes single quotes, unless the string
    holds a single quote and no double quote; it escapes the backslash,
    the quote in use and the control characters.  A byte above 127 is
    taken as part of a printable character and kept. *)
Definition single_quote : Ascii.ascii := Ascii.ascii_of_nat 39.
Definition double_quote : Ascii.ascii := Ascii.ascii_of_nat 34.
Definition backslash : Ascii.ascii := Ascii.ascii_of_nat 92.

Definition hex_digit (n : nat) : Ascii.ascii :=
  nth n (String.list_ascii_of_string "0123456789abcdef") Ascii.zero.

Fixpoint holds (c : Ascii.ascii) (s : string) : bool :=
  match s with
  | EmptyString => false
  | String c' rest => Ascii.eqb c c' || holds c rest
  end.

Definition escape (quote c : Ascii.ascii) : string :=
  let n := Ascii.nat_of_ascii c in
  if Ascii.eqb c quote || Ascii.eqb c backslash then String backslash (String c "")
  else if (n =? 9)%nat then String backslash "t"
  else if (n =? 10)%nat then String backslash "n"
  else if (n =? 13)%nat then String backslash "r"
  else if (n <? 32)%nat || (n =? 127)%nat then
    String backslash
      ("x" ++ String (hex_digit (n / 16)) (String (hex_digit (n mod 16)) ""))
  else String c "".

Fixpoint escape_all (quote : Ascii.ascii) (s : string) : string :=
  match s with
  | EmptyString => ""
  | String c rest => escape quote c ++ escape_all quote rest
  end.

Definition repr_str (s : string) : string :=
  let quote :=
    if holds single_quote s && negb (holds double_quote s) then double_quote
    else single_quote in
  String quote (escape_all quote s ++ String quote "").
Definition repr_id (x : id) : string :=
  match x with
  | Int _ => str x
  | Str s => repr_str s
  end.
Definition repr_bool (b : bool) : string := if b then "True" else "False".
Definition repr_opt {A} (f : A -> string) (o : option A) : string :=
  match o with
  | Some a => f a
  | None => "None"
  end.
(** [str] of a value that may be [None], as an f-string prints it. *)
Definition str_opt (o : option string) : string := repr_opt (fun s => s) o.
Definition repr_list {A} (f : A -> string) (l : list A) : string :=
  "[" ++ String.concat ", " (List.map f l) ++ "]".

(** The exceptions that can leave the collaborator, with [str(e)]. *)
Inductive exn :=
| MonicaFetchError (msg : string)
| InternalError (msg : string)
| IndexError (msg : string)
| KeyError (key : string)
| TypeError (msg : string)
| ValueError (msg : string).

Definition str_exn (e : exn) : string :=
  match e with
  | MonicaFetchError msg | InternalError msg | IndexError msg
  | TypeError msg | ValueError msg => msg
  | KeyError key => "'" ++ key ++ "'"
  end.

End Py.

(** ** Contacts and the label filter *)

Record label := { name : string }.

Record contact := {
  id : Py.id;
  complete_name : string;
  updated_at : string;
  tags : list label;
}.

(** [label_filter]: the dict with the two keys ["include"] and
    ["exclude"]. *)
Record LabelFilter := {
  include : list string;
  exclude : list string;
}.

(** The dict [MonicaContactUploadForm.data], sent to create or update a
    contact. *)
Module Form.

Record data := {
  first_name : string;
  last_name : option string;
  nickname : option string;
  middle_name : option string;
  gender_id : Py.id;
  birthdate_day : option string;
  birthdate_month : option string;
  birthdate_year : option string;
  birthdate_is_age_based : bool;
  deceased_date_add_reminder : bool;
  birthdate_add_reminder : bool;
  is_birthdate_known : bool;
  is_deceased : bool;
  is_deceased_date_known : bool;
  deceased_date_day : option Z;
  deceased_date_month : option Z;
  deceased_date_year : option Z;
  deceased_date_is_age_based : option bool;
}.

Definition repr (d : data) : string :=
  let int z := Py.str (Py.Int z) in
  "{'first_name': " ++ Py.repr_str (first_name d)
  ++ ", 'last_name': " ++ Py.repr_opt Py.repr_str (last_name d)
  ++ ", 'nickname': " ++ Py.repr_opt Py.repr_str (nickname d)
  ++ ", 'middle_name': " ++ Py.repr_opt Py.repr_str (middle_name d)
  ++ ", 'gender_id': " ++ Py.repr_id (gender_id d)
  ++ ", 'birthdate_day': " ++ Py.repr_opt Py.repr_str (birthdate_day d)
  ++ ", 'birthdate_month': " ++ Py.repr_opt Py.repr_str (birthdate_month d)
  ++ ", 'birthdate_year': " ++ Py.repr_opt Py.repr_str (birthdate_year d)
  ++ ", 'birthdate_is_age_based': " ++ Py.repr_bool (birthdate_is_age_based d)
  ++ ", 'deceased_date_add_reminder': " ++ Py.repr_bool (deceased_date_add_reminder d)
  ++ ", 'birthdate_add_reminder': " ++ Py.repr_bool (birthdate_add_reminder d)
  ++ ", 'is_birthdate_known': " ++ Py.repr_bool (is_birthdate_known d)
  ++ ", 'is_deceased': " ++ Py.repr_bool (is_deceased d)
  ++ ", 'is_deceased_date_known': " ++ Py.repr_bool (is_deceased_date_known d)
  ++ ", 'deceased_date_day': " ++ Py.repr_opt int (deceased_date_day d)
  ++ ", 'deceased_date_month': " ++ Py.repr_opt int (deceased_date_month d)
  ++ ", 'deceased_date_year': " ++ Py.repr_opt int (deceased_date_year d)
  ++ ", 'deceased_date_is_age_based': "
  ++ Py.repr_opt Py.repr_bool (deceased_date_is_age_based d) ++ "}".

End Form.

(** ** The wire: requests, responses, and what the collaborators see *)

Module Http.

Inductive method := GET | POST | PUT | DELETE.

(** A note, an address or a contact field of the remote: the code reads
    its ["id"] and, of a contact field, ["contact_field_type"]["type"]. *)
Record item := { item_id : Py.id; item_type : string }.

(** The shapes found under the key ["data"].  [Types] is the list of
    [{"type": .., "id": ..}] entries of /genders and /contactfieldtypes. *)
Inductive payload :=
| Contact (c : contact)
| Contacts (l : list contact)
| Types (l : list (string * Py.id))
| Item (i : item)
| Items (l : list item).

(** [response.json()]: each of ["data"], ["meta"]["last_page"] and
    ["error"]["message"] may be absent. *)
Record body := {
  data : option payload;
  last_page : option Z;
  error_message : option string;
}.

(** [retry_after] is the integer that [int(..)] reads from the
    Retry-After header, [None] when the header is absent. *)
Record response := {
  status_code : Z;
  json : body;
  retry_after : option Z;
}.

(** What crosses the boundary of the process, in order. *)
Inductive event :=
| Sent (m : method) (path : string)
| Slept (sec : Z).

End Http.

Inductive level := INFO | WARNING | ERROR.

(** A call [database.update(monica_id=.., monica_last_changed=..,
    monica_full_name=..)] on the mapping store (DatabaseHelper is a
    collaborator; the embedding records the calls it receives). *)
Record db_update := {
  monica_id : Py.id;
  monica_last_changed : string;
  monica_full_name : option string;
}.

Module Monica.

(** The object [self].  [log], [database] and [wire] are the observable
    sides of the collaborators: the lines handed to the logger, the calls
    made on the mapping store, and the requests and sleeps performed.
    [base_url], the authorization header and the [limit] parameter are
    constants of every request and are left out: a request is its method
    and its path below [base_url]. *)
Record self := {
  label_filter : LabelFilter;
  create_reminders : bool;
  is_data_already_fetched : bool;
  contacts : list contact;
  gender_mapping : gmap string Py.id;
  contact_field_type_mapping : gmap string Py.id;
  updated_contacts : gmap Py.id bool;
  created_contacts : gmap Py.id bool;
  deleted_contacts : gmap Py.id bool;
  api_requests : nat;
  log : list (level * string);
  database : list db_update;
  wire : list Http.event;
}.

(** [Monica.__init__] *)
Definition __init__ (create_reminders : bool) (label_filter : LabelFilter) : self :=
  {| label_filter := label_filter;
     create_reminders := create_reminders;
     is_data_already_fetched := false; contacts := [];
     gender_mapping := ∅; contact_field_type_mapping := ∅;
     updated_contacts := ∅; created_contacts := ∅; deleted_contacts := ∅;
     api_requests := 0; log := []; database := []; wire := [] |}.

Definition with_contacts (v : list contact) (s : self) : self :=
  {| label_filter := label_filter s;
     create_reminders := create_reminders s;
     is_data_already_fetched := is_data_already_fetched s; contacts := v;
     gender_mapping := gender_mapping s;
     contact_field_type_mapping := contact_field_type_mapping s;
     updated_contacts := updated_contacts s;
     created_contacts := created_contacts s;
     deleted_contacts := deleted_contacts s;
     api_requests := api_requests s; log := log s;
     database := database s; wire := wire s |}.

Definition with_is_data_already_fetched (v : bool) (s : self) : self :=
  {| label_filter := label_filter s;
     create_reminders := create_reminders s;
     is_data_already_fetched := v; contacts := contacts s;
     gender_mapping := gender_mapping s;
     contact_field_type_mapping := contact_field_type_mapping s;
     updated_contacts := updated_contacts s;
     created_contacts := created_contacts s;
     deleted_contacts := deleted_contacts s;
     api_requests := api_requests s; log := log s;
     database := database s; wire := wire s |}.

Definition with_gender_mapping (v : gmap string Py.id) (s : self) : self :=
  {| label_filter := label_filter s;
     create_reminders := create_reminders s;
     is_data_already_fetched := is_data_already_fetched s;
     contacts := contacts s; gender_mapping := v;
     contact_field_type_mapping := contact_field_type_mapping s;
     updated_contacts := updated_contacts s;
     created_contacts := created_contacts s;
     deleted_contacts := deleted_contacts s;
     api_requests := api_requests s; log := log s;
     database := database s; wire := wire s |}.

Definition with_contact_field_type_mapping (v : gmap string Py.id) (s : self) : self :=
  {| label_filter := label_filter s;
     create_reminders := create_reminders s;
     is_data_already_fetched := is_data_already_fetched s;
     contacts := contacts s; gender_mapping := gender_mapping s;
     contact_field_type_mapping := v;
     updated_contacts := updated_contacts s;
     created_contacts := created_contacts s;
     deleted_contacts := deleted_contacts s;
     api_requests := api_requests s; log := log s;
     database := database s; wire := wire s |}.

Definition with_updated_contacts (v : gmap Py.id bool) (s : self) : self :=
  {| label_filter := label_filter s;
     create_reminders := create_reminders s;
     is_data_already_fetched := is_data_already_fetched s;
     contacts := contacts s; gender_mapping := gender_mapping s;
     contact_field_type_mapping := contact_field_type_mapping s;
     updated_contacts := v;
     created_contacts := created_contacts s;
     deleted_contacts := deleted_contacts s;
     api_requests := api_requests s; log := log s;
     database := database s; wire := wire s |}.

Definition with_created_contacts (v : gmap Py.id bool) (s : self) : self :=
  {| label_filter := label_filter s;
     create_reminders := create_reminders s;
     is_data_already_fetched := is_data_already_fetched s;
     contacts := contacts s; gender_mapping := gender_mapping s;
     contact_field_type_mapping := contact_field_type_mapping s;
     updated_contacts := updated_contacts s;
     created_contacts := v;
     deleted_contacts := deleted_contacts s;
     api_requests := api_requests s; log := log s;
     database := database s; wire := wire s |}.

Definition with_deleted_contacts (v : gmap Py.id bool) (s : self) : self :=
  {| label_filter := label_filter s;
     create_reminders := create_reminders s;
     is_data_already_fetched := is_data_already_fetched s;
     contacts := contacts s; gender_mapping := gender_mapping s;
     contact_field_type_mapping := contact_field_type_mapping s;
     updated_contacts := updated_contacts s;
     created_contacts := created_contacts s;
     deleted_contacts := v;
     api_requests := api_requests s; log := log s;
     database := database s; wire := wire s |}.

Definition with_api_requests (v : nat) (s : self) : self :=
  {| label_filter := label_filter s;
     create_reminders := create_reminders s;
     is_data_already_fetched := is_data_already_fetched s;
     contacts := contacts s; gender_mapping := gender_mapping s;
     contact_field_type_mapping := contact_field_type_mapping s;
     updated_contacts := updated_contacts s;
     created_contacts := created_contacts s;
     deleted_contacts := deleted_contacts s;
     api_requests := v; log := log s;
     database := database s; wire := wire s |}.

Definition with_log (v : list (level * string)) (s : self) : self :=
  {| label_filter := label_filter s;
     create_reminders := create_reminders s;
     is_data_already_fetched := is_data_already_fetched s;
     contacts := contacts s; gender_mapping := gender_mapping s;
     contact_field_type_mapping := contact_field_type_mapping s;
     updated_contacts := updated_contacts s;
     created_contacts := created_contacts s;
     deleted_contacts := deleted_contacts s;
     api_requests := api_requests s; log := v;
     database := database s; wire := wire s |}.

Definition with_database (v : list db_update) (s : self) : self :=
  {| label_filter := label_filter s;
     create_reminders := create_reminders s;
     is_data_already_fetched := is_data_already_fetched s;
     contacts := contacts s; gender_mapping := gender_mapping s;
     contact_field_type_mapping := contact_field_type_mapping s;
     updated_contacts := updated_contacts s;
     created_contacts := created_contacts s;
     deleted_contacts := deleted_contacts s;
     api_requests := api_requests s; log := log s;
     database := v; wire := wire s |}.

Definition with_wire (v : list Http.event) (s : self) : self :=
  {| label_filter := label_filter s;
     create_reminders := create_reminders s;
     is_data_already_fetched := is_data_already_fetched s;
     contacts := contacts s; gender_mapping := gender_mapping s;
     contact_field_type_mapping := contact_field_type_mapping s;
     updated_contacts := updated_contacts s;
     created_contacts := created_contacts s;
     deleted_contacts := deleted_contacts s;
     api_requests := api_requests s; log := log s;
     database := database s; wire := v |}.

(** *** Control: return, raise, and a loop that may not have finished *)

Inductive outcome (A : Type) :=
| Returns (a : A) (s : self)
| Raises (e : Py.exn) (s : self)
| OutOfFuel (s : self).
Arguments Returns {A} a s.
Arguments Raises {A} e s.
Arguments OutOfFuel {A} s.

Definition M (A : Type) : Type := self -> outcome A.

Definition ret {A} (a : A) : M A := fun s => Returns a s.

Definition bind {A B} (m : M A) (k : A -> M B) : M B :=
  fun s =>
    match m s with
    | Returns a s' => k a s'
    | Raises e s' => Raises e s'
    | OutOfFuel s' => OutOfFuel s'
    end.

Definition raise {A} (e : Py.exn) : M A := fun s => Raises e s.

Definition gets {A} (f : self -> A) : M A := fun s => Returns (f s) s.

Definition modify (f : self -> self) : M unit := fun s => Returns tt (f s).

(** [try: m  except Exception as e: h e] *)
Definition try_except {A} (m : M A) (h : Py.exn -> M A) : M A :=
  fun s =>
    match m s with
    | Raises e s' => h e s'
    | r => r
    end.

(** stdpp's monad notations: [x ← m; k] and [m ;; k]. *)
#[global] Instance M_ret : MRet M := @ret.
#[global] Instance M_bind : MBind M := fun A B k m => bind m k.

(** One turn of a loop body either goes round again ([continue], or the
    end of the body), carrying the loop's local variables, or leaves the
    loop ([return], [break]). *)
Inductive step (L A : Type) :=
| Continue (l : L)
| Leave (a : A).
Arguments Continue {L A} l.
Arguments Leave {L A} a.

Fixpoint while_true {L A} (fuel : nat) (body : L -> M (step L A)) (l : L) : M A :=
  match fuel with
  | O => fun s => OutOfFuel s
  | S fuel' =>
      r ← body l;
      match r with
      | Continue l' => while_true fuel' body l'
      | Leave a => ret a
      end
  end.

(** *** The collaborators *)

Definition log_info (msg : string) : M unit :=
  modify (fun s => with_log (log s ++ [(INFO, msg)]) s).
Definition log_warning (msg : string) : M unit :=
  modify (fun s => with_log (log s ++ [(WARNING, msg)]) s).
Definition log_error (msg : string) : M unit :=
  modify (fun s => with_log (log s ++ [(ERROR, msg)]) s).

Definition database_update (monica_id : Py.id) (monica_last_changed : string)
    (monica_full_name : option string) : M unit :=
  modify (fun s => with_database
    (database s ++ [{| monica_id := monica_id;
                       monica_last_changed := monica_last_changed;
                       monica_full_name := monica_full_name |}]) s).

(** [time.sleep(sec)] *)
Definition sleep (sec : Z) : M unit :=
  if sec <? 0 then raise (Py.ValueError "sleep length must be non-negative")
  else modify (fun s => with_wire (wire s ++ [Http.Slept sec]) s).

(** [response.json()['data']] read at the shape the endpoint returns.  A
    body without the key raises [KeyError], as in Python.  A body whose
    data has another shape than the endpoint's is outside the embedding:
    Python would go on with the value and fail where it is used; the
    readers raise the same [KeyError] there, and no statement below is
    about such a body. *)
Definition json_contact (r : Http.response) : M contact :=
  match Http.data (Http.json r) with
  | Some (Http.Contact c) => ret c
  | _ => raise (Py.KeyError "data")
  end.
Definition json_contacts (r : Http.response) : M (list contact) :=
  match Http.data (Http.json r) with
  | Some (Http.Contacts l) => ret l
  | _ => raise (Py.KeyError "data")
  end.
Definition json_types (r : Http.response) : M (list (string * Py.id)) :=
  match Http.data (Http.json r) with
  | Some (Http.Types l) => ret l
  | _ => raise (Py.KeyError "data")
  end.
Definition json_item (r : Http.response) : M Http.item :=
  match Http.data (Http.json r) with
  | Some (Http.Item i) => ret i
  | _ => raise (Py.KeyError "data")
  end.
Definition json_items (r : Http.response) : M (list Http.item) :=
  match Http.data (Http.json r) with
  | Some (Http.Items l) => ret l
  | _ => raise (Py.KeyError "data")
  end.
(** [data['meta']['last_page']] *)
Definition json_last_page (r : Http.response) : M Z :=
  match Http.last_page (Http.json r) with
  | Some p => ret p
  | None => raise (Py.KeyError "meta")
  end.
(** [response.json()['error']['message']] *)
Definition json_error (r : Http.response) : M string :=
  match Http.error_message (Http.json r) with
  | Some m => ret m
  | None => raise (Py.KeyError "error")
  end.

Definition slow_down_message : string :=
  "Too many attempts, please slow down the request".

(** [__is_slow_down_error]: [int(None)] raises [TypeError]; the [print]
    goes to the terminal and is not recorded. *)
Definition __is_slow_down_error (response : Http.response) (error : string) : M bool :=
  if Py.contains slow_down_message error then
    match Http.retry_after response with
    | None =>
        raise (Py.TypeError
          "int() argument must be a string, a bytes-like object or a real number, not 'NoneType'")
    | Some sec => sleep sec;; ret true
    end
  else ret false.

(** [any([.. in include ..])] and [all([.. not in exclude ..])] over the
    contact's tags. *)
Definition any_included (lf : LabelFilter) (c : contact) : bool :=
  existsb (fun contact_label => Py.mem (name contact_label) (include lf)) (tags c).

Definition all_not_excluded (lf : LabelFilter) (c : contact) : bool :=
  forallb (fun contact_label => negb (Py.mem (name contact_label) (exclude lf))) (tags c).

(** A non-empty list is true. *)
Definition truthy {A} (l : list A) : bool :=
  match l with [] => false | _ => true end.

Definition __filter_contacts_by_label (lf : LabelFilter) (contact_list : list contact)
  : list contact :=
  if truthy (include lf) then
    List.filter (fun c => any_included lf c && all_not_excluded lf c) contact_list
  else if truthy (exclude lf) then
    List.filter (fun c => all_not_excluded lf c) contact_list
  else
    contact_list.

(** [update_statistics]: a contact should only count as updated if it
    has not been created during sync. *)
Definition update_statistics : M unit :=
  modify (fun s => with_updated_contacts
    (filter (fun kv => kv.1 ∉ dom (created_contacts s)) (updated_contacts s)) s).

(** [{entry['type']: entry['id'] for entry in entries}]: a later entry
    replaces an earlier one of the same type. *)
Definition dict_of_types (entries : list (string * Py.id)) : gmap string Py.id :=
  foldl (fun m entry => <[entry.1 := entry.2]> m) ∅ entries.

(** [str(c['id']) == str(monica_id)] *)
Definition same_id (monica_id : Py.id) (c : contact) : bool :=
  String.eqb (Py.str (id c)) (Py.str monica_id).

(** [self.updated_contacts[monica_id] = True] and its siblings. *)
Definition mark_updated (monica_id : Py.id) : M unit :=
  modify (fun s => with_updated_contacts (<[monica_id := true]> (updated_contacts s)) s).
Definition mark_created (monica_id : Py.id) : M unit :=
  modify (fun s => with_created_contacts (<[monica_id := true]> (created_contacts s)) s).
Definition mark_deleted (monica_id : Py.id) : M unit :=
  modify (fun s => with_deleted_contacts (<[monica_id := true]> (deleted_contacts s)) s).

(** [self.contacts.append(contact)] *)
Definition contacts_append (c : contact) : M unit :=
  modify (fun s => with_contacts (contacts s ++ [c]) s).

(** The prefix ['{name}' ('{monica_id}')] of most log lines. *)
Definition who (name : string) (monica_id : Py.id) : string :=
  "'" ++ name ++ "' ('" ++ Py.str monica_id ++ "')".

Section Remote.

(** The server: the [n]-th request of the session is answered by
    [remote n]. *)
Variable remote : nat -> Http.response.

(** [response = requests.<method>(self.base_url + path, ..)] followed by
    [self.api_requests += 1]. *)
Definition request (m : Http.method) (path : string) : M Http.response :=
  fun s =>
    Returns (remote (api_requests s))
      (with_api_requests (S (api_requests s))
         (with_wire (wire s ++ [Http.Sent m path]) s)).

(** The body every request loop of the class shares:
<<
    response = requests.<method>(..)
    self.api_requests += 1
    if response.status_code == <ok>:
        <on_success>
    else:
        error = response.json()['error']['message']
        if self.__is_slow_down_error(response, error):
            continue
        <on_error>
>> *)
Definition attempt {L A} (m : Http.method) (path : string) (ok : Z)
    (on_success : Http.response -> M (step L A))
    (on_error : string -> M (step L A)) (l : L) : M (step L A) :=
  response ← request m path;
  if Http.status_code response =? ok then on_success response
  else
    error ← json_error response;
    slow ← __is_slow_down_error response error;
    if (slow : bool) then ret (Continue l) else on_error error.

Definition get_gender_mapping (fuel : nat) : M (gmap string Py.id) :=
  cached ← gets gender_mapping;
  (* Only fetch if not present yet *)
  if bool_decide (cached ≠ ∅) then ret cached
  else
    while_true fuel (attempt Http.GET "/genders" 200
      (fun response =>
         genders ← json_types response;
         modify (with_gender_mapping (dict_of_types genders));;
         mapping ← gets gender_mapping;
         ret (Leave mapping))
      (fun error =>
         log_error ("Failed to fetch genders from Monica: " ++ error);;
         raise (Py.MonicaFetchError "Error fetching genders from Monica!"))) tt.

Definition update_contact (fuel : nat) (monica_id : Py.id) (data : Form.data) : M unit :=
  let name := Form.first_name data ++ " " ++ Py.str_opt (Form.last_name data) in
  (* Remove Monica contact from contact list (add again after updated) *)
  modify (fun s => with_contacts
    (List.filter (fun c => negb (same_id monica_id c)) (contacts s)) s);;
  while_true fuel (attempt Http.PUT ("/contacts/" ++ Py.str monica_id) 200
    (fun response =>
       contact ← json_contact response;
       mark_updated monica_id;;
       contacts_append contact;;
       let name := complete_name contact in
       log_info (who name monica_id ++ ": Contact updated successfully");;
       database_update monica_id (updated_at contact) (Some (complete_name contact));;
       ret (Leave tt))
    (fun error =>
       log_error (who name monica_id ++ ": Error updating Monica contact: "
                  ++ error ++ ". Does it exist?");;
       log_error ("Monica form data: " ++ Form.repr data);;
       raise (Py.MonicaFetchError "Error updating Monica contact!"))) tt.

Definition delete_contact (fuel : nat) (monica_id : Py.id) (name : string) : M unit :=
  while_true fuel (attempt Http.DELETE ("/contacts/" ++ Py.str monica_id) 200
    (fun response =>
       modify (fun s => with_contacts
         (List.filter (fun c => negb (same_id monica_id c)) (contacts s)) s);;
       mark_deleted monica_id;;
       ret (Leave tt))
    (fun error =>
       log_error (who name monica_id ++ ": Failed to complete delete request: " ++ error);;
       raise (Py.MonicaFetchError "Error deleting Monica contact!"))) tt.

(** The request body [data] is not read by [create_contact]. *)
Definition create_contact (fuel : nat) (reference_id : string) : M contact :=
  while_true fuel (attempt Http.POST "/contacts" 201
    (fun response =>
       contact ← json_contact response;
       mark_created (id contact);;
       contacts_append contact;;
       log_info (who reference_id (id contact) ++ ": Contact created successfully");;
       ret (Leave contact))
    (fun error =>
       log_info ("'" ++ reference_id ++ "': Error creating Monica contact: " ++ error);;
       raise (Py.MonicaFetchError "Error creating Monica contact!"))) tt.

(** [get_contacts]: the loop carries [page] and the contacts fetched so
    far; the progress line written to the terminal is not recorded. *)
Definition get_contacts (fuel : nat) : M (list contact) :=
  try_except
    (fetched ← gets is_data_already_fetched;
     (* Avoid multiple fetches *)
     if (fetched : bool) then gets contacts
     else
       log_info "Fetching all Monica contacts...";;
       while_true fuel (fun '((page, contacts) : Z * list contact) =>
         attempt Http.GET ("/contacts?page=" ++ Py.str (Py.Int page)) 200
           (fun response =>
              data ← json_contacts response;
              let contacts := (contacts ++ data)%list in
              max_page ← json_last_page response;
              if page =? max_page then
                lf ← gets label_filter;
                modify (with_contacts (__filter_contacts_by_label lf contacts));;
                ret (Leave tt)
              else ret (Continue (page + 1, contacts)))
           (fun error =>
              let msg := "Error fetching Monica contacts: " ++ error in
              log_error msg;;
              raise (Py.MonicaFetchError msg))
           (page, contacts)) (1, []);;
       modify (with_is_data_already_fetched true);;
       log_info "Finished fetching Monica contacts";;
       gets contacts)
    (fun e =>
       let msg := "Failed to fetch Monica contacts (maybe connection issue): "
                  ++ Py.str_exn e in
       log_error msg;;
       raise (Py.MonicaFetchError msg)).

(** [l[0]] *)
Definition first {A} (l : list A) : M A :=
  match l with
  | x :: _ => ret x
  | [] => raise (Py.IndexError "list index out of range")
  end.

Definition get_contact (fuel : nat) (monica_id : Py.id) : M contact :=
  try_except
    (cached ← gets contacts;
     let fetch :=
       while_true fuel (attempt Http.GET ("/contacts/" ++ Py.str monica_id) 200
         (fun response =>
            monica_contact ← json_contact response;
            lf ← gets label_filter;
            monica_contact ← first (__filter_contacts_by_label lf [monica_contact]);
            contacts_append monica_contact;;
            ret (Leave monica_contact))
         (fun error => raise (Py.MonicaFetchError error))) tt in
     (* Check if contact is already fetched *)
     if truthy cached then
       match List.filter (same_id monica_id) cached with
       | c :: _ => ret c
       | [] => fetch
       end
     else fetch)
    (fun e =>
       match e with
       | Py.IndexError _ =>
           let msg := "Contact processing of '" ++ Py.str monica_id
                      ++ "' not allowed by label filter" in
           log_info msg;;
           raise (Py.InternalError msg)
       | _ =>
           let msg := "Failed to fetch Monica contact '" ++ Py.str monica_id
                      ++ "': " ++ Py.str_exn e in
           log_error msg;;
           raise (Py.MonicaFetchError msg)
       end).

Definition get_notes (fuel : nat) (monica_id : Py.id) (name : string)
  : M (list Http.item) :=
  while_true fuel (attempt Http.GET ("/contacts/" ++ Py.str monica_id ++ "/notes") 200
    (fun response =>
       monica_notes ← json_items response;
       ret (Leave monica_notes))
    (fun error =>
       raise (Py.MonicaFetchError
         (who name monica_id ++ ": Error fetching Monica notes: " ++ error)))) tt.

(** Of the dict [data], [add_note], [update_note] and [create_address]
    read ['contact_id'] only. *)
Definition add_note (fuel : nat) (data_contact_id : Py.id) (name : string) : M unit :=
  let monica_id := data_contact_id in
  while_true fuel (attempt Http.POST "/notes" 201
    (fun response =>
       mark_updated monica_id;;
       note ← json_item response;
       let note_id := Http.item_id note in
       log_info (who name monica_id ++ ": Note '" ++ Py.str note_id
                 ++ "' created successfully");;
       ret (Leave tt))
    (fun error =>
       raise (Py.MonicaFetchError
         (who name monica_id ++ ": Error creating Monica note: " ++ error)))) tt.

Definition update_note (fuel : nat) (note_id : Py.id) (data_contact_id : Py.id)
    (name : string) : M unit :=
  let monica_id := data_contact_id in
  while_true fuel (attempt Http.PUT ("/notes/" ++ Py.str note_id) 200
    (fun response =>
       mark_updated monica_id;;
       note ← json_item response;
       let note_id := Http.item_id note in
       log_info (who name monica_id ++ ": Note '" ++ Py.str note_id
                 ++ "' updated successfully");;
       ret (Leave tt))
    (fun error =>
       raise (Py.MonicaFetchError
         (who name monica_id ++ ": Error updating Monica note: " ++ error)))) tt.

Definition delete_note (fuel : nat) (note_id : Py.id) (monica_id : Py.id)
    (name : string) : M unit :=
  while_true fuel (attempt Http.DELETE ("/notes/" ++ Py.str note_id) 200
    (fun response =>
       mark_updated monica_id;;
       log_info (who name monica_id ++ ": Note '" ++ Py.str note_id
                 ++ "' deleted successfully");;
       ret (Leave tt))
    (fun error =>
       raise (Py.MonicaFetchError
         (who name monica_id ++ ": Error deleting Monica note: " ++ error)))) tt.

(** Of [data], [remove_tags] and [add_tags] read ['tags']: tag ids to
    unset, tag names to set. *)
Definition remove_tags (fuel : nat) (data_tags : list Py.id) (monica_id : Py.id)
    (name : string) : M unit :=
  while_true fuel (attempt Http.POST ("/contacts/" ++ Py.str monica_id ++ "/unsetTag") 200
    (fun response =>
       mark_updated monica_id;;
       log_info (who name monica_id ++ ": Label(s) with id "
                 ++ Py.repr_list Py.repr_id data_tags ++ " removed successfully");;
       ret (Leave tt))
    (fun error =>
       raise (Py.MonicaFetchError
         (who name monica_id ++ ": Error removing Monica labels: " ++ error)))) tt.

Definition add_tags (fuel : nat) (data_tags : list string) (monica_id : Py.id)
    (name : string) : M unit :=
  while_true fuel (attempt Http.POST ("/contacts/" ++ Py.str monica_id ++ "/setTags") 200
    (fun response =>
       mark_updated monica_id;;
       log_info (who name monica_id ++ ": Labels "
                 ++ Py.repr_list Py.repr_str data_tags ++ " assigned successfully");;
       ret (Leave tt))
    (fun error =>
       raise (Py.MonicaFetchError
         (who name monica_id ++ ": Error assigning Monica labels: " ++ error)))) tt.

(** [update_career]: after the warning the body of the loop ends, and
    [while True] goes round again.  The request body [data] is not read. *)
Definition update_career (fuel : nat) (monica_id : Py.id) : M unit :=
  contact ← get_contact fuel monica_id;
  let name := complete_name contact in
  while_true fuel (attempt Http.PUT ("/contacts/" ++ Py.str monica_id ++ "/work") 200
    (fun response =>
       mark_updated monica_id;;
       contact ← json_contact response;
       log_info (who name monica_id ++ ": Company and job title updated successfully");;
       database_update monica_id (updated_at contact) None;;
       ret (Leave tt))
    (fun error =>
       log_warning (who name monica_id
                    ++ ": Error updating Monica contact career info: " ++ error);;
       ret (Continue tt))) tt.

Definition delete_address (fuel : nat) (address_id : Py.id) (monica_id : Py.id)
    (name : string) : M unit :=
  while_true fuel (attempt Http.DELETE ("/addresses/" ++ Py.str address_id) 200
    (fun response =>
       mark_updated monica_id;;
       log_info (who name monica_id ++ ": Address '" ++ Py.str address_id
                 ++ "' deleted successfully");;
       ret (Leave tt))
    (fun error =>
       raise (Py.MonicaFetchError
         (who name monica_id ++ ": Error deleting address '" ++ Py.str address_id
          ++ "': " ++ error)))) tt.

Definition create_address (fuel : nat) (data_contact_id : Py.id) (name : string) : M unit :=
  let monica_id := data_contact_id in
  while_true fuel (attempt Http.POST "/addresses" 201
    (fun response =>
       mark_updated monica_id;;
       address ← json_item response;
       let address_id := Http.item_id address in
       log_info (who name monica_id ++ ": Address '" ++ Py.str address_id
                 ++ "' created successfully");;
       ret (Leave tt))
    (fun error =>
       raise (Py.MonicaFetchError
         (who name monica_id ++ ": Error creating Monica address: " ++ error)))) tt.

Definition get_contact_fields (fuel : nat) (monica_id : Py.id) (name : string)
  : M (list Http.item) :=
  while_true fuel
    (attempt Http.GET ("/contacts/" ++ Py.str monica_id ++ "/contactfields") 200
    (fun response =>
       field_list ← json_items response;
       ret (Leave field_list))
    (fun error =>
       raise (Py.MonicaFetchError
         (who name monica_id ++ ": Error fetching Monica contact fields: " ++ error)))) tt.

Definition __get_contact_field_types (fuel : nat) : M (gmap string Py.id) :=
  while_true fuel (attempt Http.GET "/contactfieldtypes" 200
    (fun response =>
       contact_field_types ← json_types response;
       modify (with_contact_field_type_mapping (dict_of_types contact_field_types));;
       mapping ← gets contact_field_type_mapping;
       ret (Leave mapping))
    (fun error =>
       log_error ("Failed to fetch contact field types from Monica: " ++ error);;
       raise (Py.MonicaFetchError "Error fetching contact field types from Monica!"))) tt.

Definition get_contact_field_id (fuel : nat) (type_name : string) : M Py.id :=
  (* Fetch if not present yet *)
  mapping ← gets contact_field_type_mapping;
  (if bool_decide (mapping = ∅) then __get_contact_field_types fuel;; ret tt
   else ret tt);;
  mapping ← gets contact_field_type_mapping;
  (* No id is a serious issue *)
  match mapping !! type_name with
  | Some field_id =>
      if Py.truthy_id field_id then ret field_id
      else raise (Py.InternalError
             ("Could not find an id for contact field type '" ++ type_name ++ "'"))
  | None =>
      raise (Py.InternalError
        ("Could not find an id for contact field type '" ++ type_name ++ "'"))
  end.

(** The request body [data] is not read by [create_contact_field]. *)
Definition create_contact_field (fuel : nat) (monica_id : Py.id) (name : string)
  : M unit :=
  while_true fuel (attempt Http.POST "/contactfields" 201
    (fun response =>
       mark_updated monica_id;;
       contact_field ← json_item response;
       let field_id := Http.item_id contact_field in
       let type_desc := Http.item_type contact_field in
       log_info (who name monica_id ++ ": Contact field '" ++ Py.str field_id
                 ++ "' (" ++ type_desc ++ ") created successfully");;
       ret (Leave tt))
    (fun error =>
       raise (Py.MonicaFetchError
         (who name monica_id ++ ": Error creating Monica contact field: " ++ error)))) tt.

Definition delete_contact_field (fuel : nat) (field_id : Py.id) (monica_id : Py.id)
    (name : string) : M unit :=
  while_true fuel (attempt Http.DELETE ("/contactfields/" ++ Py.str field_id) 200
    (fun response =>
       mark_updated monica_id;;
       log_info (who name monica_id ++ ": Contact field '" ++ Py.str field_id
                 ++ "' deleted successfully");;
       ret (Leave tt))
    (fun error =>
       raise (Py.MonicaFetchError
         (who name monica_id ++ ": Error deleting Monica contact field '"
          ++ Py.str field_id ++ "': " ++ error)))) tt.

End Remote.


End Monica.

(** ** The upload form *)

Module MonicaContactUploadForm.

(** The arguments of [__init__] after [monica]. *)
Record args := {
  first_name : string;
  last_name : option string;
  nick_name : option string;
  middle_name : option string;
  gender_type : string;
  birthdate_day : option string;
  birthdate_month : option string;
  birthdate_year : option string;
  is_birthdate_age_based : bool;
  is_birthdate_known : bool;
  is_deceased : bool;
  is_deceased_date_known : bool;
  deceased_day : option Z;
  deceased_month : option Z;
  deceased_year : option Z;
  deceased_age_based : option bool;
  create_reminders : bool;
}.

(** The defaults of the signature. *)
Definition defaults (first_name : string) : args :=
  {| first_name := first_name; last_name := None; nick_name := None;
     middle_name := None; gender_type := "O"; birthdate_day := None;
     birthdate_month := None; birthdate_year := None;
     is_birthdate_age_based := false; is_birthdate_known := false;
     is_deceased := false; is_deceased_date_known := false;
     deceased_day := None; deceased_month := None; deceased_year := None;
     deceased_age_based := None; create_reminders := true |}.

(** [self.data], once [gender_id] is known. *)
Definition data (a : args) (gender_id : Py.id) : Form.data :=
  {| Form.first_name := first_name a;
     Form.last_name := last_name a;
     Form.nickname := nick_name a;
     Form.middle_name := middle_name a;
     Form.gender_id := gender_id;
     Form.birthdate_day := birthdate_day a;
     Form.birthdate_month := birthdate_month a;
     Form.birthdate_year := birthdate_year a;
     Form.birthdate_is_age_based := is_birthdate_age_based a;
     Form.deceased_date_add_reminder := create_reminders a;
     Form.birthdate_add_reminder := create_reminders a;
     Form.is_birthdate_known := is_birthdate_known a;
     Form.is_deceased := is_deceased a;
     Form.is_deceased_date_known := is_deceased_date_known a;
     Form.deceased_date_day := deceased_day a;
     Form.deceased_date_month := deceased_month a;
     Form.deceased_date_year := deceased_year a;
     Form.deceased_date_is_age_based := deceased_age_based a |}.

(** [gender_id = monica.get_gender_mapping()[gender_type]]: a missing key
    raises [KeyError]. *)
Definition __init__ (remote : nat -> Http.response) (fuel : nat) (a : args)
  : Monica.M Form.data :=
  mapping ← Monica.get_gender_mapping remote fuel;
  match mapping !! gender_type a with
  | None => Monica.raise (Py.KeyError (gender_type a))
  | Some gender_id => Monica.ret (data a gender_id)
  end.

End MonicaContactUploadForm.


Example str_int : Py.str (Py.Int 42) = "42".
Proof. reflexivity. Qed.

(** [repr('Ada')], [repr("it's")] and [repr('a\b')]. *)
Example repr_str_quotes :
  Py.repr_str "Ada" = "'Ada'"
  /\ Py.repr_str "it's" = String Py.double_quote ("it's" ++ String Py.double_quote "")
  /\ Py.repr_str ("a" ++ String Py.backslash "b")
     = "'a" ++ String Py.backslash (String Py.backslash "b'").
Proof. split; [|split]; reflexivity. Qed.

(** ** The operations of the collaborator *)

(** The public methods of [Monica], with their arguments, and the
    construction of an upload form. *)
Inductive operation :=
| Get_gender_mapping
| Update_contact (monica_id : Py.id) (data : Form.data)
| Delete_contact (monica_id : Py.id) (name : string)
| Create_contact (reference_id : string)
| Get_contacts
| Get_contact (monica_id : Py.id)
| Get_notes (monica_id : Py.id) (name : string)
| Add_note (data_contact_id : Py.id) (name : string)
| Update_note (note_id : Py.id) (data_contact_id : Py.id) (name : string)
| Delete_note (note_id : Py.id) (monica_id : Py.id) (name : string)
| Remove_tags (data_tags : list Py.id) (monica_id : Py.id) (name : string)
| Add_tags (data_tags : list string) (monica_id : Py.id) (name : string)
| Update_career (monica_id : Py.id)
| Delete_address (address_id : Py.id) (monica_id : Py.id) (name : string)
| Create_address (data_contact_id : Py.id) (name : string)
| Get_contact_fields (monica_id : Py.id) (name : string)
| Get_contact_field_id (type_name : string)
| Create_contact_field (monica_id : Py.id) (name : string)
| Delete_contact_field (field_id : Py.id) (monica_id : Py.id) (name : string)
| Upload_form (a : MonicaContactUploadForm.args).

(** Runs an operation for its effects and its way of ending; the value
    it returns is dropped. *)
Definition void {A} (m : Monica.M A) : Monica.M unit := _ ← m; Monica.ret tt.

Definition run (remote : nat -> Http.response) (fuel : nat) (op : operation)
  : Monica.M unit :=
  match op with
  | Get_gender_mapping => void (Monica.get_gender_mapping remote fuel)
  | Update_contact i d => Monica.update_contact remote fuel i d
  | Delete_contact i n => Monica.delete_contact remote fuel i n
  | Create_contact ref => void (Monica.create_contact remote fuel ref)
  | Get_contacts => void (Monica.get_contacts remote fuel)
  | Get_contact i => void (Monica.get_contact remote fuel i)
  | Get_notes i n => void (Monica.get_notes remote fuel i n)
  | Add_note i n => Monica.add_note remote fuel i n
  | Update_note j i n => Monica.update_note remote fuel j i n
  | Delete_note j i n => Monica.delete_note remote fuel j i n
  | Remove_tags t i n => Monica.remove_tags remote fuel t i n
  | Add_tags t i n => Monica.add_tags remote fuel t i n
  | Update_career i => Monica.update_career remote fuel i
  | Delete_address a i n => Monica.delete_address remote fuel a i n
  | Create_address i n => Monica.create_address remote fuel i n
  | Get_contact_fields i n => void (Monica.get_contact_fields remote fuel i n)
  | Get_contact_field_id t => void (Monica.get_contact_field_id remote fuel t)
  | Create_contact_field i n => Monica.create_contact_field remote fuel i n
  | Delete_contact_field j i n => Monica.delete_contact_field remote fuel j i n
  | Upload_form a => void (MonicaContactUploadForm.__init__ remote fuel a)
  end.

(** * Properties *)

(** ** The label filter *)

(** Eligibility in the words of the specification: the number of the
    contact's labels whose name is in a set, and the two conditions on
    it. *)
Definition labels_in (names : list string) (c : contact) : nat :=
  length (List.filter (fun t => Py.mem (name t) names) (tags c)).

Definition eligible (lf : LabelFilter) (c : contact) : bool :=
  (bool_decide (include lf = []) || (1 <=? labels_in (include lf) c)%nat)
  && (labels_in (exclude lf) c =? 0)%nat.

Lemma existsb_count {A} (f : A -> bool) (l : list A) :
  existsb f l = (1 <=? length (List.filter f l))%nat.
Proof.
  induction l as [|x l IH]; simpl; [reflexivity|].
  destruct (f x); simpl; [reflexivity | exact IH].
Qed.

Lemma forallb_count {A} (f : A -> bool) (l : list A) :
  forallb (fun x => negb (f x)) l = (length (List.filter f l) =? 0)%nat.
Proof.
  induction l as [|x l IH]; simpl; [reflexivity|].
  destruct (f x); simpl; [reflexivity | exact IH].
Qed.

Lemma filter_all {A} (f : A -> bool) (l : list A) :
  (forall x, f x = true) -> List.filter f l = l.
Proof.
  intros Hf. induction l as [|x l IH]; simpl; [reflexivity|].
  rewrite Hf, IH. reflexivity.
Qed.

Lemma truthy_nil {A} (l : list A) : Monica.truthy l = negb (bool_decide (l = [])).
Proof. destruct l; reflexivity. Qed.

Lemma labels_in_nil (c : contact) : labels_in [] c = 0%nat.
Proof.
  unfold labels_in. induction (tags c) as [|t l IH]; simpl; [reflexivity|].
  exact IH.
Qed.

Lemma filter_is_eligible (lf : LabelFilter) (l : list contact) :
  Monica.__filter_contacts_by_label lf l = List.filter (eligible lf) l.
Proof.
  unfold Monica.__filter_contacts_by_label, eligible.
  rewrite !truthy_nil.
  destruct (bool_decide (include lf = [])) eqn:Hi; simpl.
  - destruct (bool_decide (exclude lf = [])) eqn:He; simpl.
    + apply bool_decide_eq_true in He. rewrite He.
      symmetry. apply filter_all. intros c. rewrite labels_in_nil. reflexivity.
    + apply filter_ext. intros c. unfold Monica.all_not_excluded.
      apply forallb_count.
  - apply filter_ext. intros c.
    unfold Monica.any_included, Monica.all_not_excluded, labels_in.
    rewrite existsb_count, forallb_count. reflexivity.
Qed.

(** C1. The label filter keeps, in order, exactly the contacts that are
    eligible: (the include-set is empty or the contact carries at least
    one included label) and the contact carries no excluded label.  With
    both sets empty the list comes back as it is; with a non-empty
    include-set no contact without labels is kept. *)
Theorem filter_contacts_by_label_spec (lf : LabelFilter) (l : list contact) :
  Monica.__filter_contacts_by_label lf l = List.filter (eligible lf) l
  /\ Monica.__filter_contacts_by_label {| include := []; exclude := [] |} l = l
  /\ Forall (fun c => include lf = [] \/ tags c <> [])
       (Monica.__filter_contacts_by_label lf l).
Proof.
  split; [apply filter_is_eligible|]. split; [reflexivity|].
  rewrite filter_is_eligible. apply Forall_forall. intros c Hc.
  apply list_elem_of_In, filter_In in Hc as [_ Hc]. unfold eligible in Hc.
  apply andb_prop in Hc as [Hc _]. apply orb_prop in Hc as [Hc|Hc].
  - left. apply bool_decide_eq_true in Hc. exact Hc.
  - right. intros Ht. unfold labels_in in Hc. rewrite Ht in Hc. discriminate.
Qed.

(** ** Reasoning about the request loops *)

Module Loop.
Import Monica.

(** The state an outcome ends in. *)
Definition final {A} (o : outcome A) : self :=
  match o with
  | Returns _ s | Raises _ s | OutOfFuel s => s
  end.

(** The state right after [request m path]. *)
Definition sent (m : Http.method) (path : string) (s : self) : self :=
  with_api_requests (S (api_requests s)) (with_wire (wire s ++ [Http.Sent m path]) s).

(** The state after the sleep that follows a rate-limit response. *)
Definition slept (sec : Z) (s : self) : self :=
  with_wire (wire s ++ [Http.Slept sec]) s.

(** A response is a rate-limit response when its error message carries
    the server's slow-down sentence: what [__is_slow_down_error] tests. *)
Definition is_rate_limited (r : Http.response) : bool :=
  match Http.error_message (Http.json r) with
  | Some msg => Py.contains slow_down_message msg
  | None => false
  end.

(** A rate-limit response as the server sends it: status 429 and a
    Retry-After header holding a non-negative number of seconds. *)
Definition throttle (r : Http.response) (sec : Z) : Prop :=
  is_rate_limited r = true /\ Http.status_code r = 429
  /\ Http.retry_after r = Some sec /\ 0 <= sec.

Lemma bind_eq {A B} (m : M A) (k : A -> M B) (s : self) :
  (x ← m; k x) s =
  match m s with
  | Returns a s' => k a s'
  | Raises e s' => Raises e s'
  | OutOfFuel s' => OutOfFuel s'
  end.
Proof. reflexivity. Qed.

Lemma while_true_S {L A} (fuel : nat) (body : L -> M (step L A)) (l : L) (s : self) :
  while_true (S fuel) body l s =
  match body l s with
  | Returns (Continue l') s' => while_true fuel body l' s'
  | Returns (Leave a) s' => Returns a s'
  | Raises e s' => Raises e s'
  | OutOfFuel s' => OutOfFuel s'
  end.
Proof.
  simpl. rewrite bind_eq. destruct (body l s) as [[l'|a] s'|e s'|s']; reflexivity.
Qed.

Section Attempt.

Variable remote : nat -> Http.response.
Context {L A : Type}.
Variables (m : Http.method) (path : string) (ok : Z).
Variables (on_success : Http.response -> M (step L A)).
Variables (on_error : string -> M (step L A)).
Variables (l : L) (s : self).

Let r := remote (api_requests s).

Lemma attempt_accepted :
  Http.status_code r = ok ->
  attempt remote m path ok on_success on_error l s = on_success r (sent m path s).
Proof.
  intros H. unfold attempt. rewrite bind_eq. unfold request. fold r.
  rewrite H, Z.eqb_refl. reflexivity.
Qed.

Lemma attempt_throttled (msg : string) (sec : Z) :
  Http.status_code r <> ok -> Http.error_message (Http.json r) = Some msg ->
  Py.contains slow_down_message msg = true ->
  Http.retry_after r = Some sec -> 0 <= sec ->
  attempt remote m path ok on_success on_error l s
  = Returns (Continue l) (slept sec (sent m path s)).
Proof.
  intros H He Hc Hr Hs. unfold attempt. rewrite bind_eq. unfold request. fold r.
  apply Z.eqb_neq in H. rewrite H. rewrite bind_eq. unfold json_error.
  rewrite He. unfold ret at 1. rewrite bind_eq. unfold __is_slow_down_error.
  rewrite Hc, Hr. rewrite bind_eq. unfold sleep.
  apply Z.ltb_ge in Hs. rewrite Hs. reflexivity.
Qed.

Lemma attempt_rejected (msg : string) :
  Http.status_code r <> ok -> Http.error_message (Http.json r) = Some msg ->
  Py.contains slow_down_message msg = false ->
  attempt remote m path ok on_success on_error l s = on_error msg (sent m path s).
Proof.
  intros H He Hc. unfold attempt. rewrite bind_eq. unfold request. fold r.
  apply Z.eqb_neq in H. rewrite H. rewrite bind_eq. unfold json_error.
  rewrite He. unfold ret at 1. rewrite bind_eq. unfold __is_slow_down_error.
  rewrite Hc. reflexivity.
Qed.

(** All the ways one turn of a request loop can go. *)
Lemma attempt_cases :
  attempt remote m path ok on_success on_error l s =
  if Http.status_code r =? ok then on_success r (sent m path s)
  else
    match Http.error_message (Http.json r) with
    | None => Raises (Py.KeyError "error") (sent m path s)
    | Some msg =>
        if Py.contains slow_down_message msg then
          match Http.retry_after r with
          | None =>
              Raises (Py.TypeError
                "int() argument must be a string, a bytes-like object or a real number, not 'NoneType'")
                (sent m path s)
          | Some sec =>
              if sec <? 0
              then Raises (Py.ValueError "sleep length must be non-negative")
                     (sent m path s)
              else Returns (Continue l) (slept sec (sent m path s))
          end
        else on_error msg (sent m path s)
    end.
Proof.
  unfold attempt. rewrite bind_eq. unfold request. fold r.
  destruct (Http.status_code r =? ok); [reflexivity|].
  rewrite bind_eq. unfold json_error.
  destruct (Http.error_message (Http.json r)) as [msg|]; [|reflexivity].
  unfold ret at 1. rewrite bind_eq. unfold __is_slow_down_error.
  destruct (Py.contains slow_down_message msg); [|reflexivity].
  destruct (Http.retry_after r) as [sec|]; [|reflexivity].
  rewrite bind_eq. unfold sleep. destruct (sec <? 0); reflexivity.
Qed.

End Attempt.

End Loop.

(** ** Session statistics *)

(** C9. After [update_statistics] no key is in both the updated-contacts
    and the created-contacts dict, every updated entry whose key was not
    created during the session is still there with its value, and the
    created-contacts dict is as before.  Keys are compared as Python
    compares dict keys. *)
Theorem update_statistics_disjoint (s : Monica.self) :
  let s' := Loop.final (Monica.update_statistics s) in
  Monica.update_statistics s = Monica.Returns tt s'
  /\ dom (Monica.updated_contacts s') ## dom (Monica.created_contacts s')
  /\ (forall k, k ∉ dom (Monica.created_contacts s) ->
        Monica.updated_contacts s' !! k = Monica.updated_contacts s !! k)
  /\ Monica.created_contacts s' = Monica.created_contacts s.
Proof.
  simpl. split; [reflexivity|]. split; [|split; [|reflexivity]].
  - apply elem_of_disjoint. intros k Hu Hc.
    apply elem_of_dom in Hu as [v Hv].
    apply map_lookup_filter_Some in Hv as [_ Hv]. simpl in Hv. contradiction.
  - intros k Hk.
    destruct (Monica.updated_contacts s !! k) as [v|] eqn:Hv.
    + apply map_lookup_filter_Some. split; [exact Hv | exact Hk].
    + apply map_lookup_filter_None. left. exact Hv.
Qed.

(** ** The contact cache under a failed update *)

Section UpdateContact.

Import Monica.
Variable remote : nat -> Http.response.
Variables (monica_id : Py.id) (data : Form.data).

(** While the loop has not left through its success branch, the cache
    is the one it started with. *)
Lemma update_contact_loop_raises (fuel : nat) (name : string) :
  forall (s s' : self) (msg : string),
  while_true fuel (attempt remote Http.PUT ("/contacts/" ++ Py.str monica_id) 200
    (fun response =>
       contact ← json_contact response;
       mark_updated monica_id;;
       contacts_append contact;;
       log_info (who (complete_name contact) monica_id ++ ": Contact updated successfully");;
       database_update monica_id (updated_at contact) (Some (complete_name contact));;
       ret (Leave tt))
    (fun error =>
       log_error (who name monica_id ++ ": Error updating Monica contact: "
                  ++ error ++ ". Does it exist?");;
       log_error ("Monica form data: " ++ Form.repr data);;
       raise (Py.MonicaFetchError "Error updating Monica contact!"))) tt s
  = Raises (Py.MonicaFetchError msg) s' ->
  contacts s' = contacts s.
Proof.
  induction fuel as [|fuel IH]; intros s s' msg; [discriminate|].
  rewrite Loop.while_true_S, Loop.attempt_cases.
  destruct (Http.status_code (remote (api_requests s)) =? 200).
  - rewrite Loop.bind_eq. unfold json_contact.
    destruct (Http.data (Http.json (remote (api_requests s)))) as [[c| | | |]|];
      discriminate.
  - destruct (Http.error_message (Http.json (remote (api_requests s)))) as [e|];
      [|discriminate].
    destruct (Py.contains slow_down_message e).
    + destruct (Http.retry_after (remote (api_requests s))) as [sec|]; [|discriminate].
      destruct (sec <? 0); [discriminate|].
      intros H. apply IH in H. exact H.
    + intros H. inversion H. reflexivity.
Qed.

End UpdateContact.

(** C10. When [update_contact] raises a fetch error, the cached contact
    list is the one from before the call without the contacts of that
    id: the removal made before the request is not undone, and no cached
    contact has the id. *)
Theorem update_contact_error_drops_cached_contact
    (remote : nat -> Http.response) (fuel : nat) (monica_id : Py.id)
    (data : Form.data) (s s' : Monica.self) (msg : string) :
  Monica.update_contact remote fuel monica_id data s
    = Monica.Raises (Py.MonicaFetchError msg) s' ->
  Monica.contacts s'
    = List.filter (fun c => negb (Monica.same_id monica_id c)) (Monica.contacts s)
  /\ Forall (fun c => Py.str (id c) <> Py.str monica_id) (Monica.contacts s').
Proof.
  intros H.
  assert (Hc : Monica.contacts s'
    = List.filter (fun c => negb (Monica.same_id monica_id c)) (Monica.contacts s)).
  { unfold Monica.update_contact in H. rewrite Loop.bind_eq in H.
    unfold Monica.modify in H.
    apply update_contact_loop_raises in H. exact H. }
  split; [exact Hc|]. rewrite Hc. apply Forall_forall. intros c Hin.
  apply list_elem_of_In, filter_In in Hin as [_ Hin].
  unfold Monica.same_id in Hin. apply negb_true_iff, String.eqb_neq in Hin.
  exact Hin.
Qed.

(** ** What a computation leaves alone *)

Module Keeps.
Import Monica Loop.

Section Keeps.

Context {X : Type}.
Variable f : self -> X.

(** [m] keeps [f]: whatever the outcome, [f] of the final state is [f]
    of the initial one. *)
Definition keeps {A} (m : M A) : Prop :=
  forall s, f (final (m s)) = f s.

Lemma keeps_ret {A} (a : A) : keeps (ret a).
Proof. intros s. reflexivity. Qed.

Lemma keeps_raise {A} (e : Py.exn) : keeps (@raise A e).
Proof. intros s. reflexivity. Qed.

Lemma keeps_gets {A} (g : self -> A) : keeps (gets g).
Proof. intros s. reflexivity. Qed.

Lemma keeps_modify (g : self -> self) :
  (forall s, f (g s) = f s) -> keeps (modify g).
Proof. intros H s. apply H. Qed.

Lemma keeps_bind {A B} (m : M A) (k : A -> M B) :
  keeps m -> (forall a, keeps (k a)) -> keeps (x ← m; k x).
Proof.
  intros Hm Hk s. rewrite bind_eq. specialize (Hm s).
  destruct (m s) as [a s'|e s'|s']; simpl in *; [|exact Hm|exact Hm].
  rewrite <- Hm. apply Hk.
Qed.

Lemma keeps_try_except {A} (m : M A) (h : Py.exn -> M A) :
  keeps m -> (forall e, keeps (h e)) -> keeps (try_except m h).
Proof.
  intros Hm Hh s. unfold try_except. specialize (Hm s).
  destruct (m s) as [a s'|e s'|s']; simpl in *; [exact Hm| |exact Hm].
  rewrite <- Hm. apply Hh.
Qed.

Lemma keeps_while_true {L A} (fuel : nat) (body : L -> M (step L A)) :
  (forall l, keeps (body l)) -> forall l, keeps (while_true fuel body l).
Proof.
  intros Hb. induction fuel as [|fuel IH]; intros l s; [reflexivity|].
  rewrite while_true_S. specialize (Hb l s).
  destruct (body l s) as [[l'|a] s'|e s'|s']; simpl in *; try exact Hb.
  rewrite <- Hb. apply IH.
Qed.

Lemma keeps_sleep (sec : Z) :
  (forall v s, f (with_wire v s) = f s) -> keeps (sleep sec).
Proof.
  intros H s. unfold sleep. destruct (sec <? 0); [reflexivity|]. apply H.
Qed.

Lemma keeps_attempt {L A} remote (m : Http.method) (path : string) (ok : Z)
    (on_success : Http.response -> M (step L A))
    (on_error : string -> M (step L A)) (l : L) :
  (forall v s, f (with_wire v s) = f s) ->
  (forall v s, f (with_api_requests v s) = f s) ->
  (forall r, keeps (on_success r)) -> (forall e, keeps (on_error e)) ->
  keeps (attempt remote m path ok on_success on_error l).
Proof.
  intros Hw Ha Hs He s. rewrite attempt_cases.
  assert (Hsent : f (sent m path s) = f s).
  { unfold sent. rewrite Ha, Hw. reflexivity. }
  destruct (_ =? ok); [rewrite <- Hsent; apply Hs|].
  destruct (Http.error_message _) as [msg|]; [|exact Hsent].
  destruct (Py.contains _ msg); [|rewrite <- Hsent; apply He].
  destruct (Http.retry_after _) as [sec|]; [|exact Hsent].
  destruct (sec <? 0); [exact Hsent|].
  simpl. unfold slept. rewrite Hw. exact Hsent.
Qed.

Lemma keeps_log_info (msg : string) :
  (forall v s, f (with_log v s) = f s) -> keeps (log_info msg).
Proof. intros H s. apply H. Qed.

Lemma keeps_log_warning (msg : string) :
  (forall v s, f (with_log v s) = f s) -> keeps (log_warning msg).
Proof. intros H s. apply H. Qed.

Lemma keeps_log_error (msg : string) :
  (forall v s, f (with_log v s) = f s) -> keeps (log_error msg).
Proof. intros H s. apply H. Qed.

Lemma keeps_database_update (i : Py.id) (t : string) (n : option string) :
  (forall v s, f (with_database v s) = f s) -> keeps (database_update i t n).
Proof. intros H s. apply H. Qed.

Lemma keeps_mark_updated (i : Py.id) :
  (forall v s, f (with_updated_contacts v s) = f s) -> keeps (mark_updated i).
Proof. intros H s. apply H. Qed.

Lemma keeps_mark_created (i : Py.id) :
  (forall v s, f (with_created_contacts v s) = f s) -> keeps (mark_created i).
Proof. intros H s. apply H. Qed.

Lemma keeps_mark_deleted (i : Py.id) :
  (forall v s, f (with_deleted_contacts v s) = f s) -> keeps (mark_deleted i).
Proof. intros H s. apply H. Qed.

Lemma keeps_contacts_append (c : contact) :
  (forall v s, f (with_contacts v s) = f s) -> keeps (contacts_append c).
Proof. intros H s. apply H. Qed.

Lemma keeps_json_contact (r : Http.response) : keeps (json_contact r).
Proof. intros s. unfold json_contact. destruct (Http.data _) as [[]|]; reflexivity. Qed.

Lemma keeps_json_contacts (r : Http.response) : keeps (json_contacts r).
Proof. intros s. unfold json_contacts. destruct (Http.data _) as [[]|]; reflexivity. Qed.

Lemma keeps_json_types (r : Http.response) : keeps (json_types r).
Proof. intros s. unfold json_types. destruct (Http.data _) as [[]|]; reflexivity. Qed.

Lemma keeps_json_item (r : Http.response) : keeps (json_item r).
Proof. intros s. unfold json_item. destruct (Http.data _) as [[]|]; reflexivity. Qed.

Lemma keeps_json_items (r : Http.response) : keeps (json_items r).
Proof. intros s. unfold json_items. destruct (Http.data _) as [[]|]; reflexivity. Qed.

Lemma keeps_json_last_page (r : Http.response) : keeps (json_last_page r).
Proof. intros s. unfold json_last_page. destruct (Http.last_page _); reflexivity. Qed.

Lemma keeps_first {A} (l : list A) : keeps (first l).
Proof. intros s. destruct l; reflexivity. Qed.

End Keeps.

End Keeps.

Ltac keeps_side := intros; reflexivity.

(** Walks a computation built from the primitives of the class. *)
Ltac keeps_tac :=
  repeat first
    [ progress intros
    | apply Keeps.keeps_ret | apply Keeps.keeps_raise | apply Keeps.keeps_gets
    | apply Keeps.keeps_json_contact | apply Keeps.keeps_json_contacts
    | apply Keeps.keeps_json_types | apply Keeps.keeps_json_item
    | apply Keeps.keeps_json_items | apply Keeps.keeps_json_last_page
    | apply Keeps.keeps_first
    | apply Keeps.keeps_log_info; keeps_side
    | apply Keeps.keeps_log_warning; keeps_side
    | apply Keeps.keeps_log_error; keeps_side
    | apply Keeps.keeps_database_update; keeps_side
    | apply Keeps.keeps_mark_updated; keeps_side
    | apply Keeps.keeps_mark_created; keeps_side
    | apply Keeps.keeps_mark_deleted; keeps_side
    | apply Keeps.keeps_contacts_append; keeps_side
    | apply Keeps.keeps_modify; keeps_side
    | apply Keeps.keeps_attempt; [keeps_side | keeps_side | | ]
    | apply Keeps.keeps_while_true
    | apply Keeps.keeps_try_except
    | apply Keeps.keeps_bind
    | match goal with
      | |- Keeps.keeps _ (match ?x with _ => _ end) => destruct x
      end
    | progress cbv zeta ].

(** ** The mapping store and the sub-resource mutations *)

Section Database.

Import Monica.
Variable remote : nat -> Http.response.
Variable fuel : nat.

Lemma add_note_keeps_database i n : Keeps.keeps database (add_note remote fuel i n).
Proof. unfold add_note. keeps_tac. Qed.

Lemma update_note_keeps_database j i n :
  Keeps.keeps database (update_note remote fuel j i n).
Proof. unfold update_note. keeps_tac. Qed.

Lemma delete_note_keeps_database j i n :
  Keeps.keeps database (delete_note remote fuel j i n).
Proof. unfold delete_note. keeps_tac. Qed.

Lemma remove_tags_keeps_database t i n :
  Keeps.keeps database (remove_tags remote fuel t i n).
Proof. unfold remove_tags. keeps_tac. Qed.

Lemma add_tags_keeps_database t i n :
  Keeps.keeps database (add_tags remote fuel t i n).
Proof. unfold add_tags. keeps_tac. Qed.

Lemma delete_address_keeps_database a i n :
  Keeps.keeps database (delete_address remote fuel a i n).
Proof. unfold delete_address. keeps_tac. Qed.

Lemma create_address_keeps_database i n :
  Keeps.keeps database (create_address remote fuel i n).
Proof. unfold create_address. keeps_tac. Qed.

Lemma create_contact_field_keeps_database i n :
  Keeps.keeps database (create_contact_field remote fuel i n).
Proof. unfold create_contact_field. keeps_tac. Qed.

Lemma delete_contact_field_keeps_database j i n :
  Keeps.keeps database (delete_contact_field remote fuel j i n).
Proof. unfold delete_contact_field. keeps_tac. Qed.

End Database.

(** ** Rate limiting at the boundary of the collaborator *)

Module Polite.
Import Monica Loop.

Section Polite.

Variable remote : nat -> Http.response.

(** Every rate-limit response of the stream is one the server could have
    sent: status 429 with a usable Retry-After. *)
Definition well_formed : Prop :=
  forall n, is_rate_limited (remote n) = true -> exists sec, throttle (remote n) sec.

(** [exchange k t k']: the events [t] are what the process does while
    it consumes the responses [k .. k'-1]: one request per response, and
    after a rate-limit response a sleep of its Retry-After followed, if
    anything follows, by the same request again. *)
Inductive exchange : nat -> list Http.event -> nat -> Prop :=
| exchange_nil k : exchange k [] k
| exchange_answer k m path t k' :
    is_rate_limited (remote k) = false ->
    exchange (S k) t k' ->
    exchange k (Http.Sent m path :: t) k'
| exchange_retry k m path sec t k' :
    is_rate_limited (remote k) = true ->
    Http.retry_after (remote k) = Some sec ->
    exchange (S k) t k' ->
    (t = [] \/ exists t', t = Http.Sent m path :: t') ->
    exchange k (Http.Sent m path :: Http.Slept sec :: t) k'.

(** The wire of [s'] extends the wire of [s] by an exchange. *)
Definition consistent (s s' : self) : Prop :=
  exists t, wire s' = (wire s ++ t)%list
            /\ exchange (api_requests s) t (api_requests s').

(** The last response consumed between [k] and [k'], if any, is not a
    rate-limit response. *)
Definition answered (k k' : nat) : Prop :=
  k' = k \/ exists n, k' = S n /\ is_rate_limited (remote n) = false.

(** A computation is polite when a finished run has waited out every
    rate-limit response it met and was decided by another response. *)
Definition polite {A} (m : M A) : Prop :=
  forall s,
    match m s with
    | Returns _ s' | Raises _ s' =>
        consistent s s' /\ answered (api_requests s) (api_requests s')
    | OutOfFuel s' => consistent s s'
    end.

Lemma exchange_le k t k' : exchange k t k' -> (k <= k')%nat.
Proof. induction 1; lia. Qed.

Lemma exchange_nil_inv k k' : exchange k [] k' -> k' = k.
Proof. inversion 1. reflexivity. Qed.

Lemma exchange_app k t1 k1 t2 k2 :
  exchange k t1 k1 -> answered k k1 -> exchange k1 t2 k2 ->
  exchange k (t1 ++ t2) k2.
Proof.
  intros H. revert t2 k2. induction H as
    [k|k m path t k' Hrl Ht IH|k m path sec t k' Hrl Hsec Ht IH Hhd];
    intros t2 k2 Ha H2.
  - exact H2.
  - simpl. apply exchange_answer; [exact Hrl|]. apply IH; [|exact H2].
    destruct Ha as [Ha|Ha]; [apply exchange_le in Ht; lia|].
    right. exact Ha.
  - assert (Ha' : answered (S k) k').
    { destruct Ha as [Ha|Ha]; [apply exchange_le in Ht; lia|]. right. exact Ha. }
    destruct Hhd as [->|[t' ->]].
    + apply exchange_nil_inv in Ht. subst k'.
      destruct Ha as [Ha|[n [Hn Hf]]]; [lia|].
      injection Hn as <-. congruence.
    + simpl. apply exchange_retry; [exact Hrl|exact Hsec| |right; eexists; reflexivity].
      apply (IH t2 k2 Ha' H2).
Qed.

Lemma consistent_refl s : consistent s s.
Proof. exists []. split; [symmetry; apply app_nil_r|constructor]. Qed.

Lemma consistent_trans s1 s2 s3 :
  consistent s1 s2 -> answered (api_requests s1) (api_requests s2) ->
  consistent s2 s3 -> consistent s1 s3.
Proof.
  intros [t1 [Hw1 He1]] Ha [t2 [Hw2 He2]]. exists (t1 ++ t2)%list. split.
  - rewrite Hw2, Hw1. symmetry. apply app_assoc.
  - eapply exchange_app; eassumption.
Qed.

Lemma answered_trans k1 k2 k3 :
  (k1 <= k2)%nat -> answered k1 k2 -> answered k2 k3 -> answered k1 k3.
Proof.
  intros Hle H12 [->|H23]; [exact H12|]. right. exact H23.
Qed.

Lemma consistent_le s s' : consistent s s' -> (api_requests s <= api_requests s')%nat.
Proof. intros [t [_ He]]. eapply exchange_le, He. Qed.

(** A computation that touches neither the request counter nor the wire
    is polite. *)
Definition quiet {A} (m : M A) : Prop :=
  Keeps.keeps (fun s => (api_requests s, wire s)) m.

Lemma quiet_consistent (s s' : self) :
  (api_requests s', wire s') = (api_requests s, wire s) ->
  consistent s s' /\ answered (api_requests s) (api_requests s').
Proof.
  intros H. injection H as Ha Hw. split.
  - exists []. rewrite Hw, Ha. split; [symmetry; apply app_nil_r|constructor].
  - left. exact Ha.
Qed.

Lemma polite_quiet {A} (m : M A) : quiet m -> polite m.
Proof.
  intros H s. specialize (H s).
  destruct (m s) as [a s'|e s'|s']; simpl in H;
    apply quiet_consistent in H; tauto.
Qed.

Lemma polite_bind {A B} (m : M A) (k : A -> M B) :
  polite m -> (forall a, polite (k a)) -> polite (x ← m; k x).
Proof.
  intros Hm Hk s. rewrite bind_eq. specialize (Hm s).
  destruct (m s) as [a s1|e s1|s1]; [|exact Hm|exact Hm].
  destruct Hm as [Hc Ha]. specialize (Hk a s1).
  destruct (k a s1) as [b s2|e s2|s2].
  - destruct Hk as [Hc2 Ha2]. split.
    + eapply consistent_trans; eassumption.
    + eapply answered_trans; [apply consistent_le, Hc|exact Ha|exact Ha2].
  - destruct Hk as [Hc2 Ha2]. split.
    + eapply consistent_trans; eassumption.
    + eapply answered_trans; [apply consistent_le, Hc|exact Ha|exact Ha2].
  - eapply consistent_trans; eassumption.
Qed.

Lemma polite_try_except {A} (m : M A) (h : Py.exn -> M A) :
  polite m -> (forall e, polite (h e)) -> polite (try_except m h).
Proof.
  intros Hm Hh s. unfold try_except. specialize (Hm s).
  destruct (m s) as [a s1|e s1|s1]; [exact Hm| |exact Hm].
  destruct Hm as [Hc Ha]. specialize (Hh e s1).
  destruct (h e s1) as [b s2|e2 s2|s2].
  - destruct Hh as [Hc2 Ha2]. split.
    + eapply consistent_trans; eassumption.
    + eapply answered_trans; [apply consistent_le, Hc|exact Ha|exact Ha2].
  - destruct Hh as [Hc2 Ha2]. split.
    + eapply consistent_trans; eassumption.
    + eapply answered_trans; [apply consistent_le, Hc|exact Ha|exact Ha2].
  - eapply consistent_trans; eassumption.
Qed.

End Polite.

Section PoliteLoop.

Variable remote : nat -> Http.response.
Hypothesis wf : well_formed remote.

Context {L A : Type}.
Variables (m : Http.method) (path : L -> string) (ok : Z).
Variable on_success : L -> Http.response -> M (step L A).
Variable on_error : L -> string -> M (step L A).
Hypothesis ok_is_success : ok <> 429.
Hypothesis on_success_quiet : forall l r, quiet (on_success l r).
Hypothesis on_error_quiet : forall l e, quiet (on_error l e).

Let body (l : L) : M (step L A) :=
  attempt remote m (path l) ok (on_success l) (on_error l) l.

(** What a run of the loop from [s] with local state [l] has put on the
    wire when it ends in [o]. *)
Definition traced (l : L) (s : self) (o : outcome A) : Prop :=
  exists t,
    wire (final o) = (wire s ++ t)%list
    /\ exchange remote (api_requests s) t (api_requests (final o))
    /\ (t = [] \/ exists t', t = Http.Sent m (path l) :: t')
    /\ match o with
       | OutOfFuel _ => True
       | _ => exists n, api_requests (final o) = S n
                        /\ is_rate_limited (remote n) = false
       end.

(** After a response that is not a rate-limit response, a quiet handler
    decides how the loop goes on. *)
Lemma traced_handler (fuel : nat) (l : L) (s : self) (h : M (step L A)) :
  (forall l' s', traced l' s' (while_true fuel body l' s')) ->
  quiet h ->
  is_rate_limited (remote (api_requests s)) = false ->
  traced l s
    match h (sent m (path l) s) with
    | Returns (Continue l') s' => while_true fuel body l' s'
    | Returns (Leave a) s' => Returns a s'
    | Raises e s' => Raises e s'
    | OutOfFuel s' => OutOfFuel s'
    end.
Proof.
  intros IH Hq Hrl. specialize (Hq (sent m (path l) s)).
  assert (Hone : forall s1,
    (api_requests s1, wire s1)
      = (api_requests (sent m (path l) s), wire (sent m (path l) s)) ->
    wire s1 = (wire s ++ [Http.Sent m (path l)])%list
    /\ exchange remote (api_requests s) [Http.Sent m (path l)] (api_requests s1)
    /\ (exists n, api_requests s1 = S n /\ is_rate_limited (remote n) = false)).
  { intros s1 H1. injection H1 as Ha Hw. simpl in Ha, Hw. rewrite Ha, Hw.
    split; [reflexivity|]. split.
    - apply exchange_answer; [exact Hrl|constructor].
    - eexists. split; [reflexivity|exact Hrl]. }
  destruct (h (sent m (path l) s)) as [[l'|a] s1|e s1|s1]; simpl in Hq;
    apply Hone in Hq as [Hw [Hx Ha]].
  - destruct (IH l' s1) as [t [Hw' [Hx' [_ Ha']]]].
    exists (Http.Sent m (path l) :: t). split; [|split; [|split]].
    + rewrite Hw', Hw, <- app_assoc. reflexivity.
    + apply exchange_answer; [exact Hrl|].
      inversion Hx; subst.
      match goal with H : exchange _ _ [] _ |- _ => apply exchange_nil_inv in H end.
      congruence.
    + right. eexists. reflexivity.
    + exact Ha'.
  - exists [Http.Sent m (path l)]. simpl. repeat split; try assumption.
    right. eexists. reflexivity.
  - exists [Http.Sent m (path l)]. simpl. repeat split; try assumption.
    right. eexists. reflexivity.
  - exists [Http.Sent m (path l)]. simpl. repeat split; try assumption.
    right. eexists. reflexivity.
Qed.

Lemma loop_traced (fuel : nat) :
  forall l s, traced l s (while_true fuel body l s).
Proof.
  induction fuel as [|fuel IH]; intros l s.
  - exists []. simpl. split; [symmetry; apply app_nil_r|].
    split; [constructor|]. split; [left; reflexivity|exact I].
  - rewrite while_true_S. unfold body at 1. rewrite attempt_cases.
    destruct (is_rate_limited (remote (api_requests s))) eqn:Hrl.
    + destruct (wf _ Hrl) as [sec [_ [Hst [Hsec Hpos]]]].
      assert (Hne : (Http.status_code (remote (api_requests s)) =? ok) = false).
      { apply Z.eqb_neq. congruence. }
      rewrite Hne. pose proof Hrl as Hrl'. unfold is_rate_limited in Hrl'.
      destruct (Http.error_message _) as [msg|]; [|discriminate].
      rewrite Hrl', Hsec. apply Z.ltb_ge in Hpos. rewrite Hpos.
      destruct (IH l (slept sec (sent m (path l) s))) as [t [Hw [Hx [Hhd Ha]]]].
      exists (Http.Sent m (path l) :: Http.Slept sec :: t).
      split; [|split; [|split]].
      * rewrite Hw. simpl. rewrite <- !app_assoc. reflexivity.
      * apply exchange_retry; [exact Hrl|exact Hsec|exact Hx|exact Hhd].
      * right. eexists. reflexivity.
      * exact Ha.
    + destruct (_ =? ok).
      * apply traced_handler; [exact IH|apply on_success_quiet|exact Hrl].
      * pose proof Hrl as Hrl'. unfold is_rate_limited in Hrl'.
        destruct (Http.error_message _) as [msg|].
        -- rewrite Hrl'. apply traced_handler; [exact IH|apply on_error_quiet|exact Hrl].
        -- apply (traced_handler fuel l s (raise (Py.KeyError "error")));
             [exact IH|intros s0; reflexivity|exact Hrl].
Qed.

Lemma polite_loop (fuel : nat) (l : L) : polite remote (while_true fuel body l).
Proof.
  intros s. destruct (loop_traced fuel l s) as [t [Hw [Hx [_ Ha]]]].
  destruct (while_true fuel body l s) as [a s'|e s'|s']; simpl in *.
  - split; [exists t; tauto|right; exact Ha].
  - split; [exists t; tauto|right; exact Ha].
  - exists t; tauto.
Qed.

End PoliteLoop.

End Polite.

Section PoliteOperations.

Import Monica Loop Polite.
Variable remote : nat -> Http.response.
Hypothesis wf : well_formed remote.

Lemma polite_attempt_loop {A} (m : Http.method) (path : string) (ok : Z)
    (on_success : Http.response -> M (step unit A))
    (on_error : string -> M (step unit A)) (fuel : nat) :
  ok <> 429 ->
  (forall r, quiet (on_success r)) -> (forall e, quiet (on_error e)) ->
  polite remote (while_true fuel (attempt remote m path ok on_success on_error) tt).
Proof.
  intros Hok Hs He.
  exact (polite_loop remote wf m (fun _ => path) ok (fun _ => on_success)
           (fun _ => on_error) Hok (fun _ => Hs) (fun _ => He) fuel tt).
Qed.

Lemma while_true_ext {L A} (body1 body2 : L -> M (step L A)) :
  (forall l s, body1 l s = body2 l s) ->
  forall fuel l s, while_true fuel body1 l s = while_true fuel body2 l s.
Proof.
  intros H. induction fuel as [|fuel IH]; intros l s; [reflexivity|].
  rewrite !while_true_S, H.
  destruct (body2 l s) as [[l'|a] s'|e s'|s']; try reflexivity. apply IH.
Qed.

Lemma polite_ext {A} (m1 m2 : M A) :
  (forall s, m1 s = m2 s) -> polite remote m1 -> polite remote m2.
Proof. intros H Hp s. rewrite <- H. apply Hp. Qed.

End PoliteOperations.

Ltac quiet_tac := unfold Polite.quiet; keeps_tac.

Ltac polite_tac wf :=
  repeat first
    [ progress intros
    | solve [apply Polite.polite_quiet; quiet_tac]
    | apply (polite_attempt_loop _ wf); [discriminate | quiet_tac | quiet_tac]
    | apply Polite.polite_try_except
    | apply Polite.polite_bind
    | match goal with
      | |- Polite.polite _ (match ?x with _ => _ end) => destruct x
      end
    | progress cbv zeta ].

Section PoliteRun.

Import Monica Loop Polite.
Variable remote : nat -> Http.response.
Hypothesis wf : well_formed remote.

Lemma get_contacts_polite (fuel : nat) : polite remote (get_contacts remote fuel).
Proof.
  unfold get_contacts. apply polite_try_except; [|polite_tac wf].
  apply polite_bind; [polite_tac wf|]. intros [|]; [polite_tac wf|].
  apply polite_bind; [polite_tac wf|]. intros _.
  apply polite_bind; [|polite_tac wf].
  eapply polite_ext;
    [|apply (polite_loop remote wf Http.GET
         (fun l : Z * list contact => "/contacts?page=" ++ Py.str (Py.Int l.1)) 200
         (fun l response =>
            data ← json_contacts response;
            max_page ← json_last_page response;
            if l.1 =? max_page then
              lf ← gets label_filter;
              modify (with_contacts (__filter_contacts_by_label lf (l.2 ++ data)%list));;
              ret (Leave tt)
            else ret (Continue (l.1 + 1, (l.2 ++ data)%list)))
         (fun _ error =>
            log_error ("Error fetching Monica contacts: " ++ error);;
            raise (Py.MonicaFetchError ("Error fetching Monica contacts: " ++ error))))];
    [|discriminate|quiet_tac|quiet_tac].
  intros s. apply while_true_ext. intros [page cs] s0. reflexivity.
Qed.

Lemma get_contact_polite (fuel : nat) (i : Py.id) :
  polite remote (get_contact remote fuel i).
Proof. unfold get_contact. polite_tac wf. Qed.

Lemma get_gender_mapping_polite (fuel : nat) :
  polite remote (get_gender_mapping remote fuel).
Proof. unfold get_gender_mapping. polite_tac wf. Qed.

Lemma run_polite (fuel : nat) (op : operation) : polite remote (run remote fuel op).
Proof.
  destruct op; unfold run, void.
  - apply polite_bind; [apply get_gender_mapping_polite|polite_tac wf].
  - unfold update_contact. polite_tac wf.
  - unfold delete_contact. polite_tac wf.
  - unfold create_contact. polite_tac wf.
  - apply polite_bind; [apply get_contacts_polite|polite_tac wf].
  - apply polite_bind; [apply get_contact_polite|polite_tac wf].
  - unfold get_notes. polite_tac wf.
  - unfold add_note. polite_tac wf.
  - unfold update_note. polite_tac wf.
  - unfold delete_note. polite_tac wf.
  - unfold remove_tags. polite_tac wf.
  - unfold add_tags. polite_tac wf.
  - unfold update_career.
    apply polite_bind; [apply get_contact_polite|polite_tac wf].
  - unfold delete_address. polite_tac wf.
  - unfold create_address. polite_tac wf.
  - unfold get_contact_fields. polite_tac wf.
  - unfold get_contact_field_id, __get_contact_field_types. polite_tac wf.
  - unfold create_contact_field. polite_tac wf.
  - unfold delete_contact_field. polite_tac wf.
  - unfold MonicaContactUploadForm.__init__.
    apply polite_bind; [|polite_tac wf].
    apply polite_bind; [apply get_gender_mapping_polite|polite_tac wf].
Qed.

End PoliteRun.

(** C6. Under a server whose rate-limit responses are well formed (status
    429, a non-negative Retry-After), whenever an operation of the
    collaborator returns or raises, the wire shows that every rate-limit
    response it met was followed by a sleep of its Retry-After and then
    by the same request again, and the response that decided the outcome
    was not a rate-limit response.  A run that is still going has done
    the same so far. *)
Theorem rate_limit_is_waited_out (remote : nat -> Http.response)
    (wf : Polite.well_formed remote) (fuel : nat) (op : operation)
    (s : Monica.self) :
  match run remote fuel op s with
  | Monica.Returns _ s' | Monica.Raises _ s' =>
      Polite.consistent remote s s'
      /\ Polite.answered remote (Monica.api_requests s) (Monica.api_requests s')
  | Monica.OutOfFuel s' => Polite.consistent remote s s'
  end.
Proof. apply (run_polite remote wf fuel op s). Qed.

Lemma exchange_all_throttled (remote : nat -> Http.response) k t k' :
  Polite.exchange remote k t k' -> Polite.answered remote k k' ->
  (forall n, Loop.is_rate_limited (remote n) = true) ->
  k' = k /\ t = [].
Proof.
  intros Hx Ha Hall. destruct Ha as [->|[n [_ Hn]]]; [|rewrite Hall in Hn; discriminate].
  split; [reflexivity|]. inversion Hx; subst; try reflexivity;
    match goal with H : Polite.exchange _ (S _) _ _ |- _ =>
      apply Polite.exchange_le in H; lia end.
Qed.

(** ** Retrying through a run of rate-limit responses *)

Section Retried.

Import Monica Loop.
Variable remote : nat -> Http.response.
Variables (m : Http.method) (path : string).

(** The state after [n] rounds of request, rate-limit response, sleep. *)
Fixpoint retried (n : nat) (s : self) : self :=
  match n with
  | O => s
  | S n' =>
      retried n'
        (slept (default 0 (Http.retry_after (remote (api_requests s))))
           (sent m path s))
  end.

(** The events of these rounds, from request number [k]. *)
Fixpoint retry_trace (n k : nat) : list Http.event :=
  match n with
  | O => []
  | S n' =>
      Http.Sent m path
      :: Http.Slept (default 0 (Http.retry_after (remote k)))
      :: retry_trace n' (S k)
  end.

Lemma retried_eq (n : nat) :
  forall s,
    retried n s
    = with_api_requests (api_requests s + n)
        (with_wire (wire s ++ retry_trace n (api_requests s)) s).
Proof.
  induction n as [|n IH]; intros s; simpl.
  - rewrite Nat.add_0_r, app_nil_r. destruct s; reflexivity.
  - rewrite IH. destruct s. unfold slept, sent, with_api_requests, with_wire.
    simpl.
    replace (S (api_requests0 + n)) with (api_requests0 + S n)%nat by lia.
    f_equal. rewrite <- !app_assoc. reflexivity.
Qed.

Lemma retried_api_requests (n : nat) (s : self) :
  api_requests (retried n s) = (api_requests s + n)%nat.
Proof. rewrite retried_eq. reflexivity. Qed.

Context {L A : Type}.
Variables (ok : Z).
Variables (on_success : Http.response -> M (step L A)).
Variables (on_error : string -> M (step L A)).

(** [n] rate-limit responses cost [n] turns of the loop and nothing
    else. *)
Lemma loop_skip (n : nat) :
  forall (fuel : nat) (l : L) (s : self),
    ok <> 429 ->
    (forall i, (i < n)%nat -> exists sec, throttle (remote (api_requests s + i)) sec) ->
    while_true (n + fuel) (attempt remote m path ok on_success on_error) l s
    = while_true fuel (attempt remote m path ok on_success on_error) l (retried n s).
Proof.
  induction n as [|n IH]; intros fuel l s Hok Hn; [reflexivity|].
  destruct (Hn 0%nat) as [sec [Hrl [Hst [Hsec Hpos]]]]; [lia|].
  rewrite Nat.add_0_r in *.
  change (S n + fuel)%nat with (S (n + fuel)).
  rewrite while_true_S. unfold is_rate_limited in Hrl.
  destruct (Http.error_message (Http.json (remote (api_requests s)))) as [msg|] eqn:Hmsg;
    [|discriminate].
  rewrite (attempt_throttled remote m path ok on_success on_error l s msg sec);
    try assumption; [|congruence].
  simpl retried. rewrite Hsec. simpl default. apply IH; [exact Hok|].
  intros i Hi. simpl.
  replace (S (api_requests s + i)) with (api_requests s + S i)%nat by lia.
  apply Hn. lia.
Qed.

(** Rate-limit responses without end use up any fuel. *)
Lemma loop_throttled (n : nat) (l : L) (s : self) :
  ok <> 429 ->
  (forall i, (i < n)%nat -> exists sec, throttle (remote (api_requests s + i)) sec) ->
  while_true n (attempt remote m path ok on_success on_error) l s
  = OutOfFuel (retried n s).
Proof.
  intros Hok Hn. pose proof (loop_skip n 0 l s Hok Hn) as H.
  rewrite Nat.add_0_r in H. exact H.
Qed.

End Retried.

(** ** Mutations: accepted or rejected *)

(** The mutations of a contact and of its sub-resources ([update_career]
    is set apart: see below). *)
Definition is_mutation (op : operation) : bool :=
  match op with
  | Create_contact _ | Update_contact _ _ | Delete_contact _ _
  | Add_note _ _ | Update_note _ _ _ | Delete_note _ _ _
  | Remove_tags _ _ _ | Add_tags _ _ _
  | Delete_address _ _ _ | Create_address _ _
  | Create_contact_field _ _ | Delete_contact_field _ _ _ => true
  | _ => false
  end.

(** The status with which the remote accepts the request of a mutation:
    201 for the four that create, 200 for the others. *)
Definition success_status (op : operation) : Z :=
  match op with
  | Create_contact _ | Add_note _ _ | Create_address _ _
  | Create_contact_field _ _ => 201
  | _ => 200
  end.

(** What the success branch of a mutation reads under ["data"]. *)
Inductive shape := No_body | Contact_body | Item_body.

Definition success_reads (op : operation) : shape :=
  match op with
  | Create_contact _ | Update_contact _ _ => Contact_body
  | Add_note _ _ | Update_note _ _ _ | Create_address _ _
  | Create_contact_field _ _ => Item_body
  | _ => No_body
  end.

Definition has_shape (sh : shape) (r : Http.response) : Prop :=
  match sh with
  | No_body => True
  | Contact_body => exists c, Http.data (Http.json r) = Some (Http.Contact c)
  | Item_body => exists i, Http.data (Http.json r) = Some (Http.Item i)
  end.

(** A response follows the API for [op]: an accepted request comes with
    the data the operation reads, a refused one with an error message. *)
Definition conforms (op : operation) (r : Http.response) : Prop :=
  (Http.status_code r = success_status op -> has_shape (success_reads op) r)
  /\ (Http.status_code r <> success_status op ->
      exists msg, Http.error_message (Http.json r) = Some msg).

Ltac run_handler :=
  cbv [mbind Monica.M_bind Monica.bind Monica.mark_updated Monica.mark_created
       Monica.mark_deleted Monica.contacts_append Monica.log_info
       Monica.log_error Monica.log_warning Monica.database_update
       Monica.modify Monica.ret Monica.raise Monica.json_contact
       Monica.json_item].

Section Mutations.

Import Monica Loop.
Variable remote : nat -> Http.response.

Lemma mutation_decided (op : operation) (n fuel : nat) (s : self) :
  is_mutation op = true ->
  (forall i, (i < n)%nat -> exists sec, throttle (remote (api_requests s + i)) sec) ->
  is_rate_limited (remote (api_requests s + n)) = false ->
  conforms op (remote (api_requests s + n)) ->
  if Http.status_code (remote (api_requests s + n)) =? success_status op
  then exists s', run remote (n + S fuel) op s = Returns tt s'
  else exists msg s',
         run remote (n + S fuel) op s = Raises (Py.MonicaFetchError msg) s'.
Proof.
  intros Hmut Hn Hrl [Hacc Hrej].
  destruct (Http.status_code (remote (api_requests s + n)) =? success_status op)
    eqn:Hst.
  - apply Z.eqb_eq in Hst. specialize (Hacc Hst). clear Hrej.
    destruct op; try discriminate Hmut; simpl in Hst, Hacc;
      unfold run, void, update_contact, delete_contact, create_contact, add_note,
        update_note, delete_note, remove_tags, add_tags, delete_address,
        create_address, create_contact_field, delete_contact_field;
      rewrite ?bind_eq; try unfold modify at 1;
      (rewrite loop_skip; [|discriminate|exact Hn]);
      rewrite while_true_S, attempt_accepted
        by (rewrite retried_api_requests; exact Hst);
      rewrite ?retried_api_requests; simpl api_requests;
      run_handler;
      try match type of Hacc with
          | ex _ => let x := fresh in destruct Hacc as [x Hacc]; rewrite Hacc
          end;
      eexists; reflexivity.
  - apply Z.eqb_neq in Hst. destruct (Hrej Hst) as [msg Hmsg]. clear Hacc Hrej.
    unfold is_rate_limited in Hrl. rewrite Hmsg in Hrl.
    destruct op; try discriminate Hmut; simpl in Hst;
      unfold run, void, update_contact, delete_contact, create_contact, add_note,
        update_note, delete_note, remove_tags, add_tags, delete_address,
        create_address, create_contact_field, delete_contact_field;
      rewrite ?bind_eq; try unfold modify at 1;
      (rewrite loop_skip; [|discriminate|exact Hn]);
      rewrite while_true_S, (attempt_rejected _ _ _ _ _ _ _ _ msg)
        by (rewrite ?retried_api_requests; assumption);
      run_handler; do 2 eexists; reflexivity.
Qed.

End Mutations.

(** ** Career updates *)

(** A refusal that is final: neither success status, an error message,
    and not the slow-down sentence. *)
Definition terminal_error (r : Http.response) (msg : string) : Prop :=
  Http.status_code r <> 200 /\ Http.status_code r <> 201
  /\ Http.error_message (Http.json r) = Some msg
  /\ Py.contains Monica.slow_down_message msg = false.

Section Career.

Import Monica Loop.
Variable remote : nat -> Http.response.

(** The request loop of [update_career], for a contact called [name]. *)
Definition career_loop (monica_id : Py.id) (name : string) (fuel : nat) : M unit :=
  while_true fuel
    (attempt remote Http.PUT ("/contacts/" ++ Py.str monica_id ++ "/work") 200
       (fun response =>
          mark_updated monica_id;;
          contact ← json_contact response;
          log_info (who name monica_id ++ ": Company and job title updated successfully");;
          database_update monica_id (updated_at contact) None;;
          ret (Leave tt))
       (fun error =>
          log_warning (who name monica_id
                       ++ ": Error updating Monica contact career info: " ++ error);;
          ret (Continue tt))) tt.


(** A contact of the cache is returned without any request. *)
Lemma get_contact_cached (fuel : nat) (i : Py.id) (s : self) c rest :
  List.filter (same_id i) (contacts s) = c :: rest ->
  get_contact remote fuel i s = Returns c s.
Proof.
  intros H. unfold get_contact, try_except. rewrite bind_eq. unfold gets.
  destruct (contacts s) as [|c0 l] eqn:Hc; [discriminate|].
  simpl truthy. cbv iota. rewrite H. reflexivity.
Qed.

Lemma update_career_warns (fuel : nat) (i : Py.id) (s : self) c rest msg :
  List.filter (same_id i) (contacts s) = c :: rest ->
  terminal_error (remote (api_requests s)) msg ->
  update_career remote (S fuel) i s
  = update_career remote fuel i
      (with_log
         (log s ++ [(WARNING, who (complete_name c) i
                              ++ ": Error updating Monica contact career info: " ++ msg)])
         (sent Http.PUT ("/contacts/" ++ Py.str i ++ "/work") s)).
Proof.
  intros Hc [H200 [_ [Hmsg Hslow]]]. unfold update_career.
  rewrite !bind_eq. rewrite (get_contact_cached _ _ _ c rest Hc).
  rewrite (get_contact_cached _ _ _ c rest) by exact Hc.
  rewrite while_true_S, (attempt_rejected _ _ _ _ _ _ _ _ msg) by assumption.
  reflexivity.
Qed.

End Career.

(** With nothing but terminal errors from the remote, [update_career]
    neither returns nor raises. *)
Lemma update_career_never_raises (remote : nat -> Http.response)
    (monica_id : Py.id) (c : contact) (rest : list contact) :
  (forall n, exists msg, terminal_error (remote n) msg) ->
  forall fuel s,
    List.filter (Monica.same_id monica_id) (Monica.contacts s) = c :: rest ->
    exists s', Monica.update_career remote fuel monica_id s = Monica.OutOfFuel s'.
Proof.
  intros Hall. induction fuel as [|fuel IH]; intros s Hc.
  - unfold Monica.update_career. rewrite Loop.bind_eq.
    rewrite (get_contact_cached _ _ _ _ c rest Hc). eexists. reflexivity.
  - destruct (Hall (Monica.api_requests s)) as [msg Ht].
    rewrite (update_career_warns remote fuel _ _ c rest msg Hc Ht).
    apply IH. exact Hc.
Qed.

(** ** The upload form and the gender mapping *)

Section Genders.

Import Monica Loop.
Variable remote : nat -> Http.response.

Lemma get_gender_mapping_cached (fuel : nat) (s : self) :
  gender_mapping s <> ∅ ->
  get_gender_mapping remote fuel s = Returns (gender_mapping s) s.
Proof.
  intros H. unfold get_gender_mapping. rewrite bind_eq. unfold gets.
  rewrite bool_decide_eq_true_2 by exact H. reflexivity.
Qed.

Lemma get_gender_mapping_fetched (n fuel : nat) (s : self) l :
  gender_mapping s = ∅ ->
  (forall i, (i < n)%nat -> exists sec, throttle (remote (api_requests s + i)) sec) ->
  Http.status_code (remote (api_requests s + n)) = 200 ->
  Http.data (Http.json (remote (api_requests s + n))) = Some (Http.Types l) ->
  get_gender_mapping remote (n + S fuel) s
  = Returns (dict_of_types l)
      (with_gender_mapping (dict_of_types l)
         (sent Http.GET "/genders" (retried remote Http.GET "/genders" n s))).
Proof.
  intros Hempty Hn Hst Hdata. unfold get_gender_mapping. rewrite bind_eq.
  unfold gets at 1. rewrite bool_decide_eq_false_2 by (intros H; apply H, Hempty).
  rewrite loop_skip; [|discriminate|exact Hn].
  rewrite while_true_S, attempt_accepted
    by (rewrite retried_api_requests; exact Hst).
  rewrite retried_api_requests.
  cbv [mbind M_bind bind json_types gets modify ret]. rewrite Hdata. reflexivity.
Qed.

Lemma foldl_types_None (l : list (string * Py.id)) :
  forall (m : gmap string Py.id) (t : string),
    foldl (fun m entry => <[entry.1 := entry.2]> m) m l !! t = None
    <-> m !! t = None /\ t ∉ l.*1.
Proof.
  induction l as [|[k v] l IH]; intros m t; simpl.
  - split; [intros H; split; [exact H|apply not_elem_of_nil]|intros [H _]; exact H].
  - rewrite IH, lookup_insert_None, not_elem_of_cons. simpl. intuition congruence.
Qed.

(** The mapping lacks a type exactly when no entry of the remote's list
    has it. *)
Lemma dict_of_types_None (l : list (string * Py.id)) (t : string) :
  dict_of_types l !! t = None <-> t ∉ l.*1.
Proof.
  unfold dict_of_types. rewrite foldl_types_None, lookup_empty. intuition.
Qed.

End Genders.

(** ** Which mutations write to the mapping store *)

(** The mutations of notes, addresses, tags and contact fields. *)
Definition is_sub_resource_mutation (op : operation) : bool :=
  match op with
  | Add_note _ _ | Update_note _ _ _ | Delete_note _ _ _
  | Remove_tags _ _ _ | Add_tags _ _ _
  | Delete_address _ _ _ | Create_address _ _
  | Create_contact_field _ _ | Delete_contact_field _ _ _ => true
  | _ => false
  end.

Section Store.

Import Monica Loop.
Variable remote : nat -> Http.response.

Lemma sub_resource_keeps_database (fuel : nat) (op : operation) :
  is_sub_resource_mutation op = true ->
  Keeps.keeps database (run remote fuel op).
Proof.
  destruct op; try discriminate; intros _; unfold run.
  - apply add_note_keeps_database.
  - apply update_note_keeps_database.
  - apply delete_note_keeps_database.
  - apply remove_tags_keeps_database.
  - apply add_tags_keeps_database.
  - apply delete_address_keeps_database.
  - apply create_address_keeps_database.
  - apply create_contact_field_keeps_database.
  - apply delete_contact_field_keeps_database.
Qed.

Lemma get_contact_keeps_database (fuel : nat) (i : Py.id) :
  Keeps.keeps database (get_contact remote fuel i).
Proof. unfold get_contact. keeps_tac. Qed.

Lemma update_contact_accepted (n fuel : nat) (i : Py.id) (d : Form.data)
    (s : self) (c : contact) :
  (forall j, (j < n)%nat -> exists sec, throttle (remote (api_requests s + j)) sec) ->
  Http.status_code (remote (api_requests s + n)) = 200 ->
  Http.data (Http.json (remote (api_requests s + n))) = Some (Http.Contact c) ->
  exists s',
    update_contact remote (n + S fuel) i d s = Returns tt s'
    /\ database s'
       = (database s ++ [{| monica_id := i; monica_last_changed := updated_at c;
                            monica_full_name := Some (complete_name c) |}])%list.
Proof.
  intros Hn Hst Hdata. unfold update_contact. rewrite bind_eq. unfold modify at 1.
  rewrite loop_skip; [|discriminate|exact Hn].
  rewrite while_true_S, attempt_accepted
    by (rewrite retried_api_requests; exact Hst).
  rewrite retried_api_requests. simpl api_requests.
  run_handler. rewrite Hdata. eexists. split; [reflexivity|].
  simpl. rewrite retried_eq. reflexivity.
Qed.

Lemma update_career_accepted (n fuel : nat) (i : Py.id) (s s0 : self)
    (c0 c : contact) :
  get_contact remote (n + S fuel) i s = Returns c0 s0 ->
  (forall j, (j < n)%nat -> exists sec, throttle (remote (api_requests s0 + j)) sec) ->
  Http.status_code (remote (api_requests s0 + n)) = 200 ->
  Http.data (Http.json (remote (api_requests s0 + n))) = Some (Http.Contact c) ->
  exists s',
    update_career remote (n + S fuel) i s = Returns tt s'
    /\ database s'
       = (database s ++ [{| monica_id := i; monica_last_changed := updated_at c;
                            monica_full_name := None |}])%list.
Proof.
  intros Hget Hn Hst Hdata. unfold update_career. rewrite bind_eq, Hget.
  rewrite loop_skip; [|discriminate|exact Hn].
  rewrite while_true_S, attempt_accepted
    by (rewrite retried_api_requests; exact Hst).
  rewrite retried_api_requests.
  run_handler. rewrite Hdata. eexists. split; [reflexivity|].
  simpl. rewrite retried_eq. simpl.
  pose proof (get_contact_keeps_database (n + S fuel) i s) as Hk.
  rewrite Hget in Hk. simpl in Hk. rewrite Hk. reflexivity.
Qed.

End Store.

(** ** Retrying without a bound *)

Module Stubborn.
Import Monica Loop.

(** [m] never stops for lack of fuel. *)
Definition total {A} (m : M A) : Prop :=
  forall s, match m s with OutOfFuel _ => False | _ => True end.

Lemma total_ret {A} (a : A) : total (ret a).
Proof. intros s. exact I. Qed.

Lemma total_raise {A} (e : Py.exn) : total (@raise A e).
Proof. intros s. exact I. Qed.

Lemma total_gets {A} (g : self -> A) : total (gets g).
Proof. intros s. exact I. Qed.

Lemma total_modify (g : self -> self) : total (modify g).
Proof. intros s. exact I. Qed.

Lemma total_bind {A B} (m : M A) (k : A -> M B) :
  total m -> (forall a, total (k a)) -> total (x ← m; k x).
Proof.
  intros Hm Hk s. rewrite bind_eq. specialize (Hm s).
  destruct (m s) as [a s'|e s'|s']; [apply Hk|exact I|exact Hm].
Qed.

Lemma total_try_except {A} (m : M A) (h : Py.exn -> M A) :
  total m -> (forall e, total (h e)) -> total (try_except m h).
Proof.
  intros Hm Hh s. unfold try_except. specialize (Hm s).
  destruct (m s) as [a s'|e s'|s']; [exact I|apply Hh|exact Hm].
Qed.

Section Stubborn.

Variable remote : nat -> Http.response.
Hypothesis always : forall n, exists sec, throttle (remote n) sec.

(** Against a server that throttles for ever, [m] either finishes
    without a request or is stopped by the fuel after [fuel] requests. *)
Definition stubborn (fuel : nat) {A} (m : M A) : Prop :=
  forall s,
    match m s with
    | Returns _ s' | Raises _ s' => api_requests s' = api_requests s
    | OutOfFuel s' => api_requests s' = (api_requests s + fuel)%nat
    end.

Lemma stubborn_calm (fuel : nat) {A} (m : M A) :
  total m -> Keeps.keeps api_requests m -> stubborn fuel m.
Proof.
  intros Ht Hk s. specialize (Ht s). specialize (Hk s).
  destruct (m s) as [a s'|e s'|s']; [exact Hk|exact Hk|contradiction].
Qed.

Lemma stubborn_bind (fuel : nat) {A B} (m : M A) (k : A -> M B) :
  stubborn fuel m -> (forall a, stubborn fuel (k a)) -> stubborn fuel (x ← m; k x).
Proof.
  intros Hm Hk s. rewrite bind_eq. specialize (Hm s).
  destruct (m s) as [a s1|e s1|s1]; [|exact Hm|exact Hm].
  specialize (Hk a s1). rewrite <- Hm. exact Hk.
Qed.

Lemma stubborn_try_except (fuel : nat) {A} (m : M A) (h : Py.exn -> M A) :
  stubborn fuel m -> (forall e, stubborn fuel (h e)) -> stubborn fuel (try_except m h).
Proof.
  intros Hm Hh s. unfold try_except. specialize (Hm s).
  destruct (m s) as [a s1|e s1|s1]; [exact Hm| |exact Hm].
  specialize (Hh e s1). rewrite <- Hm. exact Hh.
Qed.

Lemma stubborn_loop (fuel : nat) {L A} (m : Http.method) (path : string) (ok : Z)
    (on_success : Http.response -> M (step L A))
    (on_error : string -> M (step L A)) (l : L) :
  ok <> 429 ->
  stubborn fuel (while_true fuel (attempt remote m path ok on_success on_error) l).
Proof.
  intros Hok s. rewrite loop_throttled; [|exact Hok|intros i _; apply always].
  apply retried_api_requests.
Qed.

End Stubborn.

End Stubborn.

Ltac total_tac :=
  repeat first
    [ progress intros
    | apply Stubborn.total_ret | apply Stubborn.total_raise
    | apply Stubborn.total_gets | apply Stubborn.total_modify
    | apply Stubborn.total_try_except
    | apply Stubborn.total_bind
    | match goal with
      | |- Stubborn.total (match ?x with _ => _ end) => destruct x
      end
    | progress cbv zeta
    | progress unfold Monica.log_info, Monica.log_warning, Monica.log_error,
        Monica.database_update, Monica.mark_updated, Monica.mark_created,
        Monica.mark_deleted, Monica.contacts_append, Monica.json_contact,
        Monica.json_contacts, Monica.json_types, Monica.json_item,
        Monica.json_items, Monica.json_last_page, Monica.first ].

Ltac stubborn_tac always :=
  repeat first
    [ progress intros
    | solve [apply Stubborn.stubborn_calm; [total_tac | keeps_tac]]
    | apply (Stubborn.stubborn_loop _ always); discriminate
    | apply Stubborn.stubborn_try_except
    | apply Stubborn.stubborn_bind
    | match goal with
      | |- Stubborn.stubborn _ (match ?x with _ => _ end) => destruct x
      end
    | progress cbv zeta ].

Section StubbornRun.

Import Monica Loop Stubborn.
Variable remote : nat -> Http.response.
Hypothesis always : forall n, exists sec, throttle (remote n) sec.

(** The loop of [get_contacts], as in the method. *)
Definition get_contacts_loop (fuel : nat) : M unit :=
  while_true fuel (fun '((page, contacts) : Z * list contact) =>
    attempt remote Http.GET ("/contacts?page=" ++ Py.str (Py.Int page)) 200
      (fun response =>
         data ← json_contacts response;
         let contacts := (contacts ++ data)%list in
         max_page ← json_last_page response;
         if page =? max_page then
           lf ← gets label_filter;
           modify (with_contacts (__filter_contacts_by_label lf contacts));;
           ret (Leave tt)
         else ret (Continue (page + 1, contacts)))
      (fun error =>
         let msg := "Error fetching Monica contacts: " ++ error in
         log_error msg;;
         raise (Py.MonicaFetchError msg))
      (page, contacts)) (1, []).

Lemma get_contacts_loop_throttled (fuel : nat) :
  forall s, exists s',
    get_contacts_loop fuel s = OutOfFuel s'
    /\ api_requests s' = (api_requests s + fuel)%nat.
Proof.
  unfold get_contacts_loop. induction fuel as [|fuel IH]; intros s.
  - exists s. split; [reflexivity|lia].
  - rewrite while_true_S.
    destruct (always (api_requests s)) as [sec [Hrl [Hst [Hsec Hpos]]]].
    unfold is_rate_limited in Hrl.
    destruct (Http.error_message (Http.json (remote (api_requests s)))) as [msg|] eqn:Hmsg;
      [|discriminate].
    rewrite (attempt_throttled remote _ _ _ _ _ _ s msg sec);
      try assumption; [|congruence].
    destruct (IH (slept sec (sent Http.GET "/contacts?page=1" s))) as [s' [H1 H2]].
    exists s'. split; [exact H1|]. rewrite H2. simpl. lia.
Qed.

Lemma get_contacts_loop_stubborn (fuel : nat) :
  stubborn fuel (get_contacts_loop fuel).
Proof.
  intros s. destruct (get_contacts_loop_throttled fuel s) as [s' [H1 H2]].
  rewrite H1. exact H2.
Qed.

Lemma get_contacts_stubborn (fuel : nat) : stubborn fuel (get_contacts remote fuel).
Proof.
  unfold get_contacts. apply stubborn_try_except; [|stubborn_tac always].
  apply stubborn_bind; [stubborn_tac always|]. intros [|]; [stubborn_tac always|].
  apply stubborn_bind; [stubborn_tac always|]. intros _.
  apply stubborn_bind; [apply get_contacts_loop_stubborn|stubborn_tac always].
Qed.

Lemma get_contact_stubborn (fuel : nat) (i : Py.id) :
  stubborn fuel (get_contact remote fuel i).
Proof. unfold get_contact. stubborn_tac always. Qed.

Lemma get_gender_mapping_stubborn (fuel : nat) :
  stubborn fuel (get_gender_mapping remote fuel).
Proof. unfold get_gender_mapping. stubborn_tac always. Qed.

Lemma run_stubborn (fuel : nat) (op : operation) : stubborn fuel (run remote fuel op).
Proof.
  destruct op; unfold run, void.
  - apply stubborn_bind; [apply get_gender_mapping_stubborn|stubborn_tac always].
  - unfold update_contact. stubborn_tac always.
  - unfold delete_contact. stubborn_tac always.
  - unfold create_contact. stubborn_tac always.
  - apply stubborn_bind; [apply get_contacts_stubborn|stubborn_tac always].
  - apply stubborn_bind; [apply get_contact_stubborn|stubborn_tac always].
  - unfold get_notes. stubborn_tac always.
  - unfold add_note. stubborn_tac always.
  - unfold update_note. stubborn_tac always.
  - unfold delete_note. stubborn_tac always.
  - unfold remove_tags. stubborn_tac always.
  - unfold add_tags. stubborn_tac always.
  - unfold update_career.
    apply stubborn_bind; [apply get_contact_stubborn|stubborn_tac always].
  - unfold delete_address. stubborn_tac always.
  - unfold create_address. stubborn_tac always.
  - unfold get_contact_fields. stubborn_tac always.
  - unfold get_contact_field_id, __get_contact_field_types. stubborn_tac always.
  - unfold create_contact_field. stubborn_tac always.
  - unfold delete_contact_field. stubborn_tac always.
  - unfold MonicaContactUploadForm.__init__.
    apply stubborn_bind; [|stubborn_tac always].
    apply stubborn_bind; [apply get_gender_mapping_stubborn|stubborn_tac always].
Qed.

End StubbornRun.

(** C5 (as the code has it). No operation counts its retries.  Under a
    server that answers every request with a rate-limit response, an
    operation that returns or raises has done so without a single
    request (from its cache); otherwise it is still asking, after as
    many requests as it was given fuel, each followed by the sleep the
    server asked for. *)
Theorem retries_have_no_bound (remote : nat -> Http.response)
    (always : forall n, exists sec, Loop.throttle (remote n) sec)
    (fuel : nat) (op : operation) (s : Monica.self) :
  match run remote fuel op s with
  | Monica.Returns _ s' | Monica.Raises _ s' =>
      Monica.api_requests s' = Monica.api_requests s
      /\ Monica.wire s' = Monica.wire s
  | Monica.OutOfFuel s' =>
      Monica.api_requests s' = (Monica.api_requests s + fuel)%nat
      /\ Polite.consistent remote s s'
  end.
Proof.
  assert (wf : Polite.well_formed remote) by (intros n _; apply always).
  assert (Hall : forall n, Loop.is_rate_limited (remote n) = true).
  { intros n. destruct (always n) as [sec [H _]]. exact H. }
  pose proof (run_polite remote wf fuel op s) as H.
  pose proof (run_stubborn remote always fuel op s) as Hn.
  destruct (run remote fuel op s) as [a s'|e s'|s']; [| |split; assumption];
    destruct H as [[t [Hw Hx]] Ha];
    destruct (exchange_all_throttled remote _ _ _ Hx Ha Hall) as [Hk ->];
    rewrite app_nil_r in Hw; split; assumption.
Qed.

(** * A session against a scripted server *)

Module Script.

Definition body_of (d : option Http.payload) (msg : option string) : Http.body :=
  {| Http.data := d; Http.last_page := None; Http.error_message := msg |}.

(** 429 Too Many Requests, to be retried after [sec] seconds. *)
Definition too_many (sec : Z) : Http.response :=
  {| Http.status_code := 429;
     Http.json := body_of None
       (Some "Too many attempts, please slow down the request.");
     Http.retry_after := Some sec |}.

Definition not_found : Http.response :=
  {| Http.status_code := 404;
     Http.json := body_of None (Some "The contact has not been found");
     Http.retry_after := None |}.

Definition ok (d : Http.payload) : Http.response :=
  {| Http.status_code := 200; Http.json := body_of (Some d) None;
     Http.retry_after := None |}.

Definition created (d : Http.payload) : Http.response :=
  {| Http.status_code := 201; Http.json := body_of (Some d) None;
     Http.retry_after := None |}.

Definition ada : contact :=
  {| id := Py.Int 7; complete_name := "Ada Lovelace";
     updated_at := "2021-05-01T10:00:00Z"; tags := [{| name := "friends" |}] |}.

Definition bob : contact :=
  {| id := Py.Int 8; complete_name := "Bob Stone";
     updated_at := "2021-05-02T08:30:00Z"; tags := [{| name := "work" |}] |}.

Definition note : Http.item := {| Http.item_id := Py.Int 31; Http.item_type := "" |}.

(** A fresh session without label filter, and one that has Ada cached. *)
Definition fresh : Monica.self :=
  Monica.__init__ true {| include := []; exclude := [] |}.

Definition with_ada : Monica.self := Monica.with_contacts [ada; bob] fresh.

(** A session that only processes contacts labelled [friends]. *)
Definition friends_only : Monica.self :=
  Monica.__init__ true {| include := ["friends"]; exclude := [] |}.

Definition form : Form.data :=
  MonicaContactUploadForm.data (MonicaContactUploadForm.defaults "Ada") (Py.Int 3).

(** The arguments of a form for Ada, whose gender type is [F]. *)
Definition ada_args : MonicaContactUploadForm.args :=
  {| MonicaContactUploadForm.first_name := "Ada";
     MonicaContactUploadForm.last_name := Some "Lovelace";
     MonicaContactUploadForm.nick_name := None;
     MonicaContactUploadForm.middle_name := None;
     MonicaContactUploadForm.gender_type := "F";
     MonicaContactUploadForm.birthdate_day := Some "10";
     MonicaContactUploadForm.birthdate_month := Some "12";
     MonicaContactUploadForm.birthdate_year := Some "1815";
     MonicaContactUploadForm.is_birthdate_age_based := false;
     MonicaContactUploadForm.is_birthdate_known := true;
     MonicaContactUploadForm.is_deceased := true;
     MonicaContactUploadForm.is_deceased_date_known := false;
     MonicaContactUploadForm.deceased_day := None;
     MonicaContactUploadForm.deceased_month := None;
     MonicaContactUploadForm.deceased_year := None;
     MonicaContactUploadForm.deceased_age_based := None;
     MonicaContactUploadForm.create_reminders := true |}.

(** Servers. *)
Definition always (r : Http.response) : nat -> Http.response := fun _ => r.

Definition after_one_retry (r : Http.response) : nat -> Http.response :=
  fun n => match n with O => too_many 2 | _ => r end.

Lemma after_one_retry_throttled (r : Http.response) (k i : nat) :
  k = O -> (i < 1)%nat ->
  exists sec, Loop.throttle (after_one_retry r (k + i)) sec.
Proof.
  intros -> Hi. replace i with O by lia. exists 2.
  repeat split; try reflexivity. lia.
Qed.

Lemma no_retry (remote : nat -> Http.response) (k i : nat) :
  (i < 0)%nat -> exists sec, Loop.throttle (remote (k + i)%nat) sec.
Proof. lia. Qed.

Lemma after_one_retry_well_formed (r : Http.response) :
  Loop.is_rate_limited r = false -> Polite.well_formed (after_one_retry r).
Proof.
  intros Hr [|n] H; simpl in H.
  - exists 2. repeat split; try reflexivity. lia.
  - congruence.
Qed.

End Script.

(** C10 at work: the remote refuses the update of Ada, and Ada is gone
    from the cache. *)
Lemma update_contact_error_witness :
  let s' := Loop.final
              (Monica.update_contact (Script.always Script.not_found) 1
                 (Py.Str "7") Script.form Script.with_ada) in
  Monica.contacts s'
    = List.filter (fun c => negb (Monica.same_id (Py.Str "7") c))
        (Monica.contacts Script.with_ada)
  /\ Forall (fun c => Py.str (id c) <> Py.str (Py.Str "7")) (Monica.contacts s').
Proof.
  intros s'.
  apply (update_contact_error_drops_cached_contact (Script.always Script.not_found) 1
           (Py.Str "7") Script.form Script.with_ada s'
           "Error updating Monica contact!").
  vm_compute. reflexivity.
Defined.

(** C6 at work: a server that throttles the first request. *)
Lemma rate_limit_is_waited_out_witness :
  let remote := Script.after_one_retry (Script.ok (Http.Contact Script.ada)) in
  match run remote 5 (Get_contact (Py.Int 7)) Script.fresh with
  | Monica.Returns _ s' | Monica.Raises _ s' =>
      Polite.consistent remote Script.fresh s'
      /\ Polite.answered remote (Monica.api_requests Script.fresh)
           (Monica.api_requests s')
  | Monica.OutOfFuel s' => Polite.consistent remote Script.fresh s'
  end.
Proof.
  intros remote.
  apply (rate_limit_is_waited_out remote
           (Script.after_one_retry_well_formed (Script.ok (Http.Contact Script.ada)) eq_refl) 5
           (Get_contact (Py.Int 7)) Script.fresh).
Defined.

(** The wire of that run: request, sleep of two seconds, request. *)
Example get_contact_after_one_retry :
  Monica.wire
    (Loop.final
       (Monica.get_contact
          (Script.after_one_retry (Script.ok (Http.Contact Script.ada))) 5
          (Py.Int 7) Script.fresh))
  = [Http.Sent Http.GET "/contacts/7"; Http.Slept 2;
     Http.Sent Http.GET "/contacts/7"].
Proof. vm_compute. reflexivity. Qed.

(** C5 fails as the specification states it: against a server that throttles for ever,
    [get_gender_mapping] never returns and never raises, and the number
    of its requests grows with the fuel. *)
Lemma get_gender_mapping_never_gives_up :
  ~ (exists (bound : nat), forall fuel s',
       Monica.get_gender_mapping (Script.always (Script.too_many 1)) fuel Script.fresh
       = Monica.OutOfFuel s' ->
       (Monica.api_requests s' <= bound)%nat)
  /\ ~ (exists fuel,
          match Monica.get_gender_mapping (Script.always (Script.too_many 1)) fuel
                  Script.fresh with
          | Monica.OutOfFuel _ => False
          | _ => True
          end).
Proof.
  assert (H : forall fuel,
    Monica.get_gender_mapping (Script.always (Script.too_many 1)) fuel Script.fresh
    = Monica.OutOfFuel
        (retried (Script.always (Script.too_many 1)) Http.GET "/genders" fuel
           Script.fresh)).
  { intros fuel. unfold Monica.get_gender_mapping. rewrite Loop.bind_eq.
    unfold Monica.gets at 1.
    rewrite bool_decide_eq_false_2 by (intros Hne; apply Hne; reflexivity).
    rewrite loop_throttled; [reflexivity|discriminate|].
    intros i _. exists 1. repeat split; try reflexivity. lia. }
  split.
  - intros [bound Hb]. specialize (Hb (S bound) _ (H (S bound))).
    rewrite retried_api_requests in Hb. simpl in Hb. lia.
  - intros [fuel Hf]. rewrite H in Hf. exact Hf.
Qed.

(** C5 as the code has it, at work. *)
Lemma retries_have_no_bound_witness :
  let remote := Script.always (Script.too_many 1) in
  match run remote 4 (Add_note (Py.Int 7) "Ada Lovelace") Script.fresh with
  | Monica.Returns _ s' | Monica.Raises _ s' =>
      Monica.api_requests s' = Monica.api_requests Script.fresh
      /\ Monica.wire s' = Monica.wire Script.fresh
  | Monica.OutOfFuel s' =>
      Monica.api_requests s' = (Monica.api_requests Script.fresh + 4)%nat
      /\ Polite.consistent remote Script.fresh s'
  end.
Proof.
  intros remote.
  apply (retries_have_no_bound remote).
  intros n. exists 1. repeat split; try reflexivity. lia.
Defined.

(** C2 fails as the specification states it: the remote accepts a new note for contact 7,
    [add_note] returns normally and counts the contact as updated, and
    the mapping store has received no call. *)
Lemma add_note_writes_no_mapping_record :
  let remote := Script.always (Script.created (Http.Item Script.note)) in
  ~ (forall s',
       Monica.add_note remote 1 (Py.Int 7) "Ada Lovelace" Script.with_ada
       = Monica.Returns tt s' ->
       exists u, In u (Monica.database s') /\ monica_id u = Py.Int 7).
Proof.
  intros remote H.
  destruct (H (Loop.final
                 (Monica.add_note remote 1 (Py.Int 7) "Ada Lovelace" Script.with_ada)))
    as [u [Hu _]].
  - vm_compute. reflexivity.
  - vm_compute in Hu. exact Hu.
Qed.

(** C7 fails as the specification states it: the remote knows the genders [M] and [F]
    only, and the form of a contact with the default gender type cannot
    be built. *)
Lemma upload_form_default_gender_missing :
  let remote :=
    Script.always (Script.ok (Http.Types [("M", Py.Int 1); ("F", Py.Int 2)])) in
  (exists s',
     MonicaContactUploadForm.__init__ remote 1
       (MonicaContactUploadForm.defaults "Ada") Script.fresh
     = Monica.Raises (Py.KeyError "O") s')
  /\ ~ (exists d s',
          MonicaContactUploadForm.__init__ remote 1
            (MonicaContactUploadForm.defaults "Ada") Script.fresh
          = Monica.Returns d s').
Proof.
  intros remote. split.
  - eexists. vm_compute. reflexivity.
  - intros [d [s' H]]. vm_compute in H. discriminate H.
Qed.

(** ** The model at work on small inputs *)

Example filter_include_and_exclude :
  let carol := {| id := Py.Int 9; complete_name := "Carol Reed";
                  updated_at := "2021-05-03T09:00:00Z";
                  tags := [{| name := "friends" |}; {| name := "work" |}] |} in
  let dave := {| id := Py.Int 10; complete_name := "Dave Moss";
                 updated_at := "2021-05-04T09:00:00Z"; tags := [] |} in
  Monica.__filter_contacts_by_label
    {| include := ["friends"]; exclude := ["work"] |}
    [Script.ada; Script.bob; carol; dave]
  = [Script.ada]
  /\ Monica.__filter_contacts_by_label
       {| include := []; exclude := ["work"] |}
       [Script.ada; Script.bob; carol; dave]
     = [Script.ada; dave].
Proof. split; reflexivity. Qed.

(** A contact created in the session and touched afterwards counts as
    created only.  The dict keys decide: the key [7] of the created
    contact removes the updated key [7], not the updated key ['7']. *)
Example update_statistics_by_key :
  let s := Monica.with_created_contacts {[ Py.Int 7 := true ]}
             (Monica.with_updated_contacts
                {[ Py.Int 7 := true; Py.Str "7" := true; Py.Int 8 := true ]}
                Script.fresh) in
  Monica.updated_contacts (Loop.final (Monica.update_statistics s))
  = {[ Py.Str "7" := true; Py.Int 8 := true ]}.
Proof.
  simpl. apply map_eq. intros k.
  destruct (decide (k = Py.Int 7)) as [->|H7].
  - rewrite map_lookup_filter_None_2; [reflexivity|].
    right. intros v _ Hk. apply Hk. simpl. apply elem_of_dom. exists true.
    apply lookup_singleton_eq.
  - destruct (({[Py.Int 7 := true; Py.Str "7" := true; Py.Int 8 := true]}
                 : gmap Py.id bool) !! k) as [v|] eqn:Hv.
    + rewrite (proj2 (map_lookup_filter_Some _ _ k v)).
      * rewrite lookup_insert_ne in Hv by congruence. symmetry. exact Hv.
      * split; [exact Hv|]. simpl. rewrite dom_singleton_L.
        intros Hin. apply elem_of_singleton in Hin. contradiction.
    + rewrite map_lookup_filter_None_2 by (left; exact Hv).
      rewrite lookup_insert_ne in Hv by congruence. symmetry. exact Hv.
Qed.

(** A full listing over two pages, the second throttled once. *)
Example get_contacts_two_pages :
  let page (cs : list contact) : Http.response :=
    {| Http.status_code := 200;
       Http.json := {| Http.data := Some (Http.Contacts cs);
                       Http.last_page := Some 2;
                       Http.error_message := None |};
       Http.retry_after := None |} in
  let remote (n : nat) : Http.response :=
    match n with
    | 0%nat => page [Script.ada]
    | 1%nat => Script.too_many 3
    | _ => page [Script.bob]
    end in
  Monica.get_contacts remote 5 Script.friends_only
  = Monica.Returns [Script.ada]
      (Monica.with_log
         [(INFO, "Fetching all Monica contacts...");
          (INFO, "Finished fetching Monica contacts")]
         (Monica.with_wire
            [Http.Sent Http.GET "/contacts?page=1";
             Http.Sent Http.GET "/contacts?page=2"; Http.Slept 3;
             Http.Sent Http.GET "/contacts?page=2"]
            (Monica.with_api_requests 3
               (Monica.with_is_data_already_fetched true
                  (Monica.with_contacts [Script.ada] Script.friends_only))))).
Proof. vm_compute. reflexivity. Qed.

(** The form for Ada, built against a remote that lists the genders
    [M] and [F]: one request, and the id of [F]. *)
Example upload_form_for_ada :
  let remote :=
    Script.always (Script.ok (Http.Types [("M", Py.Int 1); ("F", Py.Int 2)])) in
  exists s',
    MonicaContactUploadForm.__init__ remote 1 Script.ada_args Script.fresh
    = Monica.Returns (MonicaContactUploadForm.data Script.ada_args (Py.Int 2)) s'
    /\ Monica.api_requests s' = 1%nat.
Proof. eexists. split; vm_compute; reflexivity. Qed.

(** * Further properties of the collaborator *)

(** ** A request loop is decided by its first response that is no retry *)

Module Decide.
Import Monica Loop.

(** The response sends the loop round again through
    [__is_slow_down_error]: not the success status, the slow-down
    sentence, and a Retry-After that [time.sleep] accepts. *)
Definition is_retry (ok : Z) (r : Http.response) : bool :=
  negb (Http.status_code r =? ok)
  && is_rate_limited r
  && match Http.retry_after r with
     | Some sec => 0 <=? sec
     | None => false
     end.

(** How many of the responses from number [k] on are retries, among the
    first [fuel]. *)
Fixpoint leading_retries (remote : nat -> Http.response) (ok : Z) (k fuel : nat)
  : nat :=
  match fuel with
  | O => O
  | S fuel' =>
      if is_retry ok (remote k) then S (leading_retries remote ok (S k) fuel')
      else O
  end.

(** The end of the loop after a turn that does not go round again. *)
Definition finish {A} (o : outcome (step unit A)) : outcome A :=
  match o with
  | Returns (Leave a) s => Returns a s
  | Returns (Continue _) s => OutOfFuel s
  | Raises e s => Raises e s
  | OutOfFuel s => OutOfFuel s
  end.

(** A handler that never says [continue]. *)
Definition decisive {A} (h : M (step unit A)) : Prop :=
  forall s, match h s with Returns (Continue _) _ => False | _ => True end.

Lemma leading_retries_le remote ok fuel :
  forall k, (leading_retries remote ok k fuel <= fuel)%nat.
Proof.
  induction fuel as [|fuel IH]; intros k; simpl; [lia|].
  destruct (is_retry ok (remote k)); [specialize (IH (S k))|]; lia.
Qed.

Section Decide.

Variable remote : nat -> Http.response.
Context {A : Type}.
Variables (m : Http.method) (path : string) (ok : Z).
Variable on_success : Http.response -> M (step unit A).
Variable on_error : string -> M (step unit A).
Hypothesis on_success_decisive : forall r, decisive (on_success r).
Hypothesis on_error_decisive : forall e, decisive (on_error e).

Lemma attempt_retry (s : self) :
  is_retry ok (remote (api_requests s)) = true ->
  attempt remote m path ok on_success on_error tt s
  = Returns (Continue tt)
      (slept (default 0 (Http.retry_after (remote (api_requests s)))) (sent m path s)).
Proof.
  unfold is_retry, is_rate_limited. intros H.
  apply andb_prop in H as [H Hsec]. apply andb_prop in H as [Hst Hrl].
  rewrite attempt_cases. apply negb_true_iff in Hst. rewrite Hst.
  destruct (Http.error_message _) as [msg|]; [|discriminate]. rewrite Hrl.
  destruct (Http.retry_after _) as [sec|]; [|discriminate].
  apply Z.leb_le, Z.ltb_ge in Hsec. rewrite Hsec. reflexivity.
Qed.

Lemma attempt_decides (s : self) :
  is_retry ok (remote (api_requests s)) = false ->
  match attempt remote m path ok on_success on_error tt s with
  | Returns (Continue _) _ => False
  | _ => True
  end.
Proof.
  unfold is_retry, is_rate_limited. intros H. rewrite attempt_cases.
  destruct (Http.status_code _ =? ok); [apply on_success_decisive|].
  destruct (Http.error_message _) as [msg|]; [|exact I].
  destruct (Py.contains _ msg); [|apply on_error_decisive].
  destruct (Http.retry_after _) as [sec|]; [|exact I].
  destruct (sec <? 0) eqn:Hs; [exact I|].
  apply Z.ltb_ge, Z.leb_le in Hs. simpl in H. rewrite Hs in H. discriminate.
Qed.

(** The loop, in closed form. *)
Lemma loop_eq (fuel : nat) :
  forall s,
    while_true fuel (attempt remote m path ok on_success on_error) tt s
    = let n := leading_retries remote ok (api_requests s) fuel in
      if (n =? fuel)%nat then OutOfFuel (retried remote m path n s)
      else finish (attempt remote m path ok on_success on_error tt
                     (retried remote m path n s)).
Proof.
  induction fuel as [|fuel IH]; intros s; [reflexivity|].
  rewrite while_true_S. simpl leading_retries.
  destruct (is_retry ok (remote (api_requests s))) eqn:Hr.
  - rewrite attempt_retry by exact Hr. rewrite IH. reflexivity.
  - pose proof (attempt_decides s Hr) as Hd. simpl.
    destruct (attempt remote m path ok on_success on_error tt s)
      as [[[]|a] s'|e s'|s']; [contradiction|reflexivity..].
Qed.

(** The retries before the deciding response are rate-limit responses
    with a usable Retry-After. *)
Lemma leading_retries_spec (fuel : nat) :
  forall k i, (i < leading_retries remote ok k fuel)%nat ->
    is_retry ok (remote (k + i)) = true.
Proof.
  induction fuel as [|fuel IH]; intros k i Hi; simpl in Hi; [lia|].
  destruct (is_retry ok (remote k)) eqn:Hr; [|lia].
  destruct i as [|i]; [rewrite Nat.add_0_r; exact Hr|].
  replace (k + S i)%nat with (S k + i)%nat by lia. apply IH. lia.
Qed.

Lemma leading_retries_stop (fuel : nat) :
  forall k, (leading_retries remote ok k fuel < fuel)%nat ->
    is_retry ok (remote (k + leading_retries remote ok k fuel)) = false.
Proof.
  induction fuel as [|fuel IH]; intros k Hlt; simpl in *; [lia|].
  destruct (is_retry ok (remote k)) eqn:Hr.
  - replace (k + S (leading_retries remote ok (S k) fuel))%nat
      with (S k + leading_retries remote ok (S k) fuel)%nat by lia.
    apply IH. lia.
  - rewrite Nat.add_0_r. exact Hr.
Qed.

End Decide.

End Decide.

(** ** A rate-limit response without a usable Retry-After *)

(** What [__is_slow_down_error] raises on the header of a rate-limit
    response: [int(None)] fails, and so does [time.sleep] of a negative
    number. *)
Definition header_error (r : Http.response) : option Py.exn :=
  match Http.retry_after r with
  | None =>
      Some (Py.TypeError
        "int() argument must be a string, a bytes-like object or a real number, not 'NoneType'")
  | Some sec =>
      if sec <? 0 then Some (Py.ValueError "sleep length must be non-negative")
      else None
  end.

Section BadHeader.

Import Monica Loop.
Variable remote : nat -> Http.response.

Lemma attempt_bad_header {L A} (m : Http.method) (path : string) (ok : Z)
    (on_success : Http.response -> M (step L A))
    (on_error : string -> M (step L A)) (l : L) (s : self) (e : Py.exn) :
  Http.status_code (remote (api_requests s)) <> ok ->
  is_rate_limited (remote (api_requests s)) = true ->
  header_error (remote (api_requests s)) = Some e ->
  attempt remote m path ok on_success on_error l s = Raises e (sent m path s).
Proof.
  unfold is_rate_limited, header_error. intros Hst Hrl He.
  rewrite attempt_cases. apply Z.eqb_neq in Hst. rewrite Hst.
  destruct (Http.error_message _) as [msg|]; [|discriminate]. rewrite Hrl.
  destruct (Http.retry_after _) as [sec|]; [|congruence].
  destruct (sec <? 0); congruence.
Qed.

End BadHeader.

(** X1. A rate-limit response whose Retry-After header is missing, or
    negative, ends a mutation at once: the exception of
    [__is_slow_down_error] ([TypeError], [ValueError]) reaches the
    caller as it is, after that one request, without a sleep and without
    a line in the log. *)
Theorem mutation_bad_retry_header (remote : nat -> Http.response) (fuel : nat)
    (op : operation) (s : Monica.self) (e : Py.exn) :
  is_mutation op = true ->
  Http.status_code (remote (Monica.api_requests s)) <> success_status op ->
  Loop.is_rate_limited (remote (Monica.api_requests s)) = true ->
  header_error (remote (Monica.api_requests s)) = Some e ->
  exists s' m path,
    run remote (S fuel) op s = Monica.Raises e s'
    /\ Monica.api_requests s' = S (Monica.api_requests s)
    /\ Monica.wire s' = (Monica.wire s ++ [Http.Sent m path])%list
    /\ Monica.log s' = Monica.log s
    /\ Monica.database s' = Monica.database s.
Proof.
  intros Hmut Hst Hrl He.
  destruct op; try discriminate Hmut; simpl in Hst;
    unfold run, void, Monica.update_contact, Monica.delete_contact,
      Monica.create_contact, Monica.add_note, Monica.update_note,
      Monica.delete_note, Monica.remove_tags, Monica.add_tags,
      Monica.delete_address, Monica.create_address,
      Monica.create_contact_field, Monica.delete_contact_field;
    rewrite ?Loop.bind_eq; try unfold Monica.modify at 1;
    rewrite Loop.while_true_S;
    (rewrite (attempt_bad_header remote _ _ _ _ _ _ _ e); [|assumption..]);
    do 3 eexists; repeat split; reflexivity.
Qed.

(** ** The request counter *)

(** The requests on a wire. *)
Definition count_sent (t : list Http.event) : nat :=
  length (List.filter (fun e => match e with Http.Sent _ _ => true | _ => false end) t).

(** By how much the counter is ahead of the requests on the wire. *)
Definition counter_lead (s : Monica.self) : Z :=
  Z.of_nat (Monica.api_requests s) - Z.of_nat (count_sent (Monica.wire s)).

Lemma count_sent_app (t1 t2 : list Http.event) :
  count_sent (t1 ++ t2) = (count_sent t1 + count_sent t2)%nat.
Proof. unfold count_sent. rewrite List.filter_app, length_app. reflexivity. Qed.

Section Counter.

Import Monica Loop.
Variable remote : nat -> Http.response.

Lemma counter_lead_sent (m : Http.method) (path : string) (s : self) :
  counter_lead (sent m path s) = counter_lead s.
Proof.
  unfold counter_lead, sent. cbn -[Z.of_nat count_sent].
  rewrite count_sent_app. cbn -[Z.of_nat]. lia.
Qed.

Lemma counter_lead_slept (sec : Z) (s : self) :
  counter_lead (slept sec s) = counter_lead s.
Proof.
  unfold counter_lead, slept. cbn -[Z.of_nat count_sent].
  rewrite count_sent_app. cbn -[Z.of_nat]. lia.
Qed.

Lemma attempt_keeps_counter {L A} (m : Http.method) (path : string) (ok : Z)
    (on_success : Http.response -> M (step L A))
    (on_error : string -> M (step L A)) (l : L) :
  (forall r, Keeps.keeps counter_lead (on_success r)) ->
  (forall e, Keeps.keeps counter_lead (on_error e)) ->
  Keeps.keeps counter_lead (attempt remote m path ok on_success on_error l).
Proof.
  intros Hs He s. rewrite attempt_cases.
  pose proof (counter_lead_sent m path s) as Hsent.
  destruct (_ =? ok); [rewrite <- Hsent; apply Hs|].
  destruct (Http.error_message _) as [msg|]; [|exact Hsent].
  destruct (Py.contains _ msg); [|rewrite <- Hsent; apply He].
  destruct (Http.retry_after _) as [sec|]; [|exact Hsent].
  destruct (sec <? 0); [exact Hsent|].
  simpl. rewrite counter_lead_slept. exact Hsent.
Qed.

End Counter.

Ltac counter_tac :=
  repeat first
    [ progress intros
    | apply attempt_keeps_counter
    | apply Keeps.keeps_while_true
    | solve [keeps_tac]
    | apply Keeps.keeps_try_except
    | apply Keeps.keeps_bind
    | match goal with
      | |- Keeps.keeps _ (match ?x with _ => _ end) => destruct x
      end
    | progress cbv zeta ].

Lemma run_keeps_counter (remote : nat -> Http.response) (fuel : nat) (op : operation) :
  Keeps.keeps counter_lead (run remote fuel op).
Proof.
  destruct op; unfold run, void, Monica.update_contact, Monica.delete_contact,
    Monica.create_contact, Monica.get_contacts, Monica.get_contact,
    Monica.get_notes, Monica.add_note, Monica.update_note, Monica.delete_note,
    Monica.remove_tags, Monica.add_tags, Monica.update_career,
    Monica.get_contact, Monica.delete_address, Monica.create_address,
    Monica.get_contact_fields, Monica.get_contact_field_id,
    Monica.__get_contact_field_types, Monica.create_contact_field,
    Monica.delete_contact_field, MonicaContactUploadForm.__init__,
    Monica.get_gender_mapping; counter_tac.
Qed.

(** X2. [api_requests] counts the requests: whatever the remote answers
    and however an operation ends (return, exception, still running),
    the counter has grown by exactly the number of requests that the
    operation has added to the wire. *)
Theorem api_requests_counts_requests (remote : nat -> Http.response) (fuel : nat)
    (op : operation) (s : Monica.self) :
  let s' := Loop.final (run remote fuel op s) in
  (Monica.api_requests s' + count_sent (Monica.wire s)
   = Monica.api_requests s + count_sent (Monica.wire s'))%nat.
Proof.
  intros s'. pose proof (run_keeps_counter remote fuel op s) as H.
  fold s' in H. unfold counter_lead in H. lia.
Qed.

(** ** How a request loop returns, and how it raises *)

(** A handler that always raises. *)
Definition raising {A} (h : Monica.M (Monica.step unit A)) : Prop :=
  forall s, match h s with Monica.Raises _ _ => True | _ => False end.

Lemma raising_decisive {A} (h : Monica.M (Monica.step unit A)) :
  raising h -> Decide.decisive h.
Proof.
  intros H s. specialize (H s). destruct (h s) as [[[]|a] s'|e s'|s']; tauto.
Qed.

Section Endings.

Import Monica Loop Decide.
Variable remote : nat -> Http.response.
Context {A : Type}.
Variables (m : Http.method) (path : string) (ok : Z).
Variable on_success : Http.response -> M (step unit A).
Variable on_error : string -> M (step unit A).
Hypothesis on_success_decisive : forall r, decisive (on_success r).
Hypothesis on_error_raising : forall e, raising (on_error e).

Let loop (fuel : nat) : M A :=
  while_true fuel (attempt remote m path ok on_success on_error) tt.

Lemma loop_decided (fuel : nat) (s : self) :
  let n := leading_retries remote ok (api_requests s) fuel in
  (n < fuel)%nat ->
  loop fuel s
  = finish (attempt remote m path ok on_success on_error tt
              (retried remote m path n s))
    /\ is_retry ok (remote (api_requests s + n)) = false.
Proof.
  intros n Hlt. unfold loop.
  rewrite loop_eq by (try assumption; intros e; apply raising_decisive, on_error_raising).
  cbv zeta. fold n.
  replace (n =? fuel)%nat with false by (symmetry; apply Nat.eqb_neq; lia).
  split; [reflexivity|]. apply leading_retries_stop. exact Hlt.
Qed.

Lemma loop_out_of_fuel (fuel : nat) (s : self) :
  leading_retries remote ok (api_requests s) fuel = fuel ->
  loop fuel s = OutOfFuel (retried remote m path fuel s).
Proof.
  intros Hn. unfold loop.
  rewrite loop_eq by (try assumption; intros e; apply raising_decisive, on_error_raising).
  cbv zeta. rewrite Hn, Nat.eqb_refl. reflexivity.
Qed.

(** The loop returns through the success branch only, on a response
    with the success status that came after [n] retries. *)
Lemma loop_returns (fuel : nat) (s s' : self) (a : A) :
  loop fuel s = Returns a s' ->
  exists n,
    (n < fuel)%nat
    /\ Http.status_code (remote (api_requests s + n)) = ok
    /\ on_success (remote (api_requests s + n))
         (sent m path (retried remote m path n s))
       = Returns (Leave a) s'.
Proof.
  intros H.
  pose proof (leading_retries_le remote ok fuel (api_requests s)) as Hle.
  set (n := leading_retries remote ok (api_requests s) fuel) in *.
  destruct (decide (n = fuel)) as [Hn|Hn].
  - rewrite loop_out_of_fuel in H by exact Hn. discriminate.
  - destruct (loop_decided fuel s) as [Heq Hstop]; [fold n; lia|]. fold n in Heq, Hstop.
    rewrite Heq, attempt_cases, retried_api_requests in H. exists n.
    split; [lia|]. unfold is_retry, is_rate_limited in Hstop.
    destruct (Http.status_code (remote (api_requests s + n)) =? ok) eqn:Hst.
    + apply Z.eqb_eq in Hst. split; [exact Hst|].
      destruct (on_success _ _) as [[[]|a'] s1|e s1|s1]; simpl in H;
        try discriminate. congruence.
    + exfalso. destruct (Http.error_message _) as [msg|]; [|discriminate].
      destruct (Py.contains _ msg).
      * destruct (Http.retry_after _) as [sec|]; [|discriminate].
        destruct (sec <? 0) eqn:Hs; [discriminate|].
        apply Z.ltb_ge, Z.leb_le in Hs. simpl in Hstop. congruence.
      * pose proof (on_error_raising msg
                      (sent m path (retried remote m path n s))) as Hr.
        destruct (on_error _ _) as [x s1|e s1|s1]; simpl in H; try discriminate.
        contradiction.
Qed.

(** The loop raises what the deciding turn raises. *)
Lemma loop_raises (fuel : nat) (s s' : self) (e : Py.exn) :
  loop fuel s = Raises e s' ->
  exists n,
    (n < fuel)%nat
    /\ attempt remote m path ok on_success on_error tt (retried remote m path n s)
       = Raises e s'.
Proof.
  intros H.
  pose proof (leading_retries_le remote ok fuel (api_requests s)) as Hle.
  set (n := leading_retries remote ok (api_requests s) fuel) in *.
  destruct (decide (n = fuel)) as [Hn|Hn].
  - rewrite loop_out_of_fuel in H by exact Hn. discriminate.
  - destruct (loop_decided fuel s) as [Heq _]; [fold n; lia|]. fold n in Heq.
    rewrite Heq in H. exists n. split; [lia|].
    destruct (attempt _ _ _ _ _ _ _ _) as [[[]|a'] s1|x s1|s1]; simpl in H;
      try discriminate. congruence.
Qed.

End Endings.

(** Proves that a handler built from the primitives never says
    [continue], or always raises. *)
Ltac handler_tac :=
  intros;
  match goal with
  | |- Decide.decisive _ => unfold Decide.decisive
  | |- raising _ => unfold raising
  end;
  intros;
  cbv [mbind Monica.M_bind Monica.bind Monica.mark_updated Monica.mark_created
       Monica.mark_deleted Monica.contacts_append Monica.log_info
       Monica.log_error Monica.log_warning Monica.database_update
       Monica.modify Monica.gets Monica.ret Monica.raise Monica.json_contact
       Monica.json_contacts Monica.json_types Monica.json_item
       Monica.json_items Monica.json_last_page Monica.first];
  repeat (cbv beta iota;
          match goal with
          | |- context [match ?x with _ => _ end] =>
              lazymatch x with
              | context [match _ with _ => _ end] => fail
              | _ => destruct x
              end
          end);
  cbv beta iota; exact I.

(** ** What the operations leave alone *)

(** The operations that call [database.update]. *)
Definition writes_store (op : operation) : bool :=
  match op with
  | Update_contact _ _ | Update_career _ => true
  | _ => false
  end.

(** The operations that only read from the remote. *)
Definition is_fetch (op : operation) : bool :=
  match op with
  | Get_gender_mapping | Get_contacts | Get_contact _ | Get_notes _ _
  | Get_contact_fields _ _ | Get_contact_field_id _ | Upload_form _ => true
  | _ => false
  end.

(** The three dicts of the session statistics. *)
Definition statistics (s : Monica.self)
  : gmap Py.id bool * gmap Py.id bool * gmap Py.id bool :=
  (Monica.updated_contacts s, Monica.created_contacts s, Monica.deleted_contacts s).

Ltac unfold_run :=
  unfold run, void, Monica.update_contact, Monica.delete_contact,
    Monica.create_contact, Monica.get_contacts, Monica.get_contact,
    Monica.get_notes, Monica.add_note, Monica.update_note, Monica.delete_note,
    Monica.remove_tags, Monica.add_tags, Monica.update_career,
    Monica.get_contact, Monica.delete_address, Monica.create_address,
    Monica.get_contact_fields, Monica.get_contact_field_id,
    Monica.__get_contact_field_types, Monica.create_contact_field,
    Monica.delete_contact_field, MonicaContactUploadForm.__init__,
    Monica.get_gender_mapping.

Lemma run_keeps_database (remote : nat -> Http.response) (fuel : nat) (op : operation) :
  writes_store op = false -> Keeps.keeps Monica.database (run remote fuel op).
Proof. destruct op; try discriminate; intros _; unfold_run; keeps_tac. Qed.

Lemma fetch_keeps_statistics (remote : nat -> Http.response) (fuel : nat)
    (op : operation) :
  is_fetch op = true -> Keeps.keeps statistics (run remote fuel op).
Proof. destruct op; try discriminate; intros _; unfold_run; keeps_tac. Qed.

(** X3. Apart from [update_contact] and [update_career], no operation
    calls the mapping store: not [create_contact], not [delete_contact],
    not the fetches.  And an operation that only fetches leaves the
    session statistics (updated, created and deleted contacts) as they
    are.  Both hold however the operation ends. *)
Theorem store_and_statistics_untouched (remote : nat -> Http.response) (fuel : nat)
    (op : operation) (s : Monica.self) :
  (writes_store op = false ->
   Monica.database (Loop.final (run remote fuel op s)) = Monica.database s)
  /\ (is_fetch op = true ->
      statistics (Loop.final (run remote fuel op s)) = statistics s).
Proof.
  split; intros H.
  - apply (run_keeps_database remote fuel op H s).
  - apply (fetch_keeps_statistics remote fuel op H s).
Qed.

(** Everything of the session but the request counter and the wire. *)
Definition session_state (s : Monica.self) : Monica.self :=
  Monica.with_api_requests 0 (Monica.with_wire [] s).

Section Lists.

Import Monica Loop Decide.
Variable remote : nat -> Http.response.

Lemma get_notes_keeps_session (fuel : nat) (i : Py.id) (n : string) :
  Keeps.keeps session_state (get_notes remote fuel i n).
Proof. unfold get_notes. keeps_tac. Qed.

Lemma get_contact_fields_keeps_session (fuel : nat) (i : Py.id) (n : string) :
  Keeps.keeps session_state (get_contact_fields remote fuel i n).
Proof. unfold get_contact_fields. keeps_tac. Qed.

Lemma json_items_returns (r : Http.response) (s s' : self) (l : list Http.item) :
  (field_list ← json_items r; ret (Leave (L:=unit) field_list)) s = Returns (Leave l) s' ->
  Http.data (Http.json r) = Some (Http.Items l).
Proof.
  rewrite bind_eq. unfold json_items.
  destruct (Http.data (Http.json r)) as [[]|]; simpl; try discriminate.
  intros H. injection H as H _. congruence.
Qed.

End Lists.

(** X4. [get_notes] and [get_contact_fields] hand over what the remote
    sent: the list they return is the ["data"] of a response with
    status 200, the last one they consumed.  However they end, nothing
    of the session changes but the request counter and the wire: no
    cache entry, no statistics, no log line. *)
Theorem list_fetches_pass_through (remote : nat -> Http.response) (fuel : nat)
    (monica_id : Py.id) (name : string) (s : Monica.self) :
  let answered_by (o : Monica.outcome (list Http.item)) :=
    match o with
    | Monica.Returns l s' =>
        exists k, Monica.api_requests s' = S k
                  /\ (Monica.api_requests s <= k)%nat
                  /\ Http.status_code (remote k) = 200
                  /\ Http.data (Http.json (remote k)) = Some (Http.Items l)
    | _ => True
    end in
  answered_by (Monica.get_notes remote fuel monica_id name s)
  /\ session_state (Loop.final (Monica.get_notes remote fuel monica_id name s))
     = session_state s
  /\ answered_by (Monica.get_contact_fields remote fuel monica_id name s)
  /\ session_state (Loop.final (Monica.get_contact_fields remote fuel monica_id name s))
     = session_state s.
Proof.
  intros answered_by.
  split; [|split; [apply get_notes_keeps_session|
           split; [|apply get_contact_fields_keeps_session]]].
  - unfold answered_by.
    destruct (Monica.get_notes remote fuel monica_id name s) as [l s'|e s'|s'] eqn:H;
      [|exact I|exact I].
    unfold Monica.get_notes in H.
    apply loop_returns in H as [n [Hn [Hst Hs]]]; [|handler_tac..].
    pose proof (json_items_returns _ _ _ _ Hs) as Hd.
    exists (Monica.api_requests s + n)%nat. repeat split; try assumption; [|lia].
    rewrite Loop.bind_eq in Hs. unfold Monica.json_items in Hs. rewrite Hd in Hs.
    injection Hs as <-. simpl. rewrite retried_api_requests. reflexivity.
  - unfold answered_by.
    destruct (Monica.get_contact_fields remote fuel monica_id name s)
      as [l s'|e s'|s'] eqn:H; [|exact I|exact I].
    unfold Monica.get_contact_fields in H.
    apply loop_returns in H as [n [Hn [Hst Hs]]]; [|handler_tac..].
    pose proof (json_items_returns _ _ _ _ Hs) as Hd.
    exists (Monica.api_requests s + n)%nat. repeat split; try assumption; [|lia].
    rewrite Loop.bind_eq in Hs. unfold Monica.json_items in Hs. rewrite Hd in Hs.
    injection Hs as <-. simpl. rewrite retried_api_requests. reflexivity.
Qed.

(** ** Listing all contacts *)

Section Listing.

Import Monica Loop.
Variable remote : nat -> Http.response.

(** The loop of [get_contacts], from any page and any contacts fetched
    so far. *)
Definition contacts_loop (fuel : nat) (page : Z) (acc : list contact) : M unit :=
  while_true fuel (fun '((page, contacts) : Z * list contact) =>
    attempt remote Http.GET ("/contacts?page=" ++ Py.str (Py.Int page)) 200
      (fun response =>
         data ← json_contacts response;
         let contacts := (contacts ++ data)%list in
         max_page ← json_last_page response;
         if page =? max_page then
           lf ← gets label_filter;
           modify (with_contacts (__filter_contacts_by_label lf contacts));;
           ret (Leave tt)
         else ret (Continue (page + 1, contacts)))
      (fun error =>
         let msg := "Error fetching Monica contacts: " ++ error in
         log_error msg;;
         raise (Py.MonicaFetchError msg))
      (page, contacts)) (page, acc).

Lemma get_contacts_eq (fuel : nat) :
  get_contacts remote fuel
  = try_except
      (fetched ← gets is_data_already_fetched;
       if (fetched : bool) then gets contacts
       else
         log_info "Fetching all Monica contacts...";;
         contacts_loop fuel 1 [];;
         modify (with_is_data_already_fetched true);;
         log_info "Finished fetching Monica contacts";;
         gets contacts)
      (fun e =>
         let msg := "Failed to fetch Monica contacts (maybe connection issue): "
                    ++ Py.str_exn e in
         log_error msg;;
         raise (Py.MonicaFetchError msg)).
Proof. reflexivity. Qed.

(** A page of the listing: status 200, contacts, and the number of the
    last page. *)
Definition is_page (r : Http.response) (cs : list contact) (last : Z) : Prop :=
  Http.status_code r = 200
  /\ Http.data (Http.json r) = Some (Http.Contacts cs)
  /\ Http.last_page (Http.json r) = Some last.

Lemma contacts_loop_page (fuel : nat) (page : Z) (acc : list contact) (s : self) cs last :
  is_page (remote (api_requests s)) cs last ->
  contacts_loop (S fuel) page acc s
  = let s1 := sent Http.GET ("/contacts?page=" ++ Py.str (Py.Int page)) s in
    if page =? last then
      Returns tt
        (with_contacts (__filter_contacts_by_label (label_filter s) (acc ++ cs)) s1)
    else contacts_loop fuel (page + 1) (acc ++ cs) s1.
Proof.
  intros [Hst [Hd Hl]]. unfold contacts_loop. rewrite while_true_S.
  rewrite attempt_accepted by exact Hst.
  cbv [mbind M_bind bind json_contacts json_last_page gets modify ret].
  rewrite Hd, Hl. cbv zeta. destruct (page =? last); reflexivity.
Qed.

(** Until it leaves through the last page, the loop touches neither the
    cache nor the fetched flag. *)
Lemma contacts_loop_unfinished (fuel : nat) :
  forall page acc s,
    match contacts_loop fuel page acc s with
    | Returns _ _ => True
    | Raises _ s' | OutOfFuel s' =>
        contacts s' = contacts s
        /\ is_data_already_fetched s' = is_data_already_fetched s
    end.
Proof.
  induction fuel as [|fuel IH]; intros page acc s; [split; reflexivity|].
  unfold contacts_loop. rewrite while_true_S, attempt_cases.
  fold (contacts_loop fuel).
  destruct (_ =? 200).
  - cbv [mbind M_bind bind json_contacts json_last_page gets modify ret].
    destruct (Http.data _) as [[]|]; try (split; reflexivity).
    destruct (Http.last_page _) as [last|]; [|split; reflexivity].
    cbv zeta. destruct (page =? last); [exact I|].
    apply (IH (page + 1) _ (sent Http.GET _ s)).
  - destruct (Http.error_message _) as [msg|]; [|split; reflexivity].
    destruct (Py.contains _ msg); [|split; reflexivity].
    destruct (Http.retry_after _) as [sec|]; [|split; reflexivity].
    destruct (sec <? 0); [split; reflexivity|].
    apply (IH page acc (slept sec (sent Http.GET _ s))).
Qed.

End Listing.

(** X5. [get_contacts] answers from the session once it has succeeded:
    a call that returns has set [is_data_already_fetched], returns the
    cached list, and every later call returns that list again without a
    request, whatever the remote would say. *)
Theorem get_contacts_fetches_once (remote : nat -> Http.response) (fuel : nat)
    (s s' : Monica.self) (l : list contact) :
  Monica.get_contacts remote fuel s = Monica.Returns l s' ->
  Monica.is_data_already_fetched s' = true
  /\ l = Monica.contacts s'
  /\ forall remote' fuel',
       Monica.get_contacts remote' fuel' s' = Monica.Returns l s'.
Proof.
  intros H.
  assert (Hgood : Monica.is_data_already_fetched s' = true /\ l = Monica.contacts s').
  { rewrite get_contacts_eq in H. unfold Monica.try_except in H.
    rewrite Loop.bind_eq in H. unfold Monica.gets at 1 in H.
    destruct (Monica.is_data_already_fetched s) eqn:Hf.
    - injection H as <- <-. split; [exact Hf|reflexivity].
    - rewrite Loop.bind_eq in H. unfold Monica.log_info at 1, Monica.modify at 1 in H.
      rewrite Loop.bind_eq in H.
      destruct (contacts_loop remote fuel 1 [] _) as [[] s1|e s1|s1];
        [|discriminate H..].
      injection H as <- <-. split; reflexivity. }
  destruct Hgood as [Hf Hl]. split; [exact Hf|]. split; [exact Hl|].
  intros remote' fuel'. rewrite get_contacts_eq. unfold Monica.try_except.
  rewrite Loop.bind_eq. unfold Monica.gets. rewrite Hf, Hl. reflexivity.
Qed.

(** X6. [get_contacts] fails as a whole: when it raises, the exception
    is a [MonicaFetchError] whose text starts with the "Failed to fetch"
    sentence and ends with the text of the exception underneath, the
    same text is the last line of the log, at level ERROR, and neither
    the cache nor the fetched flag has changed. *)
Theorem get_contacts_failure (remote : nat -> Http.response) (fuel : nat)
    (s s' : Monica.self) (e : Py.exn) :
  Monica.get_contacts remote fuel s = Monica.Raises e s' ->
  (exists inner,
     let msg := "Failed to fetch Monica contacts (maybe connection issue): "
                ++ Py.str_exn inner in
     e = Py.MonicaFetchError msg /\ last (Monica.log s') = Some (ERROR, msg))
  /\ Monica.contacts s' = Monica.contacts s
  /\ Monica.is_data_already_fetched s' = Monica.is_data_already_fetched s.
Proof.
  rewrite get_contacts_eq. unfold Monica.try_except. rewrite Loop.bind_eq.
  unfold Monica.gets at 1.
  destruct (Monica.is_data_already_fetched s) eqn:Hf; [discriminate|].
  rewrite Loop.bind_eq. unfold Monica.log_info at 1, Monica.modify at 1.
  rewrite Loop.bind_eq.
  pose proof (contacts_loop_unfinished remote fuel 1 []
                (Monica.with_log
                   (Monica.log s ++ [(INFO, "Fetching all Monica contacts...")]) s))
    as Hu.
  destruct (contacts_loop remote fuel 1 [] _) as [[] s1|inner s1|s1];
    [discriminate| |discriminate].
  destruct Hu as [Hc Hfl]. intros H. injection H as <- <-.
  split; [|split].
  - exists inner. split; [reflexivity|]. simpl. apply last_snoc.
  - exact Hc.
  - simpl. rewrite Hfl. exact Hf.
Qed.

Section Paging.

Import Monica Loop.
Variable remote : nat -> Http.response.

Lemma concat_pages_shift (pages : nat -> list contact) (n : nat) :
  concat (List.map pages (seq 0 (S n)))
  = (pages 0%nat ++ concat (List.map (fun i => pages (S i)) (seq 0 n)))%list.
Proof.
  change (seq 0 (S n)) with (0%nat :: seq 1 n). cbn [List.map concat].
  rewrite <- seq_shift, List.map_map. reflexivity.
Qed.

Lemma contacts_loop_pages (remaining : nat) :
  forall (page last : Z) (acc : list contact) (s : self)
         (pages : nat -> list contact) (fuel : nat),
    page + Z.of_nat remaining = last ->
    (forall i, (i <= remaining)%nat ->
       is_page (remote (api_requests s + i)) (pages i) last) ->
    exists s',
      contacts_loop remote (S remaining + fuel) page acc s = Returns tt s'
      /\ contacts s'
         = __filter_contacts_by_label (label_filter s)
             (acc ++ concat (List.map pages (seq 0 (S remaining))))
      /\ api_requests s' = (api_requests s + S remaining)%nat
      /\ is_data_already_fetched s' = is_data_already_fetched s
      /\ log s' = log s.
Proof.
  induction remaining as [|remaining IH]; intros page last acc s pages fuel Hlast Hp.
  - pose proof (Hp 0%nat ltac:(lia)) as H0. rewrite Nat.add_0_r in H0.
    change (1 + fuel)%nat with (S fuel).
    rewrite (contacts_loop_page remote fuel page acc s _ _ H0). cbv zeta.
    replace (page =? last) with true by (symmetry; apply Z.eqb_eq; lia).
    eexists. split; [reflexivity|]. simpl. rewrite app_nil_r.
    repeat split. lia.
  - pose proof (Hp 0%nat ltac:(lia)) as H0. rewrite Nat.add_0_r in H0.
    change (S (S remaining) + fuel)%nat with (S (S remaining + fuel)).
    rewrite (contacts_loop_page remote _ page acc s _ _ H0). cbv zeta.
    replace (page =? last) with false by (symmetry; apply Z.eqb_neq; lia).
    destruct (IH (page + 1) last (acc ++ pages 0%nat)%list
                (sent Http.GET ("/contacts?page=" ++ Py.str (Py.Int page)) s)
                (fun i => pages (S i)) fuel) as [s' [Hr [Hc [Ha [Hf Hl]]]]].
    + lia.
    + intros i Hi. simpl.
      replace (S (api_requests s + i)) with (api_requests s + S i)%nat by lia.
      apply Hp. lia.
    + exists s'. split; [exact Hr|]. split; [|split; [|split]].
      * rewrite Hc, (concat_pages_shift pages (S remaining)), <- app_assoc.
        reflexivity.
      * rewrite Ha. simpl. lia.
      * exact Hf.
      * exact Hl.
Qed.

Lemma contacts_loop_never_last (fuel : nat) :
  forall (page : Z) (acc : list contact) (s : self),
    (forall i, exists cs last,
       is_page (remote (api_requests s + i)) cs last /\ last <> page + Z.of_nat i) ->
    exists s',
      contacts_loop remote fuel page acc s = OutOfFuel s'
      /\ api_requests s' = (api_requests s + fuel)%nat.
Proof.
  induction fuel as [|fuel IH]; intros page acc s Hp.
  - exists s. split; [reflexivity|lia].
  - destruct (Hp 0%nat) as [cs [last [H0 Hne]]]. rewrite Nat.add_0_r in H0.
    rewrite (contacts_loop_page remote fuel page acc s _ _ H0). cbv zeta.
    replace (page =? last) with false by (symmetry; apply Z.eqb_neq; simpl in Hne; lia).
    destruct (IH (page + 1) (acc ++ cs)%list
                (sent Http.GET ("/contacts?page=" ++ Py.str (Py.Int page)) s))
      as [s' [Hr Ha]].
    + intros i. destruct (Hp (S i)) as [cs' [last' [Hi Hn]]].
      exists cs', last'. split.
      * simpl. replace (S (api_requests s + i)) with (api_requests s + S i)%nat by lia.
        exact Hi.
      * lia.
    + exists s'. split; [exact Hr|]. rewrite Ha. simpl. lia.
Qed.

End Paging.

(** X7. A listing of [P] pages: when the remote answers the next [P]
    requests with pages that all name [P] as the last page,
    [get_contacts] returns after exactly [P] requests, and both its
    result and the cache are the label filter applied to the contacts of
    the pages, in page order. *)
Theorem get_contacts_pages (remote : nat -> Http.response) (P fuel : nat)
    (pages : nat -> list contact) (s : Monica.self) :
  Monica.is_data_already_fetched s = false ->
  (1 <= P)%nat ->
  (forall i, (i < P)%nat ->
     is_page (remote (Monica.api_requests s + i)%nat) (pages i) (Z.of_nat P)) ->
  let all := concat (List.map pages (seq 0 P)) in
  exists s',
    Monica.get_contacts remote (P + fuel) s
    = Monica.Returns (Monica.__filter_contacts_by_label (Monica.label_filter s) all) s'
    /\ Monica.contacts s'
       = Monica.__filter_contacts_by_label (Monica.label_filter s) all
    /\ Monica.api_requests s' = (Monica.api_requests s + P)%nat
    /\ Monica.is_data_already_fetched s' = true.
Proof.
  intros Hf HP Hp all. destruct P as [|remaining]; [lia|].
  destruct (contacts_loop_pages remote remaining 1 (Z.of_nat (S remaining)) []
              (Monica.with_log
                 (Monica.log s ++ [(INFO, "Fetching all Monica contacts...")]) s)
              pages fuel) as [s1 [Hr [Hc [Ha _]]]].
  - lia.
  - intros i Hi. apply Hp. lia.
  - rewrite get_contacts_eq. unfold Monica.try_except. rewrite Loop.bind_eq.
    unfold Monica.gets at 1. rewrite Hf.
    rewrite Loop.bind_eq. unfold Monica.log_info at 1, Monica.modify at 1.
    rewrite Loop.bind_eq, Hr.
    eexists. split; [|split; [|split]].
    + cbv [mbind Monica.M_bind Monica.bind Monica.modify Monica.log_info Monica.gets].
      simpl Monica.contacts. rewrite Hc. reflexivity.
    + simpl. exact Hc.
    + simpl. exact Ha.
    + reflexivity.
Qed.

(** X8. The listing stops only on a page whose number equals the last
    page it reports.  When the remote keeps delivering pages but never
    reports the page just asked for as the last one (a last page of 0,
    or a listing that shrank while it was read), [get_contacts]
    asks for page after page without end. *)
Theorem get_contacts_never_last (remote : nat -> Http.response) (fuel : nat)
    (s : Monica.self) :
  Monica.is_data_already_fetched s = false ->
  (forall i, exists cs last,
     is_page (remote (Monica.api_requests s + i)%nat) cs last
     /\ last <> 1 + Z.of_nat i) ->
  exists s',
    Monica.get_contacts remote fuel s = Monica.OutOfFuel s'
    /\ Monica.api_requests s' = (Monica.api_requests s + fuel)%nat
    /\ Monica.is_data_already_fetched s' = false.
Proof.
  intros Hf Hp.
  pose proof (contacts_loop_unfinished remote fuel 1 []
                (Monica.with_log
                   (Monica.log s ++ [(INFO, "Fetching all Monica contacts...")]) s))
    as Hu.
  destruct (contacts_loop_never_last remote fuel 1 []
              (Monica.with_log
                 (Monica.log s ++ [(INFO, "Fetching all Monica contacts...")]) s) Hp)
    as [s' [Hr Ha]].
  rewrite Hr in Hu. destruct Hu as [_ Hfl].
  exists s'. rewrite get_contacts_eq. unfold Monica.try_except. rewrite Loop.bind_eq.
  unfold Monica.gets at 1. rewrite Hf.
  rewrite Loop.bind_eq. unfold Monica.log_info at 1, Monica.modify at 1.
  rewrite Loop.bind_eq, Hr. split; [reflexivity|]. split; [exact Ha|].
  rewrite Hfl. exact Hf.
Qed.

(** ** Fetching one contact *)

Section OneContact.

Import Monica Loop Decide.
Variable remote : nat -> Http.response.
Variable monica_id : Py.id.

Let path : string := "/contacts/" ++ Py.str monica_id.

(** The request loop of [get_contact]. *)
Definition contact_fetch (fuel : nat) : M contact :=
  while_true fuel (attempt remote Http.GET ("/contacts/" ++ Py.str monica_id) 200
    (fun response =>
       monica_contact ← json_contact response;
       lf ← gets label_filter;
       monica_contact ← first (__filter_contacts_by_label lf [monica_contact]);
       contacts_append monica_contact;;
       ret (Leave monica_contact))
    (fun error => raise (Py.MonicaFetchError error))) tt.

(** What the handlers of [get_contact] make of an exception. *)
Definition contact_handler (e : Py.exn) : M contact :=
  match e with
  | Py.IndexError _ =>
      let msg := "Contact processing of '" ++ Py.str monica_id
                 ++ "' not allowed by label filter" in
      log_info msg;;
      raise (Py.InternalError msg)
  | _ =>
      let msg := "Failed to fetch Monica contact '" ++ Py.str monica_id
                 ++ "': " ++ Py.str_exn e in
      log_error msg;;
      raise (Py.MonicaFetchError msg)
  end.

Lemma get_contact_eq (fuel : nat) (s : self) :
  get_contact remote fuel monica_id s
  = match List.filter (same_id monica_id) (contacts s) with
    | c :: _ => Returns c s
    | [] =>
        match contact_fetch fuel s with
        | Raises e s' => contact_handler e s'
        | r => r
        end
    end.
Proof.
  unfold get_contact, try_except. rewrite bind_eq. unfold gets at 1.
  fold (contact_fetch fuel).
  destruct (contacts s) as [|c0 l]; [reflexivity|].
  simpl truthy. cbv iota.
  destruct (List.filter (same_id monica_id) (c0 :: l)); reflexivity.
Qed.

(** One eligible contact in a singleton list. *)
Lemma filter_singleton (lf : LabelFilter) (c : contact) :
  __filter_contacts_by_label lf [c] = if eligible lf c then [c] else [].
Proof. rewrite filter_is_eligible. reflexivity. Qed.

Lemma contact_fetch_returns (fuel : nat) (s s' : self) (c : contact) :
  contact_fetch fuel s = Returns c s' ->
  exists n,
    (n < fuel)%nat
    /\ Http.status_code (remote (api_requests s + n)) = 200
    /\ Http.data (Http.json (remote (api_requests s + n))) = Some (Http.Contact c)
    /\ eligible (label_filter s) c = true
    /\ s' = with_contacts (contacts s ++ [c])
              (sent Http.GET path (retried remote Http.GET path n s)).
Proof.
  intros H. unfold contact_fetch in H.
  apply loop_returns in H as [n [Hn [Hst Hs]]]; [|handler_tac..].
  exists n. split; [exact Hn|]. split; [exact Hst|].
  revert Hs.
  cbv [mbind M_bind bind json_contact gets first contacts_append modify ret raise].
  destruct (Http.data _) as [[c0| | | |]|]; try discriminate.
  rewrite filter_singleton.
  replace (label_filter (sent Http.GET ("/contacts/" ++ Py.str monica_id)
             (retried remote Http.GET ("/contacts/" ++ Py.str monica_id) n s)))
    with (label_filter s) by (rewrite retried_eq; reflexivity).
  destruct (eligible (label_filter s) c0) eqn:He; [|discriminate].
  intros H. injection H as <- <-. repeat split; try assumption.
  unfold path. rewrite retried_eq. reflexivity.
Qed.

Lemma contact_fetch_raises (fuel : nat) (s s' : self) (e : Py.exn) :
  contact_fetch fuel s = Raises e s' ->
  exists n,
    (n < fuel)%nat
    /\ s' = sent Http.GET path (retried remote Http.GET path n s)
    /\ forall msg, e = Py.IndexError msg ->
         Http.status_code (remote (api_requests s + n)) = 200
         /\ exists c,
              Http.data (Http.json (remote (api_requests s + n)))
              = Some (Http.Contact c)
              /\ eligible (label_filter s) c = false.
Proof.
  intros H. unfold contact_fetch in H.
  apply loop_raises in H as [n [Hn Ha]]; [|handler_tac..].
  exists n. split; [exact Hn|]. revert Ha.
  rewrite attempt_cases, retried_api_requests. fold path.
  destruct (Http.status_code (remote (api_requests s + n)) =? 200) eqn:Hst.
  - apply Z.eqb_eq in Hst.
    cbv [mbind M_bind bind json_contact gets first contacts_append modify ret raise].
    destruct (Http.data _) as [[c0| | | |]|];
      try (intros H; injection H as <- <-; split; [reflexivity|discriminate]).
    rewrite filter_singleton.
    replace (label_filter (sent Http.GET path (retried remote Http.GET path n s)))
      with (label_filter s) by (rewrite retried_eq; reflexivity).
    destruct (eligible (label_filter s) c0) eqn:He; [discriminate|].
    intros H. injection H as <- <-. split; [reflexivity|].
    intros msg _. split; [exact Hst|]. exists c0. split; [reflexivity|exact He].
  - destruct (Http.error_message _) as [msg|];
      [|intros H; injection H as <- <-; split; [reflexivity|discriminate]].
    destruct (Py.contains _ msg).
    + destruct (Http.retry_after _) as [sec|];
        [|intros H; injection H as <- <-; split; [reflexivity|discriminate]].
      destruct (sec <? 0); [|discriminate].
      intros H; injection H as <- <-; split; [reflexivity|discriminate].
    + unfold raise. intros H; injection H as <- <-; split; [reflexivity|discriminate].
Qed.

End OneContact.

(** X9. The two ways [get_contact] fails.  It raises [InternalError],
    after one INFO line, only when the remote delivered the contact with
    status 200 and the label filter excludes it; every other failure is
    a [MonicaFetchError] whose text is the "Failed to fetch" sentence
    followed by the text of the exception underneath, logged at level
    ERROR.  In both cases the cache is as it was. *)
Theorem get_contact_failure (remote : nat -> Http.response) (fuel : nat)
    (monica_id : Py.id) (s s' : Monica.self) (e : Py.exn) :
  Monica.get_contact remote fuel monica_id s = Monica.Raises e s' ->
  Monica.contacts s' = Monica.contacts s
  /\ ((let msg := "Contact processing of '" ++ Py.str monica_id
                  ++ "' not allowed by label filter" in
       e = Py.InternalError msg
       /\ last (Monica.log s') = Some (INFO, msg)
       /\ exists k c,
            (Monica.api_requests s <= k)%nat
            /\ Http.status_code (remote k) = 200
            /\ Http.data (Http.json (remote k)) = Some (Http.Contact c)
            /\ eligible (Monica.label_filter s) c = false)
      \/ (exists inner,
            let msg := "Failed to fetch Monica contact '" ++ Py.str monica_id
                       ++ "': " ++ Py.str_exn inner in
            e = Py.MonicaFetchError msg
            /\ last (Monica.log s') = Some (ERROR, msg))).
Proof.
  rewrite get_contact_eq.
  destruct (List.filter _ _) as [|c0 l]; [|discriminate].
  destruct (contact_fetch remote monica_id fuel s) as [c s1|inner s1|s1] eqn:Hf;
    [discriminate| |discriminate].
  apply contact_fetch_raises in Hf as [n [Hn [-> Hidx]]].
  assert (Hother : forall inner : Py.exn,
    (forall m, inner <> Py.IndexError m) ->
    contact_handler monica_id inner
      (Loop.sent Http.GET ("/contacts/" ++ Py.str monica_id)
         (retried remote Http.GET ("/contacts/" ++ Py.str monica_id) n s))
    = Monica.Raises e s' ->
    Monica.contacts s' = Monica.contacts s
    /\ exists inner0,
         e = Py.MonicaFetchError
               ("Failed to fetch Monica contact '" ++ Py.str monica_id
                ++ "': " ++ Py.str_exn inner0)
         /\ last (Monica.log s')
            = Some (ERROR, "Failed to fetch Monica contact '" ++ Py.str monica_id
                           ++ "': " ++ Py.str_exn inner0)).
  { intros inner0 Hne H.
    assert (Hh : contact_handler monica_id inner0
                 = (Monica.log_error
                      ("Failed to fetch Monica contact '" ++ Py.str monica_id
                       ++ "': " ++ Py.str_exn inner0);;
                    Monica.raise
                      (Py.MonicaFetchError
                         ("Failed to fetch Monica contact '" ++ Py.str monica_id
                          ++ "': " ++ Py.str_exn inner0)))).
    { destruct inner0; try reflexivity. exfalso. eapply Hne. reflexivity. }
    rewrite Hh in H. injection H as <- <-. split.
    - cbn [Monica.contacts Monica.with_log Loop.sent Monica.with_api_requests
           Monica.with_wire]. rewrite retried_eq. reflexivity.
    - exists inner0. split; [reflexivity|]. apply last_snoc. }
  destruct inner as [m|m|m|k|m|m];
    try (intros H; apply Hother in H as [Hc Hr]; [|discriminate];
         split; [exact Hc|right; exact Hr]).
  intros H. injection H as <- <-. split.
  - cbn [Monica.contacts Monica.with_log Loop.sent Monica.with_api_requests
         Monica.with_wire]. rewrite retried_eq. reflexivity.
  - left. destruct (Hidx m eq_refl) as [Hst [c [Hd He]]].
    split; [reflexivity|]. split; [apply last_snoc|].
    exists (Monica.api_requests s + n)%nat, c. repeat split; try assumption. lia.
Qed.

(** X10. What [get_contact] returns.  Either the contact was cached: it
    is the first cached contact with that id, and nothing has changed,
    not even the request counter.  Or no cached contact had the id: the
    contact comes from the remote, passes the label filter, and is now
    the last entry of the cache.  When the contact carries the id that
    was asked for, every later [get_contact] of that id returns it from
    the cache, whatever the remote would say. *)
Theorem get_contact_returns (remote : nat -> Http.response) (fuel : nat)
    (monica_id : Py.id) (s s' : Monica.self) (c : contact) :
  Monica.get_contact remote fuel monica_id s = Monica.Returns c s' ->
  ((exists rest,
      List.filter (Monica.same_id monica_id) (Monica.contacts s) = c :: rest)
   /\ s' = s
   \/ List.filter (Monica.same_id monica_id) (Monica.contacts s) = []
      /\ Monica.contacts s' = (Monica.contacts s ++ [c])%list
      /\ eligible (Monica.label_filter s) c = true
      /\ (Monica.api_requests s < Monica.api_requests s')%nat)
  /\ (Monica.same_id monica_id c = true ->
      forall remote' fuel',
        Monica.get_contact remote' fuel' monica_id s' = Monica.Returns c s').
Proof.
  rewrite get_contact_eq.
  destruct (List.filter (Monica.same_id monica_id) (Monica.contacts s))
    as [|c0 l] eqn:Hcache.
  - destruct (contact_fetch remote monica_id fuel s) as [c1 s1|inner s1|s1] eqn:Hf.
    + intros H. injection H as -> ->.
      apply contact_fetch_returns in Hf as [n [Hn [Hst [Hd [He ->]]]]].
      split.
      * right. split; [reflexivity|]. split; [reflexivity|]. split; [exact He|].
        simpl. rewrite retried_api_requests. lia.
      * intros Hid remote' fuel'. rewrite get_contact_eq. simpl Monica.contacts.
        rewrite List.filter_app, Hcache. simpl. rewrite Hid. reflexivity.
    + destruct inner; simpl; discriminate.
    + discriminate.
  - intros H. injection H as -> ->. split.
    + left. split; [exists l; reflexivity|reflexivity].
    + intros _ remote' fuel'. rewrite get_contact_eq, Hcache. reflexivity.
Qed.

(** ** Create, update, delete: the cache and the statistics *)

Section RaiseKeeps.

Import Monica Loop Decide.
Variable remote : nat -> Http.response.
Context {A X : Type}.
Variable f : self -> X.
Variables (m : Http.method) (path : string) (ok : Z).
Variable on_success : Http.response -> M (step unit A).
Variable on_error : string -> M (step unit A).
Hypothesis on_success_decisive : forall r, decisive (on_success r).
Hypothesis on_error_raising : forall e, raising (on_error e).
Hypothesis f_wire : forall v s, f (with_wire v s) = f s.
Hypothesis f_api_requests : forall v s, f (with_api_requests v s) = f s.
Hypothesis on_success_raise :
  forall r s e s', on_success r s = Raises e s' -> f s' = f s.
Hypothesis on_error_keeps : forall e, Keeps.keeps f (on_error e).

(** A loop that raises has left [f] alone, when its success branch does
    so before it raises and its error branch does so throughout. *)
Lemma loop_raises_keeps (fuel : nat) (s s' : self) (e : Py.exn) :
  while_true fuel (attempt remote m path ok on_success on_error) tt s = Raises e s' ->
  f s' = f s.
Proof.
  intros H. apply loop_raises in H as [n [_ Ha]]; try assumption.
  assert (Hs : f (sent m path (retried remote m path n s)) = f s).
  { unfold sent. rewrite f_api_requests, f_wire, retried_eq, f_api_requests, f_wire.
    reflexivity. }
  rewrite attempt_cases in Ha.
  destruct (_ =? ok).
  - apply on_success_raise in Ha. congruence.
  - destruct (Http.error_message _) as [msg|]; [|injection Ha as _ <-; exact Hs].
    destruct (Py.contains _ msg).
    + destruct (Http.retry_after _) as [sec|]; [|injection Ha as _ <-; exact Hs].
      destruct (sec <? 0); [injection Ha as _ <-; exact Hs|discriminate].
    + pose proof (on_error_keeps msg (sent m path (retried remote m path n s))) as Hk.
      rewrite Ha in Hk. simpl in Hk. congruence.
Qed.

End RaiseKeeps.

(** X11. [delete_contact] touches the session only on success.  When it
    returns, every cached contact of that id is gone (a later
    [get_contact] has to ask the remote) and the id is marked as
    deleted; when it raises, the cache and the deleted-contacts dict are
    as before. *)
Theorem delete_contact_all_or_nothing (remote : nat -> Http.response) (fuel : nat)
    (monica_id : Py.id) (name : string) (s : Monica.self) :
  match Monica.delete_contact remote fuel monica_id name s with
  | Monica.Returns _ s' =>
      Monica.contacts s'
      = List.filter (fun c => negb (Monica.same_id monica_id c)) (Monica.contacts s)
      /\ List.filter (Monica.same_id monica_id) (Monica.contacts s') = []
      /\ Monica.deleted_contacts s' = <[monica_id := true]> (Monica.deleted_contacts s)
  | Monica.Raises _ s' =>
      Monica.contacts s' = Monica.contacts s
      /\ Monica.deleted_contacts s' = Monica.deleted_contacts s
  | Monica.OutOfFuel _ => True
  end.
Proof.
  destruct (Monica.delete_contact remote fuel monica_id name s) as [[] s'|e s'|s'] eqn:H;
    [| |exact I]; unfold Monica.delete_contact in H.
  - apply loop_returns in H as [n [_ [_ Hs]]]; [|handler_tac..].
    revert Hs. run_handler. intros Hs. injection Hs as <-.
    cbn [Monica.contacts Monica.deleted_contacts Monica.with_contacts
         Monica.with_deleted_contacts Loop.sent Monica.with_api_requests
         Monica.with_wire].
    rewrite retried_eq.
    cbn [Monica.contacts Monica.deleted_contacts Monica.with_api_requests
         Monica.with_wire].
    split; [reflexivity|]. split; [|reflexivity].
    induction (Monica.contacts s) as [|c l IH]; [reflexivity|]. simpl.
    destruct (Monica.same_id monica_id c) eqn:Hc; simpl; [exact IH|].
    rewrite Hc. exact IH.
  - apply (loop_raises_keeps remote
             (fun s => (Monica.contacts s, Monica.deleted_contacts s))) in H;
      try solve [ handler_tac | intros; reflexivity
                | intros ? ? ? ?; run_handler; discriminate | keeps_tac ].
    injection H as H1 H2. split; assumption.
Qed.

Lemma filter_drops_same_id (monica_id : Py.id) (l : list contact) :
  List.filter (Monica.same_id monica_id)
    (List.filter (fun c => negb (Monica.same_id monica_id c)) l) = [].
Proof.
  induction l as [|c l IH]; [reflexivity|]. simpl.
  destruct (Monica.same_id monica_id c) eqn:Hc; simpl; [exact IH|].
  rewrite Hc. exact IH.
Qed.

(** X12. A successful [update_contact] refreshes the cache: the contact
    the remote sent back is the last cached entry, every older cached
    contact of that id is gone, the id is marked as updated and the
    mapping store is told the contact's timestamp and name.  The
    contact is cached without asking the label filter: when it carries
    the id that was updated, every later [get_contact] of that id
    returns it from the cache, eligible or not. *)
Theorem update_contact_refreshes_cache (remote : nat -> Http.response) (fuel : nat)
    (monica_id : Py.id) (data : Form.data) (s s' : Monica.self) :
  Monica.update_contact remote fuel monica_id data s = Monica.Returns tt s' ->
  exists c,
    Monica.contacts s'
    = (List.filter (fun c => negb (Monica.same_id monica_id c)) (Monica.contacts s)
       ++ [c])%list
    /\ Monica.updated_contacts s' = <[monica_id := true]> (Monica.updated_contacts s)
    /\ Monica.database s'
       = (Monica.database s
          ++ [{| monica_id := monica_id;
                 monica_last_changed := updated_at c;
                 monica_full_name := Some (complete_name c) |}])%list
    /\ (Monica.same_id monica_id c = true ->
        forall remote' fuel',
          Monica.get_contact remote' fuel' monica_id s' = Monica.Returns c s').
Proof.
  intros H. unfold Monica.update_contact in H. rewrite Loop.bind_eq in H.
  unfold Monica.modify at 1 in H.
  apply loop_returns in H as [n [_ [_ Hs]]]; [|handler_tac..].
  revert Hs. run_handler.
  destruct (Http.data _) as [[c| | | |]|]; try discriminate.
  intros Hs. injection Hs as <-. exists c.
  cbn [Monica.contacts Monica.updated_contacts Monica.database Monica.with_contacts
       Monica.with_updated_contacts Monica.with_database Monica.with_log
       Loop.sent Monica.with_api_requests Monica.with_wire].
  rewrite retried_eq.
  cbn [Monica.contacts Monica.updated_contacts Monica.database Monica.with_contacts
       Monica.with_api_requests Monica.with_wire].
  repeat split.
  intros Hid remote' fuel'. rewrite get_contact_eq.
  cbn [Monica.contacts Monica.with_contacts Monica.with_updated_contacts
       Monica.with_database Monica.with_log Loop.sent Monica.with_api_requests
       Monica.with_wire].
  rewrite List.filter_app, filter_drops_same_id. simpl. rewrite Hid. reflexivity.
Qed.

(** X13. [create_contact] caches and counts the contact it returns: the
    contact is appended to the cache and marked as created under its
    own id, and the mapping store is not called.  A refusal is logged at
    level INFO, not ERROR; whenever the operation raises, the cache and
    the created-contacts dict are as before. *)
Theorem create_contact_all_or_nothing (remote : nat -> Http.response) (fuel : nat)
    (reference_id : string) (s : Monica.self) :
  match Monica.create_contact remote fuel reference_id s with
  | Monica.Returns c s' =>
      Monica.contacts s' = (Monica.contacts s ++ [c])%list
      /\ Monica.created_contacts s' = <[id c := true]> (Monica.created_contacts s)
      /\ Monica.database s' = Monica.database s
  | Monica.Raises e s' =>
      Monica.contacts s' = Monica.contacts s
      /\ Monica.created_contacts s' = Monica.created_contacts s
      /\ forall text, e = Py.MonicaFetchError text ->
           text = "Error creating Monica contact!"
           /\ exists error,
                last (Monica.log s')
                = Some (INFO, "'" ++ reference_id
                              ++ "': Error creating Monica contact: " ++ error)
  | Monica.OutOfFuel _ => True
  end.
Proof.
  destruct (Monica.create_contact remote fuel reference_id s) as [c s'|e s'|s'] eqn:H;
    [| |exact I]; unfold Monica.create_contact in H.
  - apply loop_returns in H as [n [_ [_ Hs]]]; [|handler_tac..].
    revert Hs. run_handler.
    destruct (Http.data _) as [[c0| | | |]|]; try discriminate.
    intros Hs. injection Hs as <- <-.
    cbn [Monica.contacts Monica.created_contacts Monica.database Monica.with_contacts
         Monica.with_created_contacts Monica.with_log
         Loop.sent Monica.with_api_requests Monica.with_wire].
    rewrite retried_eq. repeat split.
  - pose proof H as Hk.
    apply (loop_raises_keeps remote
             (fun s => (Monica.contacts s, Monica.created_contacts s))) in Hk;
      try solve [ handler_tac | intros; reflexivity | keeps_tac ].
    + injection Hk as H1 H2. split; [exact H1|]. split; [exact H2|].
      intros text ->. apply loop_raises in H as [n [_ Ha]]; [|handler_tac..].
      rewrite Loop.attempt_cases in Ha.
      destruct (_ =? 201).
      * revert Ha. run_handler.
        destruct (Http.data _) as [[c0| | | |]|]; discriminate.
      * destruct (Http.error_message _) as [msg|]; [|discriminate].
        destruct (Py.contains _ msg).
        -- destruct (Http.retry_after _) as [sec|]; [|discriminate].
           destruct (sec <? 0); discriminate.
        -- revert Ha. run_handler. intros Ha. injection Ha as <- <-.
           split; [reflexivity|]. exists msg. apply last_snoc.
    + intros r s0 e0 s0'. run_handler.
      destruct (Http.data _) as [[c0| | | |]|]; try discriminate;
        intros Hr; injection Hr as _ <-; reflexivity.
Qed.

(** ** A contact created in the session *)

(** A run of operations, one after the other, each from the state the
    one before has left, however it ended. *)
Definition session (remote : nat -> Http.response) (fuel : nat)
    (ops : list operation) (s : Monica.self) : Monica.self :=
  fold_left (fun s op => Loop.final (run remote fuel op s)) ops s.

Section Created.

Import Monica Loop.
Variable remote : nat -> Http.response.

Lemma run_keeps_created (fuel : nat) (op : operation) :
  (forall ref, op <> Create_contact ref) ->
  Keeps.keeps created_contacts (run remote fuel op).
Proof.
  destruct op; intros Hne; try (exfalso; eapply Hne; reflexivity);
    unfold_run; keeps_tac.
Qed.

Lemma create_contact_keeps_key (k : Py.id) (ref : string) (fuel : nat) :
  forall s,
    created_contacts s !! k = Some true ->
    created_contacts (final (create_contact remote fuel ref s)) !! k = Some true.
Proof.
  unfold create_contact. induction fuel as [|fuel IH]; intros s Hk; [exact Hk|].
  rewrite while_true_S, attempt_cases.
  destruct (_ =? 201).
  - run_handler. destruct (Http.data _) as [[c| | | |]|]; try exact Hk.
    simpl. destruct (decide (id c = k)) as [->|Hne].
    + apply lookup_insert_eq.
    + rewrite lookup_insert_ne by exact Hne. exact Hk.
  - destruct (Http.error_message _) as [msg|]; [|exact Hk].
    destruct (Py.contains _ msg); [|exact Hk].
    destruct (Http.retry_after _) as [sec|]; [|exact Hk].
    destruct (sec <? 0); [exact Hk|]. apply IH. exact Hk.
Qed.

Lemma run_keeps_created_key (k : Py.id) (fuel : nat) (op : operation) (s : self) :
  created_contacts s !! k = Some true ->
  created_contacts (final (run remote fuel op s)) !! k = Some true.
Proof.
  intros Hk. destruct op;
    lazymatch goal with
    | |- context [run remote fuel (Create_contact ?ref) s] =>
        unfold run, void; rewrite bind_eq;
        pose proof (create_contact_keeps_key k ref fuel s Hk) as H;
        destruct (create_contact remote fuel ref s); exact H
    | |- context [run remote fuel ?op s] =>
        rewrite (run_keeps_created fuel op ltac:(intros; discriminate) s); exact Hk
    end.
Qed.

Lemma create_contact_marks (fuel : nat) (ref : string) (s s1 : self) (c : contact) :
  create_contact remote fuel ref s = Returns c s1 ->
  created_contacts s1 = <[id c := true]> (created_contacts s).
Proof.
  intros H. unfold create_contact in H.
  apply loop_returns in H as [n [_ [_ Hs]]]; [|handler_tac..].
  revert Hs. run_handler.
  destruct (Http.data _) as [[c0| | | |]|]; try discriminate.
  intros Hs. injection Hs as <- <-.
  cbn [created_contacts with_contacts with_created_contacts with_log
       sent with_api_requests with_wire].
  rewrite retried_eq. reflexivity.
Qed.

Lemma session_keeps_created_key (k : Py.id) (fuel : nat) (ops : list operation) :
  forall s,
    created_contacts s !! k = Some true ->
    created_contacts (session remote fuel ops s) !! k = Some true.
Proof.
  induction ops as [|op ops IH]; intros s Hk; [exact Hk|].
  simpl. apply IH, run_keeps_created_key, Hk.
Qed.

End Created.

(** X14. A contact created during the session counts as created only.
    After [create_contact] has returned a contact, let any operations
    follow, with any outcome: in the statistics that [update_statistics]
    leaves, the id of the contact is among the created contacts and not
    among the updated ones. *)
Theorem created_contact_never_counts_as_updated (remote : nat -> Http.response)
    (fuel : nat) (reference_id : string) (s s1 : Monica.self) (c : contact)
    (ops : list operation) :
  Monica.create_contact remote fuel reference_id s = Monica.Returns c s1 ->
  let s3 := Loop.final (Monica.update_statistics (session remote fuel ops s1)) in
  Monica.created_contacts s3 !! id c = Some true
  /\ Monica.updated_contacts s3 !! id c = None.
Proof.
  intros H s3.
  pose proof (create_contact_marks remote fuel reference_id s s1 c H) as Hcr.
  assert (Hk : Monica.created_contacts (session remote fuel ops s1) !! id c = Some true).
  { apply session_keeps_created_key. rewrite Hcr. apply lookup_insert_eq. }
  split; [exact Hk|]. subst s3. simpl.
  apply map_lookup_filter_None. right. intros v _ Hnot. apply Hnot. simpl.
  apply elem_of_dom. exists true. exact Hk.
Qed.

(** ** The cached lookup tables *)

Lemma dict_of_types_snoc (l : list (string * Py.id)) (k : string) (v : Py.id) :
  Monica.dict_of_types (l ++ [(k, v)]) = <[k := v]> (Monica.dict_of_types l).
Proof. unfold Monica.dict_of_types. rewrite foldl_app. reflexivity. Qed.

(** X15. The dict built from the remote's list of genders, or of contact
    field types, maps a type to the id of the last entry of that type:
    a later entry replaces an earlier one, and a type without entry has
    no key. *)
Theorem dict_of_types_last_wins (l : list (string * Py.id)) (t : string) :
  Monica.dict_of_types l !! t
  = snd <$> last (List.filter (fun entry => String.eqb entry.1 t) l).
Proof.
  induction l as [|[k v] l IH] using rev_ind; [reflexivity|].
  rewrite dict_of_types_snoc, List.filter_app. simpl.
  destruct (String.eqb k t) eqn:Hk.
  - apply String.eqb_eq in Hk. subst k. rewrite lookup_insert_eq, last_snoc.
    reflexivity.
  - apply String.eqb_neq in Hk. rewrite lookup_insert_ne by exact Hk.
    rewrite app_nil_r. exact IH.
Qed.

Section Asks.

Import Monica Loop.
Variable remote : nat -> Http.response.
Context {L A : Type}.
Variables (m : Http.method) (path : L -> string) (ok : Z).
Variable on_success : L -> Http.response -> M (step L A).
Variable on_error : L -> string -> M (step L A).
Hypothesis on_success_keeps : forall l r, Keeps.keeps api_requests (on_success l r).
Hypothesis on_error_keeps : forall l e, Keeps.keeps api_requests (on_error l e).

Let body (l : L) : M (step L A) :=
  attempt remote m (path l) ok (on_success l) (on_error l) l.

Lemma attempt_asks (l : L) (s : self) :
  api_requests (final (body l s)) = S (api_requests s).
Proof.
  unfold body. rewrite attempt_cases.
  destruct (_ =? ok); [apply on_success_keeps|].
  destruct (Http.error_message _) as [msg|]; [|reflexivity].
  destruct (Py.contains _ msg); [|apply on_error_keeps].
  destruct (Http.retry_after _) as [sec|]; [|reflexivity].
  destruct (sec <? 0); reflexivity.
Qed.

(** The counter never goes back in a loop, and a loop with fuel asks at
    least once. *)
Lemma loop_counter_grows (fuel : nat) :
  forall l s, (api_requests s <= api_requests (final (while_true fuel body l s)))%nat.
Proof.
  induction fuel as [|fuel IH]; intros l s; [reflexivity|].
  rewrite while_true_S. pose proof (attempt_asks l s) as Ha.
  destruct (body l s) as [[l'|a] s1|e s1|s1]; simpl in *; try lia.
  specialize (IH l' s1). lia.
Qed.

Lemma loop_asks (fuel : nat) (l : L) (s : self) :
  (api_requests s < api_requests (final (while_true (S fuel) body l s)))%nat.
Proof.
  rewrite while_true_S. pose proof (attempt_asks l s) as Ha.
  destruct (body l s) as [[l'|a] s1|e s1|s1]; simpl in *; try lia.
  pose proof (loop_counter_grows fuel l' s1). lia.
Qed.

End Asks.

Section Genders2.

Import Monica Loop.
Variable remote : nat -> Http.response.

Lemma get_gender_mapping_returns (fuel : nat) (s s' : self) (g : gmap string Py.id) :
  get_gender_mapping remote fuel s = Returns g s' ->
  gender_mapping s' = g.
Proof.
  unfold get_gender_mapping. rewrite bind_eq. unfold gets at 1.
  destruct (bool_decide (gender_mapping s <> ∅)).
  - intros H. injection H as <- <-. reflexivity.
  - intros H. apply loop_returns in H as [n [_ [_ Hs]]]; [|handler_tac..].
    revert Hs. cbv [mbind M_bind bind json_types gets modify ret].
    destruct (Http.data _) as [[| |l| |]|]; try discriminate.
    intros Hs. injection Hs as <- <-. reflexivity.
Qed.

Lemma get_gender_mapping_asks (fuel : nat) (s : self) :
  gender_mapping s = ∅ ->
  (api_requests s < api_requests (final (get_gender_mapping remote (S fuel) s)))%nat.
Proof.
  intros He. unfold get_gender_mapping. rewrite bind_eq. unfold gets at 1.
  rewrite bool_decide_eq_false_2 by (intros H; apply H, He).
  apply (loop_asks remote Http.GET (fun _ : unit => "/genders") 200
           (fun _ response =>
              genders ← json_types response;
              modify (with_gender_mapping (dict_of_types genders));;
              mapping ← gets gender_mapping;
              ret (Leave mapping))
           (fun _ error =>
              log_error ("Failed to fetch genders from Monica: " ++ error);;
              raise (Py.MonicaFetchError "Error fetching genders from Monica!")));
    keeps_tac.
Qed.

End Genders2.

(** X16. The gender mapping is fetched until it is not empty.  What
    [get_gender_mapping] returns is what the session holds afterwards; a
    mapping with at least one gender is returned by every later call
    without a request; an empty one (the remote listed no gender) is not
    remembered as fetched, and the next call asks the remote again. *)
Theorem gender_mapping_cached_when_not_empty (remote : nat -> Http.response)
    (fuel : nat) (s s' : Monica.self) (g : gmap string Py.id) :
  Monica.get_gender_mapping remote fuel s = Monica.Returns g s' ->
  Monica.gender_mapping s' = g
  /\ (g <> ∅ ->
      forall remote' fuel',
        Monica.get_gender_mapping remote' fuel' s' = Monica.Returns g s')
  /\ (g = ∅ ->
      forall remote' fuel',
        (Monica.api_requests s'
         < Monica.api_requests
             (Loop.final (Monica.get_gender_mapping remote' (S fuel') s')))%nat).
Proof.
  intros H. apply get_gender_mapping_returns in H. split; [exact H|]. split.
  - intros Hne remote' fuel'. rewrite <- H.
    apply get_gender_mapping_cached. rewrite H. exact Hne.
  - intros He remote' fuel'. apply get_gender_mapping_asks. rewrite H. exact He.
Qed.

Section FieldTypes.

Import Monica Loop.
Variable remote : nat -> Http.response.

Lemma field_types_never_internal (fuel : nat) (s s' : self) (text : string) :
  __get_contact_field_types remote fuel s <> Raises (Py.InternalError text) s'.
Proof.
  intros H. unfold __get_contact_field_types in H.
  apply loop_raises in H as [n [_ Ha]]; [|handler_tac..].
  rewrite attempt_cases in Ha.
  destruct (_ =? 200).
  - revert Ha. cbv [mbind M_bind bind json_types gets modify ret raise].
    destruct (Http.data _) as [[| |l| |]|]; discriminate.
  - destruct (Http.error_message _) as [msg|]; [|discriminate].
    destruct (Py.contains _ msg).
    + destruct (Http.retry_after _) as [sec|]; [|discriminate].
      destruct (sec <? 0); discriminate.
    + revert Ha. run_handler. discriminate.
Qed.

End FieldTypes.

(** X17. The id of a contact field type.  [get_contact_field_id] answers
    from the session when the table of field types is not empty, without
    a request; it returns the id the table holds for the type, provided
    the id is true for Python.  It raises [InternalError] exactly on a
    type that the table (fetched, if it was empty) does not hold, or
    holds with an id that is false for Python: the id [0] counts as no
    id. *)
Theorem contact_field_id_lookup (remote : nat -> Http.response) (fuel : nat)
    (type_name : string) (s : Monica.self) :
  let found (s' : Monica.self) :=
    match Monica.contact_field_type_mapping s' !! type_name with
    | Some field_id => if Py.truthy_id field_id then Some field_id else None
    | None => None
    end in
  (Monica.contact_field_type_mapping s <> ∅ ->
   Monica.get_contact_field_id remote fuel type_name s
   = match found s with
     | Some field_id => Monica.Returns field_id s
     | None =>
         Monica.Raises
           (Py.InternalError
              ("Could not find an id for contact field type '" ++ type_name ++ "'")) s
     end)
  /\ match Monica.get_contact_field_id remote fuel type_name s with
     | Monica.Returns field_id s' => found s' = Some field_id
     | Monica.Raises (Py.InternalError _) s' => found s' = None
     | _ => True
     end.
Proof.
  intros found. split.
  - intros Hne. unfold Monica.get_contact_field_id. rewrite Loop.bind_eq.
    unfold Monica.gets at 1. rewrite bool_decide_eq_false_2 by exact Hne.
    rewrite Loop.bind_eq. unfold Monica.ret at 1. rewrite Loop.bind_eq.
    unfold Monica.gets at 1. unfold found.
    destruct (_ !! type_name) as [i|]; [|reflexivity].
    destruct (Py.truthy_id i); reflexivity.
  - unfold Monica.get_contact_field_id. rewrite Loop.bind_eq.
    unfold Monica.gets at 1.
    assert (Hlook : forall s1,
      match
        (mapping ← Monica.gets Monica.contact_field_type_mapping;
         match mapping !! type_name with
         | Some field_id =>
             if Py.truthy_id field_id then Monica.ret field_id
             else Monica.raise
                    (Py.InternalError
                       ("Could not find an id for contact field type '"
                        ++ type_name ++ "'"))
         | None =>
             Monica.raise
               (Py.InternalError
                  ("Could not find an id for contact field type '"
                   ++ type_name ++ "'"))
         end) s1
      with
      | Monica.Returns field_id s' => found s' = Some field_id
      | Monica.Raises (Py.InternalError _) s' => found s' = None
      | _ => True
      end).
    { intros s1. rewrite Loop.bind_eq. unfold Monica.gets. unfold found.
      destruct (Monica.contact_field_type_mapping s1 !! type_name) as [i|] eqn:Hi.
      - destruct (Py.truthy_id i) eqn:Ht; simpl; rewrite Hi, Ht; reflexivity.
      - simpl. rewrite Hi. reflexivity. }
    rewrite Loop.bind_eq.
    destruct (bool_decide (Monica.contact_field_type_mapping s = ∅)).
    + rewrite Loop.bind_eq.
      destruct (Monica.__get_contact_field_types remote fuel s) as [g s1|e s1|s1] eqn:Hf.
      * apply Hlook.
      * destruct e; try exact I. exfalso.
        eapply field_types_never_internal. exact Hf.
      * exact I.
    + apply Hlook.
Qed.

(** ** Statistics and filter, applied twice *)

(** X18. [update_statistics] only ever removes entries from the
    updated-contacts dict, and removes nothing more when it runs a
    second time: the statistics can be printed any number of times. *)
Theorem update_statistics_idempotent (s : Monica.self) :
  let s1 := Loop.final (Monica.update_statistics s) in
  Loop.final (Monica.update_statistics s1) = s1
  /\ Monica.updated_contacts s1 ⊆ Monica.updated_contacts s.
Proof.
  simpl. split.
  - unfold Monica.with_updated_contacts. simpl. f_equal.
    apply map_eq. intros k.
    destruct (filter (fun kv : Py.id * bool => kv.1 ∉ dom (Monica.created_contacts s))
                (Monica.updated_contacts s) !! k) as [v|] eqn:Hk.
    + apply map_lookup_filter_Some. split; [exact Hk|].
      apply map_lookup_filter_Some in Hk as [_ Hk]. exact Hk.
    + apply map_lookup_filter_None. left. exact Hk.
  - apply map_filter_subseteq.
Qed.

(** X19. The label filter as an operation on lists.  Filtering a list
    that is already filtered changes nothing; filtering the contacts of
    two pages at once is filtering each page and joining the results, so
    that the listing of all contacts and the fetch of a single contact
    admit the same contacts: a contact is kept in a list exactly when it
    is in the list and is kept when filtered on its own. *)
Theorem label_filter_composes (lf : LabelFilter) (l1 l2 : list contact) (c : contact) :
  Monica.__filter_contacts_by_label lf (Monica.__filter_contacts_by_label lf l1)
  = Monica.__filter_contacts_by_label lf l1
  /\ Monica.__filter_contacts_by_label lf (l1 ++ l2)
     = (Monica.__filter_contacts_by_label lf l1
        ++ Monica.__filter_contacts_by_label lf l2)%list
  /\ (In c (Monica.__filter_contacts_by_label lf l1)
      <-> In c l1 /\ Monica.__filter_contacts_by_label lf [c] = [c]).
Proof.
  rewrite !filter_is_eligible. split; [|split].
  - induction l1 as [|x l IH]; [reflexivity|]. simpl.
    destruct (eligible lf x) eqn:Hx; simpl; [rewrite Hx, IH; reflexivity|exact IH].
  - apply List.filter_app.
  - rewrite filter_In. simpl. destruct (eligible lf c); split; intros [H1 H2];
      (split; [exact H1|]); try reflexivity; discriminate.
Qed.

(** ** A career update that succeeds *)

Section CareerSuccess.

Import Monica Loop.
Variable remote : nat -> Http.response.
Variables (mid : Py.id) (name : string).

Lemma career_loop_keeps_contacts (fuel : nat) :
  Keeps.keeps contacts (career_loop remote mid name fuel).
Proof. unfold career_loop. keeps_tac. Qed.

Lemma career_loop_returns (fuel : nat) :
  forall s s',
    career_loop remote mid name fuel s = Returns tt s' ->
    updated_contacts s' = <[mid := true]> (updated_contacts s)
    /\ exists c,
         database s'
         = (database s ++ [{| monica_id := mid;
                              monica_last_changed := updated_at c;
                              monica_full_name := None |}])%list.
Proof.
  unfold career_loop. induction fuel as [|fuel IH]; intros s s'; [discriminate|].
  rewrite while_true_S, attempt_cases.
  destruct (_ =? 200).
  - run_handler. destruct (Http.data _) as [[c| | | |]|]; try discriminate.
    intros H. injection H as <-. split; [reflexivity|]. exists c. reflexivity.
  - destruct (Http.error_message _) as [msg|]; [|discriminate].
    destruct (Py.contains _ msg).
    + destruct (Http.retry_after _) as [sec|]; [|discriminate].
      destruct (sec <? 0); [discriminate|]. intros H. apply IH in H. exact H.
    + run_handler. intros H. apply IH in H. exact H.
Qed.

End CareerSuccess.

(** X20. A successful [update_career] marks the contact as updated and
    tells the mapping store the new timestamp, without a name.  It does
    not refresh the cache: the contact that comes back from the remote
    is not cached, and for a contact that was cached before the call the
    cached list is the same afterwards. *)
Theorem update_career_keeps_cache (remote : nat -> Http.response) (fuel : nat)
    (mid : Py.id) (s s' : Monica.self) (c0 : contact) (rest : list contact) :
  List.filter (Monica.same_id mid) (Monica.contacts s) = c0 :: rest ->
  Monica.update_career remote fuel mid s = Monica.Returns tt s' ->
  Monica.contacts s' = Monica.contacts s
  /\ Monica.updated_contacts s' = <[mid := true]> (Monica.updated_contacts s)
  /\ exists c,
       Monica.database s'
       = (Monica.database s ++ [{| monica_id := mid;
                                   monica_last_changed := updated_at c;
                                   monica_full_name := None |}])%list.
Proof.
  intros Hc H. unfold Monica.update_career in H. rewrite Loop.bind_eq in H.
  rewrite (get_contact_cached remote fuel mid s c0 rest Hc) in H.
  fold (career_loop remote mid (complete_name c0) fuel) in H.
  split.
  - pose proof (career_loop_keeps_contacts remote mid (complete_name c0) fuel s)
      as Hk.
    rewrite H in Hk. exact Hk.
  - apply career_loop_returns in H. exact H.
Qed.

(** ** Counting before reading *)

(** The mutations that read an item under ["data"]. *)
Definition reads_item (op : operation) : option Py.id :=
  match op with
  | Add_note i _ | Update_note _ i _ | Create_address i _
  | Create_contact_field i _ => Some i
  | _ => None
  end.

(** X21. The mutations of notes, addresses and contact fields count the
    contact as updated before they read the response.  When the remote
    accepts the request but the response has no key ["data"], the
    operation raises [KeyError] and the contact counts as updated all
    the same; nothing is logged. *)
Theorem item_mutation_counts_before_reading (remote : nat -> Http.response)
    (fuel : nat) (op : operation) (mid : Py.id) (s : Monica.self) :
  reads_item op = Some mid ->
  Http.status_code (remote (Monica.api_requests s)) = success_status op ->
  Http.data (Http.json (remote (Monica.api_requests s))) = None ->
  exists s',
    run remote (S fuel) op s = Monica.Raises (Py.KeyError "data") s'
    /\ Monica.updated_contacts s' = <[mid := true]> (Monica.updated_contacts s)
    /\ Monica.log s' = Monica.log s.
Proof.
  intros Hop Hst Hd.
  destruct op; try discriminate Hop; simpl in Hop, Hst; injection Hop as ->;
    unfold run, Monica.add_note, Monica.update_note, Monica.create_address,
      Monica.create_contact_field;
    rewrite Loop.while_true_S, Loop.attempt_accepted by exact Hst;
    run_handler; rewrite Hd;
    eexists; repeat split; reflexivity.
Qed.

(** ** The reminder setting of the session *)

(** [self.create_reminders = v] *)
Definition with_create_reminders (v : bool) (s : Monica.self) : Monica.self :=
  {| Monica.label_filter := Monica.label_filter s;
     Monica.create_reminders := v;
     Monica.is_data_already_fetched := Monica.is_data_already_fetched s;
     Monica.contacts := Monica.contacts s;
     Monica.gender_mapping := Monica.gender_mapping s;
     Monica.contact_field_type_mapping := Monica.contact_field_type_mapping s;
     Monica.updated_contacts := Monica.updated_contacts s;
     Monica.created_contacts := Monica.created_contacts s;
     Monica.deleted_contacts := Monica.deleted_contacts s;
     Monica.api_requests := Monica.api_requests s;
     Monica.log := Monica.log s;
     Monica.database := Monica.database s;
     Monica.wire := Monica.wire s |}.

Module Blind.

Import Monica Loop.

Section Blind.

Variable v : bool.

(** The same outcome, in the session with the other setting. *)
Definition carry {A} (o : outcome A) : outcome A :=
  match o with
  | Returns a s => Returns a (with_create_reminders v s)
  | Raises e s => Raises e (with_create_reminders v s)
  | OutOfFuel s => OutOfFuel (with_create_reminders v s)
  end.

(** [m] does not look at the setting: started with another setting, it
    does the same, and ends with that setting. *)
Definition blind {A} (m : M A) : Prop :=
  forall s, m (with_create_reminders v s) = carry (m s).

Lemma blind_ret {A} (a : A) : blind (ret a).
Proof. intros s. reflexivity. Qed.

Lemma blind_raise {A} (e : Py.exn) : blind (@raise A e).
Proof. intros s. reflexivity. Qed.

Lemma blind_gets {A} (g : self -> A) :
  (forall s, g (with_create_reminders v s) = g s) -> blind (gets g).
Proof. intros H s. unfold gets. rewrite H. reflexivity. Qed.

Lemma blind_modify (g : self -> self) :
  (forall s, g (with_create_reminders v s) = with_create_reminders v (g s)) ->
  blind (modify g).
Proof. intros H s. unfold modify. rewrite H. reflexivity. Qed.

Lemma blind_request remote (m : Http.method) (path : string) :
  blind (request remote m path).
Proof. intros s. reflexivity. Qed.

Lemma blind_bind {A B} (m : M A) (k : A -> M B) :
  blind m -> (forall a, blind (k a)) -> blind (x ← m; k x).
Proof.
  intros Hm Hk s. rewrite !bind_eq, Hm.
  destruct (m s) as [a s'|e s'|s']; simpl; [apply Hk|reflexivity|reflexivity].
Qed.

Lemma blind_try_except {A} (m : M A) (h : Py.exn -> M A) :
  blind m -> (forall e, blind (h e)) -> blind (try_except m h).
Proof.
  intros Hm Hh s. unfold try_except. rewrite Hm.
  destruct (m s) as [a s'|e s'|s']; simpl; [reflexivity|apply Hh|reflexivity].
Qed.

Lemma blind_while_true {L A} (fuel : nat) (body : L -> M (step L A)) :
  (forall l, blind (body l)) -> forall l, blind (while_true fuel body l).
Proof.
  intros Hb. induction fuel as [|fuel IH]; intros l s; [reflexivity|].
  rewrite !while_true_S, Hb.
  destruct (body l s) as [[l'|a] s'|e s'|s']; simpl; try reflexivity. apply IH.
Qed.

End Blind.

End Blind.

(** Walks a computation built from the primitives of the class. *)
Ltac blind_tac :=
  repeat first
    [ progress intros
    | apply Blind.blind_ret | apply Blind.blind_raise
    | apply Blind.blind_request
    | apply Blind.blind_while_true
    | apply Blind.blind_try_except
    | apply Blind.blind_gets; intros; reflexivity
    | apply Blind.blind_modify; intros; reflexivity
    | match goal with
      | |- Blind.blind _ (match ?x with _ => _ end) => destruct x
      end
    | progress cbv zeta
    | progress unfold Monica.attempt, Monica.json_error, Monica.__is_slow_down_error,
        Monica.sleep, Monica.log_info, Monica.log_warning, Monica.log_error,
        Monica.database_update, Monica.mark_updated, Monica.mark_created,
        Monica.mark_deleted, Monica.contacts_append, Monica.first,
        Monica.json_contact, Monica.json_contacts, Monica.json_types,
        Monica.json_item, Monica.json_items, Monica.json_last_page,
        Monica.update_statistics
    | apply Blind.blind_bind ].

Section BlindOperations.

Import Monica.
Variable remote : nat -> Http.response.
Variables (fuel : nat) (v : bool).

Lemma blind_void {A} (m : M A) : Blind.blind v m -> Blind.blind v (void m).
Proof.
  intros H. unfold void. apply Blind.blind_bind; [exact H|].
  intros a. apply Blind.blind_ret.
Qed.

Lemma blind_get_gender_mapping : Blind.blind v (get_gender_mapping remote fuel).
Proof. unfold get_gender_mapping. blind_tac. Qed.

Lemma blind_get_contacts : Blind.blind v (get_contacts remote fuel).
Proof. unfold get_contacts. blind_tac. Qed.

Lemma blind_get_contact (i : Py.id) : Blind.blind v (get_contact remote fuel i).
Proof. unfold get_contact. blind_tac. Qed.

Lemma blind_create_contact (ref : string) :
  Blind.blind v (create_contact remote fuel ref).
Proof. unfold create_contact. blind_tac. Qed.

Lemma blind_get_notes (i : Py.id) (n : string) :
  Blind.blind v (get_notes remote fuel i n).
Proof. unfold get_notes. blind_tac. Qed.

Lemma blind_get_contact_fields (i : Py.id) (n : string) :
  Blind.blind v (get_contact_fields remote fuel i n).
Proof. unfold get_contact_fields. blind_tac. Qed.

Lemma blind_get_contact_field_id (type_name : string) :
  Blind.blind v (get_contact_field_id remote fuel type_name).
Proof.
  unfold get_contact_field_id, __get_contact_field_types. blind_tac.
Qed.

Lemma blind_upload_form (a : MonicaContactUploadForm.args) :
  Blind.blind v (MonicaContactUploadForm.__init__ remote fuel a).
Proof.
  unfold MonicaContactUploadForm.__init__.
  apply Blind.blind_bind; [apply blind_get_gender_mapping|]. blind_tac.
Qed.

Lemma blind_run (op : operation) : Blind.blind v (run remote fuel op).
Proof.
  destruct op; unfold run.
  - apply blind_void, blind_get_gender_mapping.
  - unfold update_contact. blind_tac.
  - unfold delete_contact. blind_tac.
  - apply blind_void, blind_create_contact.
  - apply blind_void, blind_get_contacts.
  - apply blind_void, blind_get_contact.
  - apply blind_void, blind_get_notes.
  - unfold add_note. blind_tac.
  - unfold update_note. blind_tac.
  - unfold delete_note. blind_tac.
  - unfold remove_tags. blind_tac.
  - unfold add_tags. blind_tac.
  - unfold update_career. apply Blind.blind_bind; [apply blind_get_contact|].
    blind_tac.
  - unfold delete_address. blind_tac.
  - unfold create_address. blind_tac.
  - apply blind_void, blind_get_contact_fields.
  - apply blind_void, blind_get_contact_field_id.
  - unfold create_contact_field. blind_tac.
  - unfold delete_contact_field. blind_tac.
  - apply blind_void, blind_upload_form.
Qed.

End BlindOperations.

(** X28. The session's [create_reminders] is written once and never
    read.  Every operation of the collaborator, started in a session
    that differs in this setting only, does the same (returns the same
    value or raises the same exception, with the same requests, log
    lines and statistics) and leaves the setting as it was; so does the
    construction of an upload form, whose two reminder fields come from
    its own argument. *)
Theorem create_reminders_is_never_read (remote : nat -> Http.response) (fuel : nat)
    (v : bool) (s : Monica.self) :
  let other := with_create_reminders v s in
  (forall op, run remote fuel op other = Blind.carry v (run remote fuel op s))
  /\ Monica.update_statistics other = Blind.carry v (Monica.update_statistics s)
  /\ Monica.get_gender_mapping remote fuel other
     = Blind.carry v (Monica.get_gender_mapping remote fuel s)
  /\ Monica.get_contacts remote fuel other
     = Blind.carry v (Monica.get_contacts remote fuel s)
  /\ (forall monica_id,
        Monica.get_contact remote fuel monica_id other
        = Blind.carry v (Monica.get_contact remote fuel monica_id s))
  /\ (forall reference_id,
        Monica.create_contact remote fuel reference_id other
        = Blind.carry v (Monica.create_contact remote fuel reference_id s))
  /\ (forall monica_id name,
        Monica.get_notes remote fuel monica_id name other
        = Blind.carry v (Monica.get_notes remote fuel monica_id name s))
  /\ (forall monica_id name,
        Monica.get_contact_fields remote fuel monica_id name other
        = Blind.carry v (Monica.get_contact_fields remote fuel monica_id name s))
  /\ (forall type_name,
        Monica.get_contact_field_id remote fuel type_name other
        = Blind.carry v (Monica.get_contact_field_id remote fuel type_name s))
  /\ (forall a,
        MonicaContactUploadForm.__init__ remote fuel a other
        = Blind.carry v (MonicaContactUploadForm.__init__ remote fuel a s)
        /\ forall d s',
             MonicaContactUploadForm.__init__ remote fuel a s = Monica.Returns d s' ->
             Form.birthdate_add_reminder d = MonicaContactUploadForm.create_reminders a
             /\ Form.deceased_date_add_reminder d
                = MonicaContactUploadForm.create_reminders a).
Proof.
  intros other. subst other.
  split; [intros op; apply blind_run|].
  split; [reflexivity|].
  split; [apply blind_get_gender_mapping|].
  split; [apply blind_get_contacts|].
  split; [intros i; apply blind_get_contact|].
  split; [intros ref; apply blind_create_contact|].
  split; [intros i n; apply blind_get_notes|].
  split; [intros i n; apply blind_get_contact_fields|].
  split; [intros n; apply blind_get_contact_field_id|].
  intros a. split; [apply blind_upload_form|].
  intros d s'. unfold MonicaContactUploadForm.__init__. rewrite Loop.bind_eq.
  destruct (Monica.get_gender_mapping remote fuel s) as [m s1|e s1|s1];
    try discriminate.
  destruct (m !! _); [|discriminate]. intros H. injection H as <- _.
  split; reflexivity.
Qed.

(** * Mapping store, mutations, career, upload form and excluded contacts:
    the whole of what the code does *)

(** ** The mapping store and the sub-resource mutations, in full *)

(** The contact that a mutation of notes, addresses, tags or contact
    fields is about. *)
Definition marked_contact (op : operation) : option Py.id :=
  match op with
  | Add_note i _ | Update_note _ i _ | Delete_note _ i _
  | Remove_tags _ i _ | Add_tags _ i _
  | Delete_address _ i _ | Create_address i _
  | Create_contact_field i _ | Delete_contact_field _ i _ => Some i
  | _ => None
  end.

(** The session without the updated-contacts dict, the request counter,
    the wire and the log. *)
Definition besides_updated (s : Monica.self) :=
  (Monica.label_filter s, Monica.create_reminders s,
   Monica.is_data_already_fetched s, Monica.contacts s,
   Monica.gender_mapping s, Monica.contact_field_type_mapping s,
   Monica.created_contacts s, Monica.deleted_contacts s, Monica.database s).

Section SubResources.

Import Monica Loop.
Variable remote : nat -> Http.response.
Variable fuel : nat.

Lemma sub_resource_keeps_rest (op : operation) :
  is_sub_resource_mutation op = true ->
  Keeps.keeps besides_updated (run remote fuel op).
Proof.
  destruct op; try discriminate; intros _;
    unfold run, add_note, update_note, delete_note, remove_tags, add_tags,
      delete_address, create_address, create_contact_field, delete_contact_field;
    keeps_tac.
Qed.

Lemma sub_resource_marks (op : operation) (s s' : self) :
  is_sub_resource_mutation op = true ->
  run remote fuel op s = Returns tt s' ->
  exists i,
    marked_contact op = Some i
    /\ updated_contacts s' = <[i := true]> (updated_contacts s).
Proof.
  destruct op; try discriminate; intros _ H;
    unfold run, add_note, update_note, delete_note, remove_tags, add_tags,
      delete_address, create_address, create_contact_field, delete_contact_field in H;
    (apply loop_returns in H as [n [_ [_ Hs]]]; [|handler_tac..]);
    revert Hs; run_handler;
    try (destruct (Http.data _) as [[| | |it|]|]; try discriminate);
    intros Hs; injection Hs as <-;
    (eexists; split; [reflexivity|]);
    cbn [updated_contacts with_log with_updated_contacts];
    rewrite retried_eq; reflexivity.
Qed.

(** An accepted request with the body that the operation reads: the
    operation returns. *)
Lemma sub_resource_accepted (op : operation) (n : nat) (s : self) :
  is_sub_resource_mutation op = true ->
  (forall i, (i < n)%nat -> exists sec, throttle (remote (api_requests s + i)) sec) ->
  Http.status_code (remote (api_requests s + n)) = success_status op ->
  has_shape (success_reads op) (remote (api_requests s + n)) ->
  exists s', run remote (n + S fuel) op s = Returns tt s'.
Proof.
  intros Hop Hn Hst Hacc.
  destruct op; try discriminate Hop; simpl in Hst, Hacc;
    unfold run, void, add_note, update_note, delete_note, remove_tags, add_tags,
      delete_address, create_address, create_contact_field, delete_contact_field;
    rewrite ?bind_eq; try unfold modify at 1;
    (rewrite loop_skip; [|discriminate|exact Hn]);
    rewrite while_true_S, attempt_accepted
      by (rewrite retried_api_requests; exact Hst);
    rewrite ?retried_api_requests; simpl api_requests;
    run_handler;
    try match type of Hacc with
        | ex _ => let x := fresh in destruct Hacc as [x Hacc]; rewrite Hacc
        end;
    eexists; reflexivity.
Qed.

End SubResources.

(** C2 (as the code has it). The mapping store is written by the two
    operations whose response carries the contact: a successful
    [update_contact] records the contact's new [updated_at] and its name,
    a successful [update_career] its new [updated_at].  The mutations of
    notes, addresses, tags and contact fields never call the mapping
    store, whatever their outcome; one that succeeds marks its contact
    as updated in the session statistics, and of the session changes
    nothing else but the request counter, the wire and the log.  And
    they do succeed: when the remote accepts the request, with the body
    that the operation reads, the operation returns. *)
Theorem mapping_store_written_by_contact_and_career
    (remote : nat -> Http.response) (n fuel : nat) (i : Py.id) :
  (forall (d : Form.data) (s : Monica.self) (c : contact),
     (forall j, (j < n)%nat ->
        exists sec, Loop.throttle (remote (Monica.api_requests s + j)%nat) sec) ->
     Http.status_code (remote (Monica.api_requests s + n)%nat) = 200 ->
     Http.data (Http.json (remote (Monica.api_requests s + n)%nat))
       = Some (Http.Contact c) ->
     exists s',
       Monica.update_contact remote (n + S fuel) i d s = Monica.Returns tt s'
       /\ Monica.database s'
          = (Monica.database s
             ++ [{| monica_id := i; monica_last_changed := updated_at c;
                    monica_full_name := Some (complete_name c) |}])%list)
  /\ (forall (s s0 : Monica.self) (c0 c : contact),
        Monica.get_contact remote (n + S fuel) i s = Monica.Returns c0 s0 ->
        (forall j, (j < n)%nat ->
           exists sec, Loop.throttle (remote (Monica.api_requests s0 + j)%nat) sec) ->
        Http.status_code (remote (Monica.api_requests s0 + n)%nat) = 200 ->
        Http.data (Http.json (remote (Monica.api_requests s0 + n)%nat))
          = Some (Http.Contact c) ->
        exists s',
          Monica.update_career remote (n + S fuel) i s = Monica.Returns tt s'
          /\ Monica.database s'
             = (Monica.database s
                ++ [{| monica_id := i; monica_last_changed := updated_at c;
                       monica_full_name := None |}])%list)
  /\ (forall (op : operation) (s : Monica.self),
        is_sub_resource_mutation op = true ->
        Monica.database (Loop.final (run remote fuel op s)) = Monica.database s)
  /\ (forall (op : operation) (s s' : Monica.self),
        is_sub_resource_mutation op = true ->
        run remote fuel op s = Monica.Returns tt s' ->
        exists target,
          marked_contact op = Some target
          /\ Monica.updated_contacts s'
             = <[target := true]> (Monica.updated_contacts s)
          /\ besides_updated s' = besides_updated s)
  /\ (forall (op : operation) (s : Monica.self),
        is_sub_resource_mutation op = true ->
        (forall j, (j < n)%nat ->
           exists sec, Loop.throttle (remote (Monica.api_requests s + j)%nat) sec) ->
        Http.status_code (remote (Monica.api_requests s + n)%nat) = success_status op ->
        has_shape (success_reads op) (remote (Monica.api_requests s + n)%nat) ->
        exists s' target,
          run remote (n + S fuel) op s = Monica.Returns tt s'
          /\ marked_contact op = Some target
          /\ Monica.updated_contacts s'
             = <[target := true]> (Monica.updated_contacts s)
          /\ Monica.database s' = Monica.database s
          /\ besides_updated s' = besides_updated s).
Proof.
  split; [|split; [|split; [|split]]].
  - intros d s c. apply update_contact_accepted.
  - intros s s0 c0 c. apply update_career_accepted.
  - intros op s H. apply (sub_resource_keeps_database remote fuel op H s).
  - intros op s s' Hop H.
    destruct (sub_resource_marks remote fuel op s s' Hop H) as [t [Ht Hu]].
    exists t. split; [exact Ht|]. split; [exact Hu|].
    pose proof (sub_resource_keeps_rest remote fuel op Hop s) as Hk.
    rewrite H in Hk. exact Hk.
  - intros op s Hop Hn Hst Hsh.
    destruct (sub_resource_accepted remote fuel op n s Hop Hn Hst Hsh) as [s' H].
    destruct (sub_resource_marks remote (n + S fuel) op s s' Hop H) as [t [Ht Hu]].
    exists s', t. split; [exact H|]. split; [exact Ht|]. split; [exact Hu|].
    pose proof (sub_resource_keeps_rest remote (n + S fuel) op Hop s) as Hk.
    rewrite H in Hk. cbn [Loop.final] in Hk. split; [|exact Hk].
    unfold besides_updated in Hk. congruence.
Qed.

(** C2 as the code has it, at work: the update of Ada is accepted after one
    retry, and the store is told her new timestamp. *)
Lemma mapping_store_witness :
  let remote := Script.after_one_retry (Script.ok (Http.Contact Script.ada)) in
  exists s',
    Monica.update_contact remote 2 (Py.Int 7) Script.form Script.with_ada
    = Monica.Returns tt s'
    /\ Monica.database s'
       = [{| monica_id := Py.Int 7; monica_last_changed := "2021-05-01T10:00:00Z";
             monica_full_name := Some "Ada Lovelace" |}].
Proof.
  intros remote.
  apply (proj1 (mapping_store_written_by_contact_and_career remote 1 0 (Py.Int 7))
           Script.form Script.with_ada Script.ada).
  - intros j Hj. apply Script.after_one_retry_throttled; [reflexivity|exact Hj].
  - reflexivity.
  - reflexivity.
Defined.

(** The note of the counterexample: the contact is marked, and that is
    all. *)
Example add_note_marks_the_contact :
  let remote := Script.always (Script.created (Http.Item Script.note)) in
  let s' := Loop.final
              (Monica.add_note remote 1 (Py.Int 7) "Ada Lovelace" Script.with_ada) in
  Monica.updated_contacts s' = {[ Py.Int 7 := true ]}
  /\ Monica.database s' = []
  /\ Monica.contacts s' = [Script.ada; Script.bob].
Proof. split; [|split]; vm_compute; reflexivity. Qed.

(** ** Mutations: accepted, rejected, or answered out of shape *)

Section Malformed.

Import Monica Loop.
Variable remote : nat -> Http.response.

(** A response that does not follow the API is not decided by its
    status: the operation fails on the key it misses. *)
Lemma mutation_malformed (op : operation) (n fuel : nat) (s : self) :
  is_mutation op = true ->
  (forall i, (i < n)%nat -> exists sec, throttle (remote (api_requests s + i)) sec) ->
  let r := remote (api_requests s + n) in
  (Http.status_code r <> success_status op ->
   Http.error_message (Http.json r) = None ->
   exists s', run remote (n + S fuel) op s = Raises (Py.KeyError "error") s')
  /\ (Http.status_code r = success_status op ->
      success_reads op <> No_body ->
      Http.data (Http.json r) = None ->
      exists s', run remote (n + S fuel) op s = Raises (Py.KeyError "data") s').
Proof.
  intros Hmut Hn r. subst r. split.
  - intros Hst Hmsg. apply Z.eqb_neq in Hst.
    destruct op; try discriminate Hmut; simpl in Hst;
      unfold run, void, update_contact, delete_contact, create_contact, add_note,
        update_note, delete_note, remove_tags, add_tags, delete_address,
        create_address, create_contact_field, delete_contact_field;
      rewrite ?bind_eq; try unfold modify at 1;
      (rewrite loop_skip; [|discriminate|exact Hn]);
      rewrite while_true_S, attempt_cases, ?retried_api_requests;
      simpl api_requests; rewrite Hst, Hmsg; eexists; reflexivity.
  - intros Hst Hreads Hdata.
    destruct op; try discriminate Hmut; simpl in Hst, Hreads;
      try (exfalso; apply Hreads; reflexivity);
      unfold run, void, update_contact, create_contact, add_note,
        update_note, create_address, create_contact_field;
      rewrite ?bind_eq; try unfold modify at 1;
      (rewrite loop_skip; [|discriminate|exact Hn]);
      rewrite while_true_S, attempt_accepted
        by (rewrite retried_api_requests; exact Hst);
      rewrite ?retried_api_requests; simpl api_requests;
      run_handler; rewrite Hdata; eexists; reflexivity.
Qed.

End Malformed.

(** C3 (as the code has it). For each mutation of a contact or of its
    sub-resources, once the rate-limit responses are waited out, the
    response that follows decides.  When it follows the API (data with
    an accepted request, an error message with a refused one), the
    operation returns normally exactly when the remote accepted the
    request (the success status of the operation), and raises
    [MonicaFetchError] exactly on every other response that is not a
    rate-limit response.  A response out of that shape is not turned
    into a fetch error: a refusal without an error message raises
    [KeyError], and so does an accepted request without the data that
    the operation reads. *)
Theorem mutation_returns_iff_accepted (remote : nat -> Http.response)
    (op : operation) (n fuel : nat) (s : Monica.self) :
  is_mutation op = true ->
  (forall i, (i < n)%nat ->
     exists sec, Loop.throttle (remote (Monica.api_requests s + i)%nat) sec) ->
  Loop.is_rate_limited (remote (Monica.api_requests s + n)%nat) = false ->
  let r := remote (Monica.api_requests s + n)%nat in
  (conforms op r ->
   ((exists s', run remote (n + S fuel) op s = Monica.Returns tt s')
    <-> Http.status_code r = success_status op)
   /\ ((exists msg s',
          run remote (n + S fuel) op s = Monica.Raises (Py.MonicaFetchError msg) s')
       <-> Http.status_code r <> success_status op))
  /\ (Http.status_code r <> success_status op ->
      Http.error_message (Http.json r) = None ->
      exists s', run remote (n + S fuel) op s = Monica.Raises (Py.KeyError "error") s')
  /\ (Http.status_code r = success_status op ->
      success_reads op <> No_body ->
      Http.data (Http.json r) = None ->
      exists s', run remote (n + S fuel) op s = Monica.Raises (Py.KeyError "data") s').
Proof.
  intros Hmut Hn Hrl r. split; [|exact (mutation_malformed remote op n fuel s Hmut Hn)].
  intros Hc.
  pose proof (mutation_decided remote op n fuel s Hmut Hn Hrl Hc) as H.
  fold r in H.
  destruct (Http.status_code r =? success_status op) eqn:Hst.
  - apply Z.eqb_eq in Hst. destruct H as [s' H]. split; split.
    + intros _. exact Hst.
    + intros _. exists s'. exact H.
    + intros [msg [s'' H']]. congruence.
    + intros Hne. contradiction.
  - apply Z.eqb_neq in Hst. destruct H as [msg [s' H]]. split; split.
    + intros [s'' H']. congruence.
    + intros He. contradiction.
    + intros _. exact Hst.
    + intros _. exists msg, s'. exact H.
Qed.

(** C3 as the code has it, at work: one rate-limit response, then the
    remote refuses to delete; [delete_contact] raises, and only because
    of the refusal. *)
Lemma mutation_returns_iff_accepted_witness :
  let remote := Script.after_one_retry Script.not_found in
  let op := Delete_contact (Py.Int 7) "Ada Lovelace" in
  let r := remote (Monica.api_requests Script.with_ada + 1)%nat in
  (conforms op r ->
   ((exists s', run remote 2 op Script.with_ada = Monica.Returns tt s')
    <-> Http.status_code r = success_status op)
   /\ ((exists msg s',
          run remote 2 op Script.with_ada
          = Monica.Raises (Py.MonicaFetchError msg) s')
       <-> Http.status_code r <> success_status op))
  /\ (Http.status_code r <> success_status op ->
      Http.error_message (Http.json r) = None ->
      exists s', run remote 2 op Script.with_ada = Monica.Raises (Py.KeyError "error") s')
  /\ (Http.status_code r = success_status op ->
      success_reads op <> No_body ->
      Http.data (Http.json r) = None ->
      exists s', run remote 2 op Script.with_ada = Monica.Raises (Py.KeyError "data") s').
Proof.
  intros remote op.
  apply (mutation_returns_iff_accepted remote op 1 0 Script.with_ada).
  - reflexivity.
  - intros i Hi. apply Script.after_one_retry_throttled; [reflexivity|exact Hi].
  - reflexivity.
Defined.

(** Responses out of shape: an internal server error without a message,
    and a 201 with an empty body. *)
Module OutOfShape.

Definition server_error : Http.response :=
  {| Http.status_code := 500; Http.json := Script.body_of None None;
     Http.retry_after := None |}.

Definition created_empty : Http.response :=
  {| Http.status_code := 201; Http.json := Script.body_of None None;
     Http.retry_after := None |}.

End OutOfShape.

(** C3 fails as the specification states it.  The remote refuses to
    delete contact 7 with status 500 and no error message: no rate-limit
    response, and [delete_contact] raises [KeyError], not a fetch error.
    The remote accepts a note with status 201 and an empty body:
    [add_note] does not return. *)
Lemma mutation_out_of_shape_raises_key_error :
  let refused := Script.always OutOfShape.server_error in
  let accepted := Script.always OutOfShape.created_empty in
  let delete := Delete_contact (Py.Int 7) "Ada Lovelace" in
  let note := Add_note (Py.Int 7) "Ada Lovelace" in
  (Http.status_code (refused 0%nat) <> success_status delete
   /\ Loop.is_rate_limited (refused 0%nat) = false
   /\ forall fuel,
        run refused (S fuel) delete Script.with_ada
        = Monica.Raises (Py.KeyError "error")
            (Loop.sent Http.DELETE "/contacts/7" Script.with_ada))
  /\ ~ (forall fuel,
          exists msg s',
            run refused (S fuel) delete Script.with_ada
            = Monica.Raises (Py.MonicaFetchError msg) s')
  /\ (Http.status_code (accepted 0%nat) = success_status note
      /\ ~ (exists s', run accepted 1 note Script.with_ada = Monica.Returns tt s')).
Proof.
  intros refused accepted delete note.
  assert (H : forall fuel,
             run refused (S fuel) delete Script.with_ada
             = Monica.Raises (Py.KeyError "error")
                 (Loop.sent Http.DELETE "/contacts/7" Script.with_ada)).
  { intros fuel. unfold run, delete, Monica.delete_contact.
    rewrite Loop.while_true_S, Loop.attempt_cases. reflexivity. }
  split; [|split].
  - split; [discriminate|]. split; [reflexivity|exact H].
  - intros Hall. destruct (Hall 0%nat) as [msg [s' Hm]]. rewrite H in Hm.
    discriminate Hm.
  - split; [reflexivity|]. intros [s' Hs]. vm_compute in Hs. discriminate Hs.
Qed.

(** ** Career updates: the fetch, then the loop *)

Section CareerLoop.

Import Monica Loop.
Variable remote : nat -> Http.response.
Variables (monica_id : Py.id) (name : string).




End CareerLoop.


(** A server that delivers Ada and refuses everything after that. *)
Definition ada_then_refusals : nat -> Http.response :=
  fun n => match n with
           | O => Script.ok (Http.Contact Script.ada)
           | _ => Script.not_found
           end.


(** The log and the wire of that run, as far as three turns go. *)
Example update_career_after_fetch :
  let s' := Loop.final (Monica.update_career ada_then_refusals 3 (Py.Int 7) Script.fresh) in
  Monica.wire s'
  = [Http.Sent Http.GET "/contacts/7"; Http.Sent Http.PUT "/contacts/7/work";
     Http.Sent Http.PUT "/contacts/7/work"; Http.Sent Http.PUT "/contacts/7/work"]
  /\ List.map fst (Monica.log s') = [WARNING; WARNING; WARNING].
Proof. split; vm_compute; reflexivity. Qed.


(** ** The upload form: every way the gender mapping can come out *)

Section GendersRefused.

Import Monica Loop.
Variable remote : nat -> Http.response.

(** The remote refuses to list the genders. *)
Lemma get_gender_mapping_refused (n fuel : nat) (s : self) (msg : string) :
  gender_mapping s = ∅ ->
  (forall i, (i < n)%nat -> exists sec, throttle (remote (api_requests s + i)) sec) ->
  Http.status_code (remote (api_requests s + n)) <> 200 ->
  Http.error_message (Http.json (remote (api_requests s + n))) = Some msg ->
  Py.contains slow_down_message msg = false ->
  get_gender_mapping remote (n + S fuel) s
  = Raises (Py.MonicaFetchError "Error fetching genders from Monica!")
      (with_log (log s ++ [(ERROR, "Failed to fetch genders from Monica: " ++ msg)])
         (sent Http.GET "/genders" (retried remote Http.GET "/genders" n s))).
Proof.
  intros Hempty Hn Hst Hmsg Hslow. unfold get_gender_mapping. rewrite bind_eq.
  unfold gets at 1. rewrite bool_decide_eq_false_2 by (intros H; apply H, Hempty).
  rewrite loop_skip; [|discriminate|exact Hn].
  rewrite while_true_S, (attempt_rejected _ _ _ _ _ _ _ _ msg)
    by (rewrite ?retried_api_requests; assumption).
  cbv [mbind M_bind bind log_error modify raise].
  rewrite retried_eq. reflexivity.
Qed.

(** The form is built from whatever [get_gender_mapping] gives. *)
Lemma upload_form_follows_mapping (fuel : nat) (a : MonicaContactUploadForm.args)
    (s : self) :
  match get_gender_mapping remote fuel s with
  | Returns mapping s' =>
      gender_mapping s' = mapping
      /\ MonicaContactUploadForm.__init__ remote fuel a s
         = match mapping !! MonicaContactUploadForm.gender_type a with
           | Some gender_id => Returns (MonicaContactUploadForm.data a gender_id) s'
           | None => Raises (Py.KeyError (MonicaContactUploadForm.gender_type a)) s'
           end
  | Raises e s' => MonicaContactUploadForm.__init__ remote fuel a s = Raises e s'
  | OutOfFuel s' => MonicaContactUploadForm.__init__ remote fuel a s = OutOfFuel s'
  end.
Proof.
  unfold MonicaContactUploadForm.__init__. rewrite bind_eq.
  destruct (get_gender_mapping remote fuel s) as [mapping s'|e s'|s'] eqn:H;
    try reflexivity.
  split; [exact (get_gender_mapping_returns remote fuel s s' mapping H)|].
  destruct (mapping !! _); reflexivity.
Qed.

End GendersRefused.

(** C7 (as the code has it). Building the upload form succeeds exactly
    when the gender mapping, cached or fetched, has an id for the gender
    type of the contact; the form then carries that id.  When the
    mapping has no such key (no gender of the remote has the type, be it
    the default ['O']) the constructor raises [KeyError].  And whatever
    [get_gender_mapping] raises, the constructor raises: when the remote
    refuses to list the genders, the [MonicaFetchError] of the fetch,
    after its log line at level ERROR. *)
Theorem upload_form_needs_known_gender (remote : nat -> Http.response)
    (n fuel : nat) (a : MonicaContactUploadForm.args) (s : Monica.self)
    (l : list (string * Py.id)) :
  (Monica.gender_mapping s <> ∅ ->
   MonicaContactUploadForm.__init__ remote fuel a s
   = match Monica.gender_mapping s !! MonicaContactUploadForm.gender_type a with
     | Some gender_id => Monica.Returns (MonicaContactUploadForm.data a gender_id) s
     | None => Monica.Raises (Py.KeyError (MonicaContactUploadForm.gender_type a)) s
     end)
  /\ (Monica.gender_mapping s = ∅ ->
      (forall i, (i < n)%nat ->
         exists sec, Loop.throttle (remote (Monica.api_requests s + i)%nat) sec) ->
      Http.status_code (remote (Monica.api_requests s + n)%nat) = 200 ->
      Http.data (Http.json (remote (Monica.api_requests s + n)%nat))
        = Some (Http.Types l) ->
      let s' := Monica.with_gender_mapping (Monica.dict_of_types l)
                  (Loop.sent Http.GET "/genders"
                     (retried remote Http.GET "/genders" n s)) in
      MonicaContactUploadForm.__init__ remote (n + S fuel) a s
      = match Monica.dict_of_types l !! MonicaContactUploadForm.gender_type a with
        | Some gender_id => Monica.Returns (MonicaContactUploadForm.data a gender_id) s'
        | None => Monica.Raises (Py.KeyError (MonicaContactUploadForm.gender_type a)) s'
        end)
  /\ (Monica.dict_of_types l !! MonicaContactUploadForm.gender_type a = None
      <-> MonicaContactUploadForm.gender_type a ∉ l.*1)
  /\ (forall msg,
        Monica.gender_mapping s = ∅ ->
        (forall i, (i < n)%nat ->
           exists sec, Loop.throttle (remote (Monica.api_requests s + i)%nat) sec) ->
        Http.status_code (remote (Monica.api_requests s + n)%nat) <> 200 ->
        Http.error_message (Http.json (remote (Monica.api_requests s + n)%nat))
          = Some msg ->
        Py.contains Monica.slow_down_message msg = false ->
        MonicaContactUploadForm.__init__ remote (n + S fuel) a s
        = Monica.Raises (Py.MonicaFetchError "Error fetching genders from Monica!")
            (Monica.with_log
               (Monica.log s
                ++ [(ERROR, "Failed to fetch genders from Monica: " ++ msg)])
               (Loop.sent Http.GET "/genders"
                  (retried remote Http.GET "/genders" n s))))
  /\ match Monica.get_gender_mapping remote fuel s with
     | Monica.Returns mapping s' =>
         Monica.gender_mapping s' = mapping
         /\ MonicaContactUploadForm.__init__ remote fuel a s
            = match mapping !! MonicaContactUploadForm.gender_type a with
              | Some gender_id =>
                  Monica.Returns (MonicaContactUploadForm.data a gender_id) s'
              | None =>
                  Monica.Raises (Py.KeyError (MonicaContactUploadForm.gender_type a)) s'
              end
     | Monica.Raises e s' =>
         MonicaContactUploadForm.__init__ remote fuel a s = Monica.Raises e s'
     | Monica.OutOfFuel s' =>
         MonicaContactUploadForm.__init__ remote fuel a s = Monica.OutOfFuel s'
     end.
Proof.
  split; [|split; [|split; [|split]]].
  - intros H. unfold MonicaContactUploadForm.__init__. rewrite Loop.bind_eq.
    rewrite get_gender_mapping_cached by exact H.
    destruct (_ !! _); reflexivity.
  - intros He Hn Hst Hdata s'. unfold MonicaContactUploadForm.__init__.
    rewrite Loop.bind_eq.
    rewrite (get_gender_mapping_fetched remote n fuel s l He Hn Hst Hdata).
    destruct (_ !! _); reflexivity.
  - apply dict_of_types_None.
  - intros msg He Hn Hst Hmsg Hslow. unfold MonicaContactUploadForm.__init__.
    rewrite Loop.bind_eq.
    rewrite (get_gender_mapping_refused remote n fuel s msg He Hn Hst Hmsg Hslow).
    reflexivity.
  - apply upload_form_follows_mapping.
Qed.

(** C7 as the code has it, at work: the same genders, a contact of
    gender type [F]. *)
Lemma upload_form_witness :
  let remote :=
    Script.after_one_retry (Script.ok (Http.Types [("M", Py.Int 1); ("F", Py.Int 2)])) in
  let a := Script.ada_args in
  let s' := Monica.with_gender_mapping
              (Monica.dict_of_types [("M", Py.Int 1); ("F", Py.Int 2)])
              (Loop.sent Http.GET "/genders"
                 (retried remote Http.GET "/genders" 1 Script.fresh)) in
  MonicaContactUploadForm.__init__ remote 2 a Script.fresh
  = match Monica.dict_of_types [("M", Py.Int 1); ("F", Py.Int 2)]
          !! MonicaContactUploadForm.gender_type a with
    | Some gender_id => Monica.Returns (MonicaContactUploadForm.data a gender_id) s'
    | None => Monica.Raises (Py.KeyError (MonicaContactUploadForm.gender_type a)) s'
    end.
Proof.
  intros remote a s'.
  apply (proj1 (proj2 (upload_form_needs_known_gender remote 1 0 a Script.fresh
                         [("M", Py.Int 1); ("F", Py.Int 2)]))).
  - reflexivity.
  - intros i Hi. apply Script.after_one_retry_throttled; [reflexivity|exact Hi].
  - reflexivity.
  - reflexivity.
Defined.

(** The remote refuses to list the genders: no form, and the fetch
    error reaches the caller. *)
Example upload_form_fetch_refused :
  MonicaContactUploadForm.__init__ (Script.always Script.not_found) 1
    Script.ada_args Script.fresh
  = Monica.Raises (Py.MonicaFetchError "Error fetching genders from Monica!")
      (Monica.with_log
         [(ERROR, "Failed to fetch genders from Monica: The contact has not been found")]
         (Loop.sent Http.GET "/genders" Script.fresh)).
Proof. vm_compute. reflexivity. Qed.

(** ** A contact that the label filter excludes: fetched, or cached *)

Section CacheFilling.

Import Monica Loop.
Variable remote : nat -> Http.response.

(** [create_contact] caches the contact of the response, as it is. *)
Lemma create_contact_caches (fuel : nat) (reference_id : string) (s s1 : self)
    (c : contact) :
  create_contact remote fuel reference_id s = Returns c s1 ->
  contacts s1 = (contacts s ++ [c])%list
  /\ exists k, Http.data (Http.json (remote k)) = Some (Http.Contact c).
Proof.
  intros H. unfold create_contact in H.
  apply loop_returns in H as [n [_ [_ Hs]]]; [|handler_tac..].
  revert Hs. run_handler.
  destruct (Http.data _) as [[c1| | | |]|] eqn:Hd; try discriminate.
  intros Hs. injection Hs as <- <-. split.
  - cbn [contacts with_log with_contacts with_created_contacts].
    rewrite retried_eq. reflexivity.
  - eexists. exact Hd.
Qed.

(** So does [update_contact]. *)
Lemma update_contact_caches (fuel : nat) (monica_id : Py.id) (data : Form.data)
    (s s1 : self) :
  update_contact remote fuel monica_id data s = Returns tt s1 ->
  exists c k,
    contacts s1
    = (List.filter (fun c => negb (same_id monica_id c)) (contacts s) ++ [c])%list
    /\ Http.data (Http.json (remote k)) = Some (Http.Contact c).
Proof.
  intros H. unfold update_contact in H. rewrite bind_eq in H.
  unfold modify at 1 in H.
  apply loop_returns in H as [n [_ [_ Hs]]]; [|handler_tac..].
  revert Hs. run_handler.
  destruct (Http.data _) as [[c1| | | |]|] eqn:Hd; try discriminate.
  intros Hs. injection Hs as <-. exists c1. eexists. split; [|exact Hd].
  cbn [contacts with_log with_contacts with_updated_contacts with_database].
  rewrite retried_eq. reflexivity.
Qed.

(** And they do so whenever the remote accepts the request. *)
Lemma create_contact_accepted (n fuel : nat) (reference_id : string) (s : self)
    (c : contact) :
  (forall i, (i < n)%nat -> exists sec, throttle (remote (api_requests s + i)) sec) ->
  Http.status_code (remote (api_requests s + n)) = 201 ->
  Http.data (Http.json (remote (api_requests s + n))) = Some (Http.Contact c) ->
  exists s1,
    create_contact remote (n + S fuel) reference_id s = Returns c s1
    /\ contacts s1 = (contacts s ++ [c])%list.
Proof.
  intros Hn Hst Hdata. unfold create_contact.
  rewrite loop_skip; [|discriminate|exact Hn].
  rewrite while_true_S, attempt_accepted
    by (rewrite retried_api_requests; exact Hst).
  rewrite ?retried_api_requests; simpl api_requests.
  run_handler. rewrite Hdata. eexists. split; [reflexivity|].
  cbn [contacts with_log with_contacts with_created_contacts].
  rewrite retried_eq. reflexivity.
Qed.

Lemma update_contact_accepted_caches (n fuel : nat) (monica_id : Py.id)
    (data : Form.data) (s : self) (c : contact) :
  (forall i, (i < n)%nat -> exists sec, throttle (remote (api_requests s + i)) sec) ->
  Http.status_code (remote (api_requests s + n)) = 200 ->
  Http.data (Http.json (remote (api_requests s + n))) = Some (Http.Contact c) ->
  exists s1,
    update_contact remote (n + S fuel) monica_id data s = Returns tt s1
    /\ contacts s1
       = (List.filter (fun c => negb (same_id monica_id c)) (contacts s) ++ [c])%list.
Proof.
  intros Hn Hst Hdata. unfold update_contact. rewrite bind_eq. unfold modify at 1.
  rewrite loop_skip; [|discriminate|exact Hn].
  rewrite while_true_S, attempt_accepted
    by (rewrite retried_api_requests; exact Hst).
  rewrite ?retried_api_requests; simpl api_requests.
  run_handler. rewrite Hdata. eexists. split; [reflexivity|].
  cbn [contacts with_log with_contacts with_updated_contacts with_database].
  rewrite retried_eq. reflexivity.
Qed.

End CacheFilling.

(** C8 (as the code has it). The remote delivers a contact that the
    label filter excludes.  When no contact of that id is in the cache,
    [get_contact] does not return: it logs one line at level INFO and
    raises [InternalError] with the same text; the contact is not added
    to the cache, and no fetch error is raised.  When a contact of that
    id is in the cache, [get_contact] returns it without a request and
    without asking the label filter.  And the cache is filled without
    the filter: [create_contact] and [update_contact] append whatever
    contact the remote sends back, and they return whenever the remote
    accepts the request, whether the filter admits that contact or
    not. *)
Theorem get_contact_excluded_raises_internal_error
    (remote : nat -> Http.response) (n fuel : nat) (monica_id : Py.id)
    (s : Monica.self) (c : contact) :
  (forall i, (i < n)%nat ->
     exists sec, Loop.throttle (remote (Monica.api_requests s + i)%nat) sec) ->
  Http.status_code (remote (Monica.api_requests s + n)%nat) = 200 ->
  Http.data (Http.json (remote (Monica.api_requests s + n)%nat))
    = Some (Http.Contact c) ->
  eligible (Monica.label_filter s) c = false ->
  let path := "/contacts/" ++ Py.str monica_id in
  let msg := "Contact processing of '" ++ Py.str monica_id
             ++ "' not allowed by label filter" in
  (List.filter (Monica.same_id monica_id) (Monica.contacts s) = [] ->
   Monica.get_contact remote (n + S fuel) monica_id s
   = Monica.Raises (Py.InternalError msg)
       (Monica.with_log (Monica.log s ++ [(INFO, msg)])
          (Loop.sent Http.GET path (retried remote Http.GET path n s))))
  /\ (forall c0 rest,
        List.filter (Monica.same_id monica_id) (Monica.contacts s) = c0 :: rest ->
        Monica.get_contact remote (n + S fuel) monica_id s = Monica.Returns c0 s)
  /\ (forall fuel' reference_id c1 s1,
        Monica.create_contact remote fuel' reference_id s = Monica.Returns c1 s1 ->
        Monica.contacts s1 = (Monica.contacts s ++ [c1])%list
        /\ exists k, Http.data (Http.json (remote k)) = Some (Http.Contact c1))
  /\ (forall fuel' i data s1,
        Monica.update_contact remote fuel' i data s = Monica.Returns tt s1 ->
        exists c1 k,
          Monica.contacts s1
          = (List.filter (fun c => negb (Monica.same_id i c)) (Monica.contacts s)
             ++ [c1])%list
          /\ Http.data (Http.json (remote k)) = Some (Http.Contact c1))
  /\ (forall remote' k fuel' s0 reference_id c1,
        (forall i, (i < k)%nat ->
           exists sec, Loop.throttle (remote' (Monica.api_requests s0 + i)%nat) sec) ->
        Http.status_code (remote' (Monica.api_requests s0 + k)%nat) = 201 ->
        Http.data (Http.json (remote' (Monica.api_requests s0 + k)%nat))
          = Some (Http.Contact c1) ->
        exists s1,
          Monica.create_contact remote' (k + S fuel') reference_id s0
          = Monica.Returns c1 s1
          /\ Monica.contacts s1 = (Monica.contacts s0 ++ [c1])%list)
  /\ (forall remote' k fuel' s0 i data c1,
        (forall j, (j < k)%nat ->
           exists sec, Loop.throttle (remote' (Monica.api_requests s0 + j)%nat) sec) ->
        Http.status_code (remote' (Monica.api_requests s0 + k)%nat) = 200 ->
        Http.data (Http.json (remote' (Monica.api_requests s0 + k)%nat))
          = Some (Http.Contact c1) ->
        exists s1,
          Monica.update_contact remote' (k + S fuel') i data s0 = Monica.Returns tt s1
          /\ Monica.contacts s1
             = (List.filter (fun c => negb (Monica.same_id i c)) (Monica.contacts s0)
                ++ [c1])%list).
Proof.
  intros Hn Hst Hdata Hel path msg. split; [|split; [|split; [|split; [|split]]]].
  - intros Hcache.
    unfold Monica.get_contact, Monica.try_except. rewrite Loop.bind_eq.
    unfold Monica.gets at 1.
    rewrite Hcache.
    replace (if Monica.truthy (Monica.contacts s) then _ else _)
      with (Monica.while_true (n + S fuel)
              (Monica.attempt remote Http.GET path 200
                 (fun response =>
                    monica_contact ← Monica.json_contact response;
                    lf ← Monica.gets Monica.label_filter;
                    monica_contact ←
                      Monica.first (Monica.__filter_contacts_by_label lf [monica_contact]);
                    Monica.contacts_append monica_contact;;
                    Monica.ret (Monica.Leave monica_contact))
                 (fun error => Monica.raise (Py.MonicaFetchError error))) tt)
      by (destruct (Monica.truthy _); reflexivity).
    rewrite loop_skip; [|discriminate|exact Hn].
    rewrite Loop.while_true_S, Loop.attempt_accepted
      by (rewrite retried_api_requests; exact Hst).
    rewrite retried_api_requests.
    cbv [mbind Monica.M_bind Monica.bind Monica.json_contact Monica.gets Monica.ret].
    rewrite Hdata. cbv beta iota.
    rewrite filter_is_eligible.
    replace (Monica.label_filter (Loop.sent Http.GET path (retried remote Http.GET path n s)))
      with (Monica.label_filter s) by (rewrite retried_eq; reflexivity).
    simpl List.filter. rewrite Hel. rewrite retried_eq. reflexivity.
  - intros c0 rest Hcache. apply (get_contact_cached remote _ _ _ c0 rest Hcache).
  - intros fuel' reference_id c1 s1. apply create_contact_caches.
  - intros fuel' i data s1. apply update_contact_caches.
  - intros remote' k fuel' s0 reference_id c1. apply create_contact_accepted.
  - intros remote' k fuel' s0 i data c1. apply update_contact_accepted_caches.
Qed.

(** C8 as the code has it, at work: the session processes [friends]
    only, and the remote delivers Bob, who is labelled [work]. *)
Lemma get_contact_excluded_witness :
  let remote := Script.after_one_retry (Script.ok (Http.Contact Script.bob)) in
  let s := Script.friends_only in
  let path := "/contacts/" ++ Py.str (Py.Int 8) in
  let msg := "Contact processing of '" ++ Py.str (Py.Int 8)
             ++ "' not allowed by label filter" in
  (List.filter (Monica.same_id (Py.Int 8)) (Monica.contacts s) = [] ->
   Monica.get_contact remote 2 (Py.Int 8) s
   = Monica.Raises (Py.InternalError msg)
       (Monica.with_log (Monica.log s ++ [(INFO, msg)])
          (Loop.sent Http.GET path (retried remote Http.GET path 1 s))))
  /\ (forall c0 rest,
        List.filter (Monica.same_id (Py.Int 8)) (Monica.contacts s) = c0 :: rest ->
        Monica.get_contact remote 2 (Py.Int 8) s = Monica.Returns c0 s)
  /\ (forall fuel' reference_id c1 s1,
        Monica.create_contact remote fuel' reference_id s = Monica.Returns c1 s1 ->
        Monica.contacts s1 = (Monica.contacts s ++ [c1])%list
        /\ exists k, Http.data (Http.json (remote k)) = Some (Http.Contact c1))
  /\ (forall fuel' i data s1,
        Monica.update_contact remote fuel' i data s = Monica.Returns tt s1 ->
        exists c1 k,
          Monica.contacts s1
          = (List.filter (fun c => negb (Monica.same_id i c)) (Monica.contacts s)
             ++ [c1])%list
          /\ Http.data (Http.json (remote k)) = Some (Http.Contact c1))
  /\ (forall remote' k fuel' s0 reference_id c1,
        (forall i, (i < k)%nat ->
           exists sec, Loop.throttle (remote' (Monica.api_requests s0 + i)%nat) sec) ->
        Http.status_code (remote' (Monica.api_requests s0 + k)%nat) = 201 ->
        Http.data (Http.json (remote' (Monica.api_requests s0 + k)%nat))
          = Some (Http.Contact c1) ->
        exists s1,
          Monica.create_contact remote' (k + S fuel') reference_id s0
          = Monica.Returns c1 s1
          /\ Monica.contacts s1 = (Monica.contacts s0 ++ [c1])%list)
  /\ (forall remote' k fuel' s0 i data c1,
        (forall j, (j < k)%nat ->
           exists sec, Loop.throttle (remote' (Monica.api_requests s0 + j)%nat) sec) ->
        Http.status_code (remote' (Monica.api_requests s0 + k)%nat) = 200 ->
        Http.data (Http.json (remote' (Monica.api_requests s0 + k)%nat))
          = Some (Http.Contact c1) ->
        exists s1,
          Monica.update_contact remote' (k + S fuel') i data s0 = Monica.Returns tt s1
          /\ Monica.contacts s1
             = (List.filter (fun c => negb (Monica.same_id i c)) (Monica.contacts s0)
                ++ [c1])%list).
Proof.
  intros remote s.
  apply (get_contact_excluded_raises_internal_error remote 1 0 (Py.Int 8) s Script.bob).
  - intros i Hi. apply Script.after_one_retry_throttled; [reflexivity|exact Hi].
  - reflexivity.
  - reflexivity.
  - reflexivity.
Defined.

(** The fetch of the excluded Bob: one INFO line, and an empty cache. *)
Example get_contact_excluded_is_logged :
  let s' := Loop.final
              (Monica.get_contact (Script.always (Script.ok (Http.Contact Script.bob))) 1
                 (Py.Int 8) Script.friends_only) in
  Monica.log s'
  = [(INFO, "Contact processing of '8' not allowed by label filter")]
  /\ Monica.contacts s' = [].
Proof. split; vm_compute; reflexivity. Qed.

(** A contact as the remote sends it back right after its creation: no
    label yet. *)
Definition eve : contact :=
  {| id := Py.Int 9; complete_name := "Eve Hart";
     updated_at := "2021-05-05T12:00:00Z"; tags := [] |}.

(** C8 fails as the specification states it.  The session processes
    [friends] only.  Eve is created in it; the contact that the remote
    holds for id 9 has no label and fails the filter.  [get_contact]
    does not treat her as absent: whatever the remote would say, it
    returns her, without a request and without a line in the log. *)
Lemma get_contact_returns_cached_excluded :
  let s1 := Loop.final
              (Monica.create_contact (Script.always (Script.created (Http.Contact eve))) 1
                 "people/c9" Script.friends_only) in
  eligible (Monica.label_filter s1) eve = false
  /\ Monica.__filter_contacts_by_label (Monica.label_filter s1) [eve] = []
  /\ forall remote fuel,
       Monica.get_contact remote fuel (Py.Int 9) s1 = Monica.Returns eve s1.
Proof.
  intros s1. split; [reflexivity|]. split; [reflexivity|].
  intros remote fuel.
  apply (get_contact_cached remote fuel (Py.Int 9) s1 eve []). reflexivity.
Qed.

(** * The further properties at work *)

Module Scene.

(** One page of the listing of contacts, of [last] pages in all. *)
Definition page (cs : list contact) (last : Z) : Http.response :=
  {| Http.status_code := 200;
     Http.json := {| Http.data := Some (Http.Contacts cs);
                     Http.last_page := Some last;
                     Http.error_message := None |};
     Http.retry_after := None |}.

(** A listing of two pages: Ada, then Bob. *)
Definition two_pages : nat -> Http.response :=
  fun n => match n with O => page [Script.ada] 2 | _ => page [Script.bob] 2 end.

Definition contacts_of_page (i : nat) : list contact :=
  match i with O => [Script.ada] | _ => [Script.bob] end.

(** 201 Created with an empty body. *)
Definition created_nothing : Http.response :=
  {| Http.status_code := 201; Http.json := Script.body_of None None;
     Http.retry_after := None |}.

(** The genders of the remote. *)
Definition genders : Http.response :=
  Script.ok (Http.Types [("F", Py.Int 3); ("M", Py.Int 4)]).

End Scene.

(** X1 at work: the remote throttles a deletion with a negative
    Retry-After. *)
Lemma mutation_bad_retry_header_witness :
  let remote := Script.always (Script.too_many (-1)) in
  exists s' m path,
    run remote 1 (Delete_contact (Py.Int 7) "Ada Lovelace") Script.with_ada
    = Monica.Raises (Py.ValueError "sleep length must be non-negative") s'
    /\ Monica.api_requests s' = S (Monica.api_requests Script.with_ada)
    /\ Monica.wire s' = (Monica.wire Script.with_ada ++ [Http.Sent m path])%list
    /\ Monica.log s' = Monica.log Script.with_ada
    /\ Monica.database s' = Monica.database Script.with_ada.
Proof.
  intros remote.
  apply (mutation_bad_retry_header remote 0
           (Delete_contact (Py.Int 7) "Ada Lovelace") Script.with_ada).
  - reflexivity.
  - discriminate.
  - reflexivity.
  - reflexivity.
Defined.

(** X5 at work: a listing of one page. *)
Lemma get_contacts_fetches_once_witness :
  let remote := Script.always (Scene.page [Script.ada; Script.bob] 1) in
  let s' := Loop.final (Monica.get_contacts remote 1 Script.fresh) in
  Monica.is_data_already_fetched s' = true
  /\ [Script.ada; Script.bob] = Monica.contacts s'
  /\ forall remote' fuel',
       Monica.get_contacts remote' fuel' s'
       = Monica.Returns [Script.ada; Script.bob] s'.
Proof.
  intros remote s'.
  apply (get_contacts_fetches_once remote 1 Script.fresh s' [Script.ada; Script.bob]).
  vm_compute. reflexivity.
Defined.

(** X6 at work: the remote refuses the listing. *)
Lemma get_contacts_failure_witness :
  let remote := Script.always Script.not_found in
  let s' := Loop.final (Monica.get_contacts remote 1 Script.with_ada) in
  (exists inner,
     let msg := "Failed to fetch Monica contacts (maybe connection issue): "
                ++ Py.str_exn inner in
     Py.MonicaFetchError
       "Failed to fetch Monica contacts (maybe connection issue): Error fetching Monica contacts: The contact has not been found"
     = Py.MonicaFetchError msg
     /\ last (Monica.log s') = Some (ERROR, msg))
  /\ Monica.contacts s' = Monica.contacts Script.with_ada
  /\ Monica.is_data_already_fetched s'
     = Monica.is_data_already_fetched Script.with_ada.
Proof.
  intros remote s'.
  apply (get_contacts_failure remote 1 Script.with_ada s').
  vm_compute. reflexivity.
Defined.

(** X7 at work: a listing of two pages. *)
Lemma get_contacts_pages_witness :
  exists s',
    Monica.get_contacts Scene.two_pages 2 Script.fresh
    = Monica.Returns [Script.ada; Script.bob] s'
    /\ Monica.contacts s' = [Script.ada; Script.bob]
    /\ Monica.api_requests s' = 2%nat
    /\ Monica.is_data_already_fetched s' = true.
Proof.
  apply (get_contacts_pages Scene.two_pages 2 0 Scene.contacts_of_page Script.fresh).
  - reflexivity.
  - lia.
  - intros [|[|i]] Hi; [repeat split; reflexivity..|lia].
Defined.

(** X8 at work: every page says that there are no pages. *)
Lemma get_contacts_never_last_witness :
  exists s',
    Monica.get_contacts (Script.always (Scene.page [Script.ada] 0)) 3 Script.fresh
    = Monica.OutOfFuel s'
    /\ Monica.api_requests s' = 3%nat
    /\ Monica.is_data_already_fetched s' = false.
Proof.
  apply (get_contacts_never_last (Script.always (Scene.page [Script.ada] 0)) 3
           Script.fresh).
  - reflexivity.
  - intros i. exists [Script.ada], 0. split; [repeat split; reflexivity|lia].
Defined.

(** X9 at work: the remote does not know the contact. *)
Lemma get_contact_failure_witness :
  let remote := Script.always Script.not_found in
  let e := Py.MonicaFetchError
             "Failed to fetch Monica contact '9': The contact has not been found" in
  let s' := Loop.final (Monica.get_contact remote 1 (Py.Int 9) Script.with_ada) in
  Monica.contacts s' = Monica.contacts Script.with_ada
  /\ ((let msg := "Contact processing of '" ++ Py.str (Py.Int 9)
                  ++ "' not allowed by label filter" in
       e = Py.InternalError msg
       /\ last (Monica.log s') = Some (INFO, msg)
       /\ exists k c,
            (Monica.api_requests Script.with_ada <= k)%nat
            /\ Http.status_code (remote k) = 200
            /\ Http.data (Http.json (remote k)) = Some (Http.Contact c)
            /\ eligible (Monica.label_filter Script.with_ada) c = false)
      \/ (exists inner,
            let msg := "Failed to fetch Monica contact '" ++ Py.str (Py.Int 9)
                       ++ "': " ++ Py.str_exn inner in
            e = Py.MonicaFetchError msg
            /\ last (Monica.log s') = Some (ERROR, msg))).
Proof.
  intros remote e s'.
  apply (get_contact_failure remote 1 (Py.Int 9) Script.with_ada s' e).
  vm_compute. reflexivity.
Defined.

(** X10 at work: Ada is fetched into an empty cache. *)
Lemma get_contact_returns_witness :
  let remote := Script.always (Script.ok (Http.Contact Script.ada)) in
  let s' := Loop.final (Monica.get_contact remote 1 (Py.Int 7) Script.fresh) in
  ((exists rest,
      List.filter (Monica.same_id (Py.Int 7)) (Monica.contacts Script.fresh)
      = Script.ada :: rest)
   /\ s' = Script.fresh
   \/ List.filter (Monica.same_id (Py.Int 7)) (Monica.contacts Script.fresh) = []
      /\ Monica.contacts s' = (Monica.contacts Script.fresh ++ [Script.ada])%list
      /\ eligible (Monica.label_filter Script.fresh) Script.ada = true
      /\ (Monica.api_requests Script.fresh < Monica.api_requests s')%nat)
  /\ (Monica.same_id (Py.Int 7) Script.ada = true ->
      forall remote' fuel',
        Monica.get_contact remote' fuel' (Py.Int 7) s'
        = Monica.Returns Script.ada s').
Proof.
  intros remote s'.
  apply (get_contact_returns remote 1 (Py.Int 7) Script.fresh s' Script.ada).
  vm_compute. reflexivity.
Defined.

(** X20 at work: the career of the cached Ada is updated. *)
Lemma update_career_keeps_cache_witness :
  let remote := Script.always (Script.ok (Http.Contact Script.ada)) in
  let s' := Loop.final (Monica.update_career remote 1 (Py.Int 7) Script.with_ada) in
  Monica.contacts s' = Monica.contacts Script.with_ada
  /\ Monica.updated_contacts s'
     = <[Py.Int 7 := true]> (Monica.updated_contacts Script.with_ada)
  /\ exists c,
       Monica.database s'
       = (Monica.database Script.with_ada
          ++ [{| monica_id := Py.Int 7;
                 monica_last_changed := updated_at c;
                 monica_full_name := None |}])%list.
Proof.
  intros remote s'.
  apply (update_career_keeps_cache remote 1 (Py.Int 7) Script.with_ada s'
           Script.ada []).
  - reflexivity.
  - vm_compute. reflexivity.
Defined.

(** X21 at work: a note is accepted with an empty body. *)
Lemma item_mutation_counts_before_reading_witness :
  exists s',
    run (Script.always Scene.created_nothing) 1 (Add_note (Py.Int 7) "Ada Lovelace")
      Script.fresh
    = Monica.Raises (Py.KeyError "data") s'
    /\ Monica.updated_contacts s'
       = <[Py.Int 7 := true]> (Monica.updated_contacts Script.fresh)
    /\ Monica.log s' = Monica.log Script.fresh.
Proof.
  apply (item_mutation_counts_before_reading (Script.always Scene.created_nothing) 0
           (Add_note (Py.Int 7) "Ada Lovelace") (Py.Int 7) Script.fresh).
  - reflexivity.
  - reflexivity.
  - reflexivity.
Defined.

(** X12 at work: the cached Ada is updated. *)
Lemma update_contact_refreshes_cache_witness :
  let remote := Script.always (Script.ok (Http.Contact Script.ada)) in
  let s' := Loop.final
              (Monica.update_contact remote 1 (Py.Int 7) Script.form Script.with_ada) in
  exists c,
    Monica.contacts s'
    = (List.filter (fun c => negb (Monica.same_id (Py.Int 7) c))
         (Monica.contacts Script.with_ada) ++ [c])%list
    /\ Monica.updated_contacts s'
       = <[Py.Int 7 := true]> (Monica.updated_contacts Script.with_ada)
    /\ Monica.database s'
       = (Monica.database Script.with_ada
          ++ [{| monica_id := Py.Int 7;
                 monica_last_changed := updated_at c;
                 monica_full_name := Some (complete_name c) |}])%list
    /\ (Monica.same_id (Py.Int 7) c = true ->
        forall remote' fuel',
          Monica.get_contact remote' fuel' (Py.Int 7) s' = Monica.Returns c s').
Proof.
  intros remote s'.
  apply (update_contact_refreshes_cache remote 1 (Py.Int 7) Script.form
           Script.with_ada s').
  vm_compute. reflexivity.
Defined.

(** X14 at work: Ada is created, then updated and given a note. *)
Lemma created_contact_never_counts_as_updated_witness :
  let remote := fun n => match n with
                         | O => Script.created (Http.Contact Script.ada)
                         | _ => Script.ok (Http.Contact Script.ada)
                         end in
  let s1 := Loop.final (Monica.create_contact remote 1 "people/c1" Script.fresh) in
  let ops := [Update_contact (Py.Int 7) Script.form;
              Add_note (Py.Int 7) "Ada Lovelace"] in
  let s3 := Loop.final (Monica.update_statistics (session remote 1 ops s1)) in
  Monica.created_contacts s3 !! id Script.ada = Some true
  /\ Monica.updated_contacts s3 !! id Script.ada = None.
Proof.
  intros remote s1 ops.
  apply (created_contact_never_counts_as_updated remote 1 "people/c1" Script.fresh s1
           Script.ada ops).
  vm_compute. reflexivity.
Defined.

(** X16 at work: the remote lists two genders. *)
Lemma gender_mapping_cached_when_not_empty_witness :
  let remote := Script.always Scene.genders in
  let g : gmap string Py.id := <["M" := Py.Int 4]> (<["F" := Py.Int 3]> ∅) in
  let s' := Loop.final (Monica.get_gender_mapping remote 1 Script.fresh) in
  Monica.gender_mapping s' = g
  /\ (g <> ∅ ->
      forall remote' fuel',
        Monica.get_gender_mapping remote' fuel' s' = Monica.Returns g s')
  /\ (g = ∅ ->
      forall remote' fuel',
        (Monica.api_requests s'
         < Monica.api_requests
             (Loop.final (Monica.get_gender_mapping remote' (S fuel') s')))%nat).
Proof.
  intros remote g s'.
  apply (gender_mapping_cached_when_not_empty remote 1 Script.fresh s' g).
  vm_compute. reflexivity.
Defined.

(** * The script: GMSync.py *)

(** [main] and [update_environment] are read as functions of the parsed
    arguments and of what the calls outside the file answer in one run:
    the file system, dotenv, the old [conf] module, and the constructors
    and methods of [Config], [Database], [Google], [Monica] and [Sync],
    none of which is in this file.  Each of them either returns or
    raises; what the collaborators do on their own, the lines that
    [Sync] logs and prints among them, is not part of the trace. *)

Module GMSync.

Definition VERSION : string := "v4.0.0".
Definition LOG_FOLDER : string := "logs".
Definition LOG_FILENAME : string := "sync.log".
(** [os.path.join], on a POSIX system. *)
Definition join (a b : string) : string := a ++ "/" ++ b.
Definition DEFAULT_CONFIG_FILEPATH : string := join "helpers" ".env.default".

(** The line feed that Python writes as a backslash and [n]. *)
Definition newline : string :=
  String (Ascii.Ascii false true false true false false false false) "".

(** The namespace that [parser.parse_args()] returns. *)
Record args := {
  initial : bool;
  syncback : bool;
  delta : bool;
  full : bool;
  check : bool;
  env_file : option string;
  update : bool;
}.

(** Something raised: [type(e).__name__], [str(e)], and whether it is an
    [Exception]; [SystemExit] and [KeyboardInterrupt] are not. *)
Record raised := {
  type_name : string;
  text : string;
  is_exception : bool;
}.

Definition ConfigError (msg : string) : raised :=
  {| type_name := "ConfigError"; text := msg; is_exception := true |}.
Definition SystemExit (code : Z) : raised :=
  {| type_name := "SystemExit"; text := Py.str (Py.Int code);
     is_exception := false |}.

Inductive result (A : Type) :=
| Done (a : A)
| Raise (e : raised).
Arguments Done {A} a.
Arguments Raise {A} e.

(** What [dotenv_values] returns, and [dict(os.environ)]. *)
Definition dict := gmap string (option string).

(** The names that [from conf import ..] binds, of the 3.x scheme:
    [FIELDS] as its [items()], the two label dicts with their keys
    ["include"] and ["exclude"]. *)
Record conf := {
  TOKEN : string;
  BASE_URL : string;
  CREATE_REMINDERS : bool;
  DELETE_ON_SYNC : bool;
  STREET_REVERSAL : bool;
  FIELDS : list (string * bool);
  GOOGLE_LABELS : LabelFilter;
  MONICA_LABELS : LabelFilter;
}.

(** What the calls outside the file answer in this run, in the
    environment of this run; the answer of a constructor stands for the
    call with its arguments.  [main] asks each of them once at most,
    [dotenv_values] once for each config file.  The answers belong
    together: what [dotenv_values] reads from a file depends on
    [os.environ] too (it expands variables from it), so a world with
    another [environ] has other answers. *)
Record world := {
  log_folder_exists : bool;                 (* os.path.exists(LOG_FOLDER) *)
  on_makedirs : result unit;                (* os.makedirs(LOG_FOLDER) *)
  on_file_handler : result unit;            (* logging.FileHandler(..) *)
  data_folder_exists : bool;                (* os.path.exists("data") *)
  on_makedirs_data : result unit;           (* os.makedirs("data") *)
  on_open : result unit;                    (* open(ENV_FILE, 'w').close() *)
  on_import_conf : result conf;             (* from conf import (..) *)
  on_set_key : string -> result unit;       (* set_key(ENV_FILE, key, ..) *)
  on_rename : string -> result unit;        (* os.rename(filename, ..) *)
  on_find_default : result string;          (* find_dotenv(DEFAULT_.., True) *)
  on_dotenv_values : string -> result dict; (* dotenv_values(path) *)
  env_file_exists : bool;                   (* os.path.exists(args.env_file) *)
  abspath : string -> string;               (* os.path.abspath *)
  on_find_dotenv : result string;           (* find_dotenv() *)
  environ : dict;                           (* dict(os.environ) *)
  on_Config : dict -> result unit;          (* Config(log, raw_config) *)
  on_Database : result unit;                (* Database(log, abspath(..)) *)
  on_Google : result unit;                  (* Google(log, database, ..) *)
  on_Monica : result unit;                  (* Monica(log, database, ..) *)
  on_Sync : result unit;                    (* Sync(log, database, ..) *)
  on_start_sync : string -> result unit;    (* sync.start_sync(mode) *)
  on_check_database : result unit;          (* sync.check_database() *)
}.

(** What the script does that can be seen from outside, in order. *)
Inductive event :=
| Log (l : level) (msg : string)
| Print (msg : string)
| Makedirs (path : string)
| Open_w (path : string)
| Set_key (path key value : string)
| Rename (src dst : string)
| New_Config (raw_config : dict)
| New_Database
| New_Google
| New_Monica
| New_Sync (syncback check : bool)
| Start_sync (mode : string)
| Check_database
| Print_help.

(** Python's truth value of a string that may be [None]. *)
Definition truthy (o : option string) : bool :=
  match o with
  | Some s => negb (String.eqb s "")
  | None => false
  end.

(** Statements: the events they add to the trace, and the exception
    that ends them, if any. *)
Definition M (A : Type) : Type := result A * list event.

Definition ret {A} (a : A) : M A := (Done a, []).
Definition bind {A B} (m : M A) (k : A -> M B) : M B :=
  match m with
  | (Done a, t) => let (r, t') := k a in (r, (t ++ t')%list)
  | (Raise e, t) => (Raise e, t)
  end.
Definition raise {A} (e : raised) : M A := (Raise e, []).
Definition emit (ev : event) : M unit := (Done tt, [ev]).
(** A call outside the file: the event of the call, with its answer. *)
Definition call {A} (ev : event) (answer : result A) : M A := (answer, [ev]).
(** A question to the outside that leaves no trace. *)
Definition ask {A} (answer : result A) : M A := (answer, []).

#[global] Instance M_ret : MRet M := @ret.
#[global] Instance M_bind : MBind M := fun A B k m => bind m k.

Definition info (msg : string) : M unit := emit (Log INFO msg).
Definition warning (msg : string) : M unit := emit (Log WARNING msg).
Definition print (msg : string) : M unit := emit (Print msg).

(** [for x in xs: body] *)
Fixpoint for_each {A} (xs : list A) (body : A -> M unit) : M unit :=
  match xs with
  | [] => ret tt
  | x :: rest => body x;; for_each rest body
  end.

(** ** [update_environment] *)

Definition ENV_FILE : string := ".env".

Definition set_key (w : world) (key value : string) : M unit :=
  call (Set_key ENV_FILE key value) (on_set_key w key).

(** Lines 189-198: one turn of the loop over the files.  The handler
    takes an exception whose class is [FileNotFoundError]. *)
Definition move (w : world) (filename : string) : M unit :=
  match on_rename w filename with
  | Done _ =>
      emit (Rename filename ("data/" ++ filename));;
      let msg := "'" ++ filename ++ "' moved to 'data/" ++ filename ++ "'" in
      info msg;;
      print msg
  | Raise e =>
      emit (Rename filename ("data/" ++ filename));;
      if String.eqb (type_name e) "FileNotFoundError" then
        let msg := "Could not move " ++ filename ++ ", file not found!" in
        print msg;;
        warning msg
      else raise e
  end.

Definition update_environment (w : world) : M unit :=
  info "Start updating environment";;
  (if negb (data_folder_exists w) then
     call (Makedirs "data") (on_makedirs_data w);;
     let msg := "'data' folder created" in
     info msg;;
     print msg
   else ret tt);;
  call (Open_w ENV_FILE) (on_open w);;
  c ← ask (on_import_conf w);
  set_key w "TOKEN" (TOKEN c);;
  set_key w "BASE_URL" (BASE_URL c);;
  set_key w "CREATE_REMINDERS" (Py.repr_bool (CREATE_REMINDERS c));;
  set_key w "DELETE_ON_SYNC" (Py.repr_bool (DELETE_ON_SYNC c));;
  set_key w "STREET_REVERSAL" (Py.repr_bool (STREET_REVERSAL c));;
  set_key w "FIELDS"
    (String.concat "," (List.map fst (List.filter snd (FIELDS c))));;
  set_key w "GOOGLE_LABELS_INCLUDE" (String.concat "," (include (GOOGLE_LABELS c)));;
  set_key w "GOOGLE_LABELS_EXCLUDE" (String.concat "," (exclude (GOOGLE_LABELS c)));;
  set_key w "MONICA_LABELS_INCLUDE" (String.concat "," (include (MONICA_LABELS c)));;
  set_key w "MONICA_LABELS_EXCLUDE" (String.concat "," (exclude (MONICA_LABELS c)));;
  (let msg := "'.env' file created, old 'conf.py' can be deleted now" in
   info msg;;
   print msg);;
  for_each ["syncState.db"; "token.pickle"; "credentials.json"] (move w);;
  info "Finished updating environment".

(** ** [main] *)

(** Lines 54-55: before the logger exists. *)
Definition log_folder (w : world) : M unit :=
  if log_folder_exists w then ret tt
  else call (Makedirs LOG_FOLDER) (on_makedirs w).

(** Lines 72-96: the raw config. *)
Definition load_config (w : world) (a : args) : M dict :=
  default_config ← ask (on_find_default w);
  info ("Loading default config from " ++ default_config);;
  default_config_values ← ask (on_dotenv_values w default_config);
  user_config ←
    (if truthy (env_file a) then
       if negb (env_file_exists w) then
         raise (ConfigError
                  "Could not find the custom user config file, check your input!")
       else ret (abspath w (default "" (env_file a)))
     else ask (on_find_dotenv w));
  user_config_values ←
    (if negb (String.eqb user_config "") then
       info ("Loading user config from " ++ user_config);;
       ask (on_dotenv_values w user_config)
     else
       info "Loading user config from os environment";;
       ret (environ w));
  info "Config loading complete";;
  ret (user_config_values ∪ default_config_values).

(** Lines 56-117: the logger, the config and the collaborators. *)
Definition setup (w : world) (a : args) : M unit :=
  ask (on_file_handler w);;
  info ("Script started (" ++ VERSION ++ ")");;
  (if update a then update_environment w else ret tt);;
  raw_config ← load_config w a;
  call (New_Config raw_config) (on_Config w raw_config);;
  info "Config successfully parsed";;
  call New_Database (on_Database w);;
  call New_Google (on_Google w);;
  call New_Monica (on_Monica w);;
  call (New_Sync (syncback a) (check a)) (on_Sync w);;
  print (newline ++ "Your choice (unordered):");;
  (if syncback a then print "- sync back" else ret tt);;
  (if check a then print "- database check" else ret tt).

(** Lines 119-144: the sync that was asked for. *)
Definition start (w : world) (a : args) : M unit :=
  if initial a then
    print ("- initial sync" ++ newline);;
    call (Start_sync "initial") (on_start_sync w "initial")
  else if delta a then
    print ("- delta sync" ++ newline);;
    call (Start_sync "delta") (on_start_sync w "delta")
  else if full a then
    print ("- full sync" ++ newline);;
    call (Start_sync "full") (on_start_sync w "full")
  else if syncback a then
    print "";;
    call (Start_sync "syncBack") (on_start_sync w "syncBack")
  else if check a then
    print "";;
    call Check_database (on_check_database w)
  else if negb (update a) then
    print ("Unknown sync arguments, check your input!" ++ newline);;
    emit Print_help;;
    raise (SystemExit 2)
  else ret tt.

(** Lines 56-147: the body of [try], from the logger on. *)
Definition body (w : world) (a : args) : M unit :=
  setup w a;;
  start w a;;
  info ("Script ended" ++ newline).

(** How [main] ends: it returns, or something leaves it; an exception
    raised before [log] is bound makes the handler fail on [log]. *)
Inductive ending :=
| Ended
| Leaves (e : raised)
| UnboundLocalError (variable : string).

(** Lines 149-154: [except Exception as e]. *)
Definition aborted (e : raised) : list event :=
  [Log ERROR (text e);
   Log INFO "Script aborted";
   Print (newline ++ "Script aborted: " ++ type_name e ++ ": " ++ text e);
   Print ("See log file (" ++ join LOG_FOLDER LOG_FILENAME
          ++ ") for all details")].

Definition main (w : world) (a : args) : list event * ending :=
  match log_folder w with
  | (Raise e, t) =>
      (t, if is_exception e then UnboundLocalError "log" else Leaves e)
  | (Done _, t) =>
      match body w a with
      | (Done _, t') => ((t ++ t')%list, Ended)
      | (Raise e, t') =>
          if is_exception e
          then ((t ++ t' ++ aborted e)%list, Leaves (SystemExit 1))
          else ((t ++ t')%list, Leaves e)
      end
  end.

End GMSync.

(** ** How the script ends, and what it starts *)

(** The calls that run a sync or the database check. *)
Definition is_run (ev : GMSync.event) : bool :=
  match ev with
  | GMSync.Start_sync _ | GMSync.Check_database => true
  | _ => false
  end.

(** The calls that construct a collaborator. *)
Definition is_construction (ev : GMSync.event) : bool :=
  match ev with
  | GMSync.New_Config _ | GMSync.New_Database | GMSync.New_Google
  | GMSync.New_Monica | GMSync.New_Sync _ _ => true
  | _ => false
  end.

(** The writes to the [.env] file. *)
Definition is_set_key (ev : GMSync.event) : bool :=
  match ev with
  | GMSync.Set_key _ _ _ => true
  | _ => false
  end.

(** The lines written to the log, in order. *)
Definition logged (t : list GMSync.event) : list (level * string) :=
  omap (fun ev => match ev with
                  | GMSync.Log l msg => Some (l, msg)
                  | _ => None
                  end) t.

(** What an answer raises is an [Exception]. *)
Definition raises_exception {A} (r : GMSync.result A) : Prop :=
  match r with
  | GMSync.Raise e => GMSync.is_exception e = true
  | GMSync.Done _ => True
  end.

(** A run in which nothing but exceptions is raised outside the file: no
    [KeyboardInterrupt], no [SystemExit] of a collaborator. *)
Definition orderly (w : GMSync.world) : Prop :=
  raises_exception (GMSync.on_makedirs w)
  /\ raises_exception (GMSync.on_file_handler w)
  /\ raises_exception (GMSync.on_makedirs_data w)
  /\ raises_exception (GMSync.on_open w)
  /\ raises_exception (GMSync.on_import_conf w)
  /\ (forall key, raises_exception (GMSync.on_set_key w key))
  /\ (forall filename, raises_exception (GMSync.on_rename w filename))
  /\ raises_exception (GMSync.on_find_default w)
  /\ (forall p, raises_exception (GMSync.on_dotenv_values w p))
  /\ raises_exception (GMSync.on_find_dotenv w)
  /\ (forall d, raises_exception (GMSync.on_Config w d))
  /\ raises_exception (GMSync.on_Database w)
  /\ raises_exception (GMSync.on_Google w)
  /\ raises_exception (GMSync.on_Monica w)
  /\ raises_exception (GMSync.on_Sync w)
  /\ (forall m, raises_exception (GMSync.on_start_sync w m))
  /\ raises_exception (GMSync.on_check_database w).

Ltac monad_unfold :=
  cbv [GMSync.bind GMSync.ret GMSync.raise GMSync.emit GMSync.call GMSync.ask
       GMSync.info GMSync.warning GMSync.print mbind mret GMSync.M_bind
       GMSync.M_ret].

Ltac script_unfold :=
  cbv [GMSync.log_folder GMSync.load_config GMSync.start
       GMSync.update_environment GMSync.set_key GMSync.move GMSync.for_each
       GMSync.bind GMSync.ret GMSync.raise GMSync.emit GMSync.call GMSync.ask
       GMSync.info GMSync.warning GMSync.print mbind mret GMSync.M_bind
       GMSync.M_ret].

Ltac script_simpl :=
  cbv beta iota;
  cbn [GMSync.is_exception GMSync.ConfigError GMSync.SystemExit fst snd app].

(** One more statement of the script: the innermost answer or condition
    that the rest depends on. *)
Ltac script_step :=
  lazymatch goal with
  | |- context [match ?r with GMSync.Done _ => _ | GMSync.Raise _ => _ end] =>
      lazymatch r with
      | context [match _ with _ => _ end] => fail
      | context [if _ then _ else _] => fail
      | _ => destruct r as [?|?] eqn:?
      end
  | |- context [if ?b then _ else _] =>
      lazymatch b with
      | context [if _ then _ else _] => fail
      | context [match _ with _ => _ end] => fail
      | _ => destruct b eqn:?
      end
  end; script_simpl.

Ltac in_trace := simpl; repeat (first [left; reflexivity | right]).

Ltac pick :=
  first [ solve [repeat split; first [reflexivity | assumption]]
        | left; pick
        | right; pick ].

Ltac orderly_tac :=
  match goal with
  | H : raises_exception (GMSync.Raise ?e) |- GMSync.is_exception ?e = true =>
      exact H
  | E : ?r = GMSync.Raise ?e |- GMSync.is_exception ?e = true =>
      let Hr := fresh in
      assert (Hr : raises_exception r) by auto;
      rewrite E in Hr; exact Hr
  end.

Section ScriptParts.

Variables (w : GMSync.world) (a : GMSync.args).

(** [load_config] writes to the log only. *)
Lemma load_config_logs :
  Forall (fun ev => is_construction ev = false /\ is_run ev = false)
    (GMSync.load_config w a).2.
Proof. script_unfold. repeat script_step. all: simpl; repeat constructor. Qed.

Lemma load_config_orderly (e : GMSync.raised) :
  orderly w -> (GMSync.load_config w a).1 = GMSync.Raise e ->
  GMSync.is_exception e = true.
Proof.
  intros (H1 & H2 & H3 & H4 & H5 & H6 & H7 & H8 & H9 & H10 & H11 & H12 & H13
          & H14 & H15 & H16 & H17).
  script_unfold. repeat script_step.
  all: simpl; intros He; try discriminate He; injection He as <-;
    first [reflexivity | orderly_tac].
Qed.

(** [update_environment] constructs nothing and runs nothing. *)
Lemma update_environment_quiet :
  Forall (fun ev => is_construction ev = false /\ is_run ev = false)
    (GMSync.update_environment w).2.
Proof. script_unfold. repeat script_step. all: simpl; repeat constructor. Qed.

Lemma update_environment_orderly (e : GMSync.raised) :
  orderly w -> (GMSync.update_environment w).1 = GMSync.Raise e ->
  GMSync.is_exception e = true.
Proof.
  intros (H1 & H2 & H3 & H4 & H5 & H6 & H7 & H8 & H9 & H10 & H11 & H12 & H13
          & H14 & H15 & H16 & H17).
  script_unfold. repeat script_step.
  all: simpl; intros He; try discriminate He; injection He as <-;
    first [reflexivity | orderly_tac].
Qed.

Lemma quiet_runs_nothing (t : list GMSync.event) :
  Forall (fun ev => is_construction ev = false /\ is_run ev = false) t ->
  List.filter is_run t = [].
Proof.
  intros H. induction H as [|ev l [_ Hev] _ IH]; simpl;
    [reflexivity|rewrite Hev; exact IH].
Qed.

Ltac setup_unfold :=
  unfold GMSync.setup; monad_unfold;
  destruct (GMSync.update_environment w) as [[[]|eu] tu];
  destruct (GMSync.load_config w a) as [[raw|el] tl].

(** Nothing is run before the collaborators exist. *)
Lemma setup_runs_nothing : List.filter is_run (GMSync.setup w a).2 = [].
Proof.
  pose proof (quiet_runs_nothing _ load_config_logs) as Hl.
  pose proof (quiet_runs_nothing _ update_environment_quiet) as Hu.
  setup_unfold; simpl in Hl, Hu.
  all: repeat script_step.
  all: simpl; rewrite ?List.filter_app, ?Hl, ?Hu; simpl;
    rewrite ?List.filter_app, ?Hl, ?Hu; reflexivity.
Qed.

Lemma setup_done (t : list GMSync.event) :
  GMSync.setup w a = (GMSync.Done tt, t) ->
  In (GMSync.New_Sync (GMSync.syncback a) (GMSync.check a)) t.
Proof.
  setup_unfold.
  all: repeat script_step.
  all: intros H; try discriminate H; injection H as <-.
  all: repeat (rewrite ?in_app_iff; simpl); tauto.
Qed.

Lemma setup_orderly (e : GMSync.raised) (t : list GMSync.event) :
  orderly w -> GMSync.setup w a = (GMSync.Raise e, t) ->
  GMSync.is_exception e = true.
Proof.
  intros Ho. pose proof (fun e => load_config_orderly e Ho) as Hl.
  pose proof (fun e => update_environment_orderly e Ho) as Hu.
  destruct Ho as (H1 & H2 & H3 & H4 & H5 & H6 & H7 & H8 & H9 & H10 & H11 & H12 & H13
                  & H14 & H15 & H16 & H17).
  setup_unfold; simpl in Hl, Hu.
  all: repeat script_step.
  all: intros H; try discriminate H; injection H as <- _;
    first [orderly_tac | apply Hl; reflexivity | apply Hu; reflexivity].
Qed.

(** The six ways through [start]. *)
Lemma start_cases :
  let flags := GMSync.initial a || GMSync.delta a || GMSync.full a
               || GMSync.syncback a || GMSync.check a || GMSync.update a in
  (exists ev r, GMSync.start w a = (r, [ev; GMSync.Print_help]%list)
                /\ r = GMSync.Raise (GMSync.SystemExit 2)
                /\ is_run ev = false /\ flags = false)
  \/ (GMSync.start w a = (GMSync.Done tt, []) /\ flags = true)
  \/ (exists p ev r,
        GMSync.start w a = (r, [GMSync.Print p; ev])
        /\ flags = true
        /\ (raises_exception (GMSync.on_check_database w) ->
            (forall m, raises_exception (GMSync.on_start_sync w m)) ->
            raises_exception r)
        /\ (ev = GMSync.Start_sync "initial" /\ GMSync.initial a = true
            \/ ev = GMSync.Start_sync "delta"
               /\ GMSync.initial a = false /\ GMSync.delta a = true
            \/ ev = GMSync.Start_sync "full"
               /\ GMSync.initial a = false /\ GMSync.delta a = false
               /\ GMSync.full a = true
            \/ ev = GMSync.Start_sync "syncBack"
               /\ GMSync.initial a = false /\ GMSync.delta a = false
               /\ GMSync.full a = false /\ GMSync.syncback a = true
            \/ ev = GMSync.Check_database
               /\ GMSync.initial a = false /\ GMSync.delta a = false
               /\ GMSync.full a = false /\ GMSync.syncback a = false
               /\ GMSync.check a = true)).
Proof.
  intros flags. subst flags. script_unfold.
  destruct (GMSync.initial a); [|destruct (GMSync.delta a);
    [|destruct (GMSync.full a); [|destruct (GMSync.syncback a);
      [|destruct (GMSync.check a); [|destruct (GMSync.update a)]]]]];
    script_simpl.
  1-5: right; right; eexists _, _, _; split; [reflexivity|];
    split; [reflexivity|]; split; [intros Hc Hs; first [exact Hc | apply Hs]|pick].
  - right; left. split; reflexivity.
  - left. eexists _, _. repeat split.
Qed.

End ScriptParts.

Section ScriptBody.

Variables (w : GMSync.world) (a : GMSync.args).

(** [body], by the outcome of its two parts. *)
Lemma body_eq :
  GMSync.body w a
  = match GMSync.setup w a with
    | (GMSync.Done _, ts) =>
        match GMSync.start w a with
        | (GMSync.Done _, tr) =>
            (GMSync.Done tt,
             (ts ++ tr ++ [GMSync.Log INFO ("Script ended" ++ GMSync.newline)])%list)
        | (GMSync.Raise e, tr) => (GMSync.Raise e, (ts ++ tr)%list)
        end
    | (GMSync.Raise e, ts) => (GMSync.Raise e, ts)
    end.
Proof.
  unfold GMSync.body.
  cbv [GMSync.bind GMSync.info GMSync.emit mbind GMSync.M_bind].
  destruct (GMSync.setup w a) as [[[]|e] ts]; [|reflexivity].
  destruct (GMSync.start w a) as [[[]|e] tr]; reflexivity.
Qed.

(** Lines 54-55 make the log folder, or do nothing. *)
Lemma log_folder_cases :
  GMSync.log_folder w = (GMSync.Done tt, [])
  \/ GMSync.log_folder_exists w = false
     /\ GMSync.log_folder w
        = (GMSync.on_makedirs w, [GMSync.Makedirs GMSync.LOG_FOLDER]).
Proof.
  unfold GMSync.log_folder. destruct (GMSync.log_folder_exists w).
  - left. reflexivity.
  - right. split; reflexivity.
Qed.

Lemma log_folder_runs_nothing :
  List.filter is_run (GMSync.log_folder w).2 = []
  /\ Forall (fun ev => is_construction ev = false /\ is_run ev = false)
       (GMSync.log_folder w).2.
Proof.
  destruct log_folder_cases as [->|[_ ->]]; simpl; repeat constructor.
Qed.

(** With an [--env-file] that does not exist, [load_config] raises. *)
Lemma load_config_missing_env_file :
  GMSync.truthy (GMSync.env_file a) = true ->
  GMSync.env_file_exists w = false ->
  exists e tl,
    GMSync.load_config w a = (GMSync.Raise e, tl)
    /\ ((exists p d, GMSync.on_find_default w = GMSync.Done p
                     /\ GMSync.on_dotenv_values w p = GMSync.Done d) ->
        e = GMSync.ConfigError
              "Could not find the custom user config file, check your input!").
Proof.
  intros Ht Hx. script_unfold. rewrite Ht, Hx. cbn [negb]. script_simpl.
  repeat script_step.
  all: eexists _, _; split; [reflexivity|].
  all: intros (p & d & Hp & Hd).
  all: try discriminate Hp.
  all: try (injection Hp as <-; rewrite Hd in *; discriminate).
  all: reflexivity.
Qed.

(** The setup, when [update_environment] raises. *)
Lemma setup_update_raises (e : GMSync.raised) (t : list GMSync.event) :
  GMSync.update a = true ->
  GMSync.update_environment w = (GMSync.Raise e, t) ->
  GMSync.setup w a
  = match GMSync.on_file_handler w with
    | GMSync.Done _ =>
        (GMSync.Raise e,
         GMSync.Log INFO ("Script started (" ++ GMSync.VERSION ++ ")") :: t)
    | GMSync.Raise eh => (GMSync.Raise eh, [])
    end.
Proof.
  intros Hup Hu. unfold GMSync.setup. monad_unfold. rewrite Hup, Hu.
  destruct (GMSync.on_file_handler w) as [[]|eh]; reflexivity.
Qed.

(** The setup, when [load_config] raises. *)
Lemma setup_load_raises (e : GMSync.raised) (t : list GMSync.event) :
  GMSync.load_config w a = (GMSync.Raise e, t) ->
  GMSync.setup w a
  = match GMSync.on_file_handler w with
    | GMSync.Done _ =>
        let started :=
          GMSync.Log INFO ("Script started (" ++ GMSync.VERSION ++ ")") in
        if GMSync.update a then
          match GMSync.update_environment w with
          | (GMSync.Done _, tu) => (GMSync.Raise e, started :: (tu ++ t)%list)
          | (GMSync.Raise eu, tu) => (GMSync.Raise eu, started :: tu)
          end
        else (GMSync.Raise e, started :: t)
    | GMSync.Raise eh => (GMSync.Raise eh, [])
    end.
Proof.
  intros Hc. unfold GMSync.setup. monad_unfold. rewrite Hc.
  destruct (GMSync.on_file_handler w) as [[]|eh]; [|reflexivity].
  destruct (GMSync.update a); [|reflexivity].
  destruct (GMSync.update_environment w) as [[[]|eu] tu]; reflexivity.
Qed.

(** When the old [conf] cannot be imported, [update_environment] has
    not written a key. *)
Lemma update_environment_import_raises (e : GMSync.raised) :
  GMSync.on_import_conf w = GMSync.Raise e ->
  exists e' t,
    GMSync.update_environment w = (GMSync.Raise e', t)
    /\ Forall (fun ev => is_construction ev = false /\ is_run ev = false
                         /\ is_set_key ev = false) t
    /\ (GMSync.data_folder_exists w = true
          \/ GMSync.on_makedirs_data w = GMSync.Done tt ->
        GMSync.on_open w = GMSync.Done tt ->
        e' = e /\ exists t0, t = (t0 ++ [GMSync.Open_w GMSync.ENV_FILE])%list).
Proof.
  intros Hi. script_unfold. rewrite Hi. repeat script_step.
  all: eexists _, _; split; [reflexivity|]; split; [simpl; repeat constructor|].
  all: intros Hd Ho; try discriminate Ho.
  all: try (destruct Hd as [Hd|Hd]; [rewrite Hd in *; discriminate|discriminate Hd]).
  all: split; [reflexivity|].
  all: first [ eexists [_]; reflexivity | eexists [_; _; _; _]; reflexivity ].
Qed.

(** With an [--env-file] that does not exist, the setup never gets to
    the config. *)
Lemma setup_missing_env_file :
  GMSync.truthy (GMSync.env_file a) = true ->
  GMSync.env_file_exists w = false ->
  exists es ts,
    GMSync.setup w a = (GMSync.Raise es, ts)
    /\ Forall (fun ev => is_construction ev = false /\ is_run ev = false) ts
    /\ (GMSync.on_file_handler w = GMSync.Done tt ->
        (GMSync.update a = true ->
         (GMSync.update_environment w).1 = GMSync.Done tt) ->
        (exists p d, GMSync.on_find_default w = GMSync.Done p
                     /\ GMSync.on_dotenv_values w p = GMSync.Done d) ->
        es = GMSync.ConfigError
               "Could not find the custom user config file, check your input!").
Proof.
  intros Ht Hx.
  destruct (load_config_missing_env_file Ht Hx) as (el & tl & Hc & Hel).
  pose proof (load_config_logs w a) as Hql. rewrite Hc in Hql. simpl in Hql.
  pose proof (update_environment_quiet w) as Hqu.
  rewrite (setup_load_raises el tl Hc).
  destruct (GMSync.on_file_handler w) as [[]|eh].
  - cbv zeta. destruct (GMSync.update a).
    + destruct (GMSync.update_environment w) as [[[]|eu] tu]; simpl in Hqu.
      * exists el, (GMSync.Log INFO ("Script started (" ++ GMSync.VERSION ++ ")")
                    :: tu ++ tl)%list.
        split; [reflexivity|]. split.
        -- apply List.Forall_cons; [split; reflexivity|].
           apply Forall_app. split; assumption.
        -- intros _ _ Hpd. exact (Hel Hpd).
      * exists eu, (GMSync.Log INFO ("Script started (" ++ GMSync.VERSION ++ ")")
                    :: tu)%list.
        split; [reflexivity|]. split.
        -- apply List.Forall_cons; [split; reflexivity|exact Hqu].
        -- intros _ Hue _. specialize (Hue eq_refl). discriminate Hue.
    + exists el, (GMSync.Log INFO ("Script started (" ++ GMSync.VERSION ++ ")")
                  :: tl)%list.
      split; [reflexivity|]. split.
      * apply List.Forall_cons; [split; reflexivity|exact Hql].
      * intros _ _ Hpd. exact (Hel Hpd).
  - exists eh, []. split; [reflexivity|]. split; [apply List.Forall_nil|].
    intros Hfh. discriminate Hfh.
Qed.

(** With [--update] and no [conf] to import, the setup stops in
    [update_environment]. *)
Lemma setup_import_raises (e : GMSync.raised) :
  GMSync.update a = true ->
  GMSync.on_import_conf w = GMSync.Raise e ->
  exists es ts,
    GMSync.setup w a = (GMSync.Raise es, ts)
    /\ Forall (fun ev => is_construction ev = false /\ is_run ev = false
                         /\ is_set_key ev = false) ts
    /\ (GMSync.on_file_handler w = GMSync.Done tt ->
        GMSync.data_folder_exists w = true
          \/ GMSync.on_makedirs_data w = GMSync.Done tt ->
        GMSync.on_open w = GMSync.Done tt ->
        es = e /\ exists t0, ts = (t0 ++ [GMSync.Open_w GMSync.ENV_FILE])%list).
Proof.
  intros Hup Hi.
  destruct (update_environment_import_raises e Hi) as (eu & tu & Hu & Hqu & Heu).
  rewrite (setup_update_raises eu tu Hup Hu).
  destruct (GMSync.on_file_handler w) as [[]|eh].
  - exists eu, (GMSync.Log INFO ("Script started (" ++ GMSync.VERSION ++ ")")
                :: tu)%list.
    split; [reflexivity|]. split.
    + apply List.Forall_cons; [repeat split; reflexivity|exact Hqu].
    + intros _ Hd Ho. destruct (Heu Hd Ho) as [-> [t0 ->]].
      split; [reflexivity|].
      exists (GMSync.Log INFO ("Script started (" ++ GMSync.VERSION ++ ")")
              :: t0)%list.
      reflexivity.
  - exists eh, []. split; [reflexivity|]. split; [apply List.Forall_nil|].
    intros Hfh. discriminate Hfh.
Qed.

(** [main], when the setup raises. *)
Lemma main_when_setup_raises (P : GMSync.event -> Prop) (es : GMSync.raised)
    (ts : list GMSync.event) :
  GMSync.setup w a = (GMSync.Raise es, ts) ->
  P (GMSync.Makedirs GMSync.LOG_FOLDER) ->
  Forall P (GMSync.aborted es) ->
  Forall P ts ->
  Forall P (GMSync.main w a).1
  /\ (GMSync.main w a).2 <> GMSync.Ended
  /\ (GMSync.log_folder_exists w = true \/ GMSync.on_makedirs w = GMSync.Done tt ->
      GMSync.is_exception es = true ->
      (GMSync.main w a).2 = GMSync.Leaves (GMSync.SystemExit 1)
      /\ exists t0, (GMSync.main w a).1 = (t0 ++ ts ++ GMSync.aborted es)%list).
Proof.
  intros Hs Hm Hab Hts. unfold GMSync.main. rewrite body_eq, Hs.
  destruct log_folder_cases as [Hl|[Hlx Hl]]; rewrite Hl; clear Hl.
  - destruct (GMSync.is_exception es); cbn [fst snd].
    + split; [apply Forall_app; split; [apply List.Forall_nil|];
              apply Forall_app; split; assumption|].
      split; [discriminate|]. intros _ _. split; [reflexivity|].
      exists []. reflexivity.
    + split; [apply Forall_app; split; [apply List.Forall_nil|assumption]|].
      split; [discriminate|]. intros _ Hex. discriminate Hex.
  - destruct (GMSync.on_makedirs w) as [[]|e0].
    + destruct (GMSync.is_exception es); cbn [fst snd].
      * split; [apply Forall_app; split;
                [apply List.Forall_cons; [exact Hm|apply List.Forall_nil]|];
                apply Forall_app; split; assumption|].
        split; [discriminate|]. intros _ _. split; [reflexivity|].
        exists [GMSync.Makedirs GMSync.LOG_FOLDER]. reflexivity.
      * split; [apply Forall_app; split;
                [apply List.Forall_cons; [exact Hm|apply List.Forall_nil]|assumption]|].
        split; [discriminate|]. intros _ Hex. discriminate Hex.
    + cbn [fst snd].
      split; [apply List.Forall_cons; [exact Hm|apply List.Forall_nil]|].
      split; [destruct (GMSync.is_exception e0); discriminate|].
      intros [H|H]; [rewrite H in Hlx; discriminate Hlx|discriminate H].
Qed.

End ScriptBody.

(** X22. The script runs at most one thing.  Whatever the flags and
    whatever happens on the way, [main] calls [start_sync] or
    [check_database] at most once, after [Sync] was constructed with the
    flags [syncback] and [check] as given; the mode is the first flag
    set in the order initial, delta, full, syncback, check.  So
    [--syncback] and [--check] run on their own only when none of the
    flags before them is set. *)
Theorem main_runs_at_most_one_mode (w : GMSync.world) (a : GMSync.args) :
  let t := (GMSync.main w a).1 in
  List.filter is_run t = []
  \/ In (GMSync.New_Sync (GMSync.syncback a) (GMSync.check a)) t
     /\ (List.filter is_run t = [GMSync.Start_sync "initial"]
         /\ GMSync.initial a = true
         \/ List.filter is_run t = [GMSync.Start_sync "delta"]
            /\ GMSync.initial a = false /\ GMSync.delta a = true
         \/ List.filter is_run t = [GMSync.Start_sync "full"]
            /\ GMSync.initial a = false /\ GMSync.delta a = false
            /\ GMSync.full a = true
         \/ List.filter is_run t = [GMSync.Start_sync "syncBack"]
            /\ GMSync.initial a = false /\ GMSync.delta a = false
            /\ GMSync.full a = false /\ GMSync.syncback a = true
         \/ List.filter is_run t = [GMSync.Check_database]
            /\ GMSync.initial a = false /\ GMSync.delta a = false
            /\ GMSync.full a = false /\ GMSync.syncback a = false
            /\ GMSync.check a = true).
Proof.
  intros t. subst t. unfold GMSync.main. rewrite body_eq.
  pose proof (log_folder_runs_nothing w) as [H0 _].
  pose proof (setup_runs_nothing w a) as Hs.
  pose proof (setup_done w a) as Hd.
  destruct (GMSync.log_folder w) as [[[]|e0] t0]; simpl in H0;
    [|left; exact H0].
  destruct (GMSync.setup w a) as [[[]|es] ts]; simpl in Hs.
  2: { left. destruct (GMSync.is_exception es); simpl;
       rewrite ?List.filter_app, H0, Hs; reflexivity. }
  specialize (Hd ts eq_refl).
  destruct (start_cases w a) as [(ev & r & -> & -> & Hev & _)
                               |[[-> _]|(p & ev & r & -> & _ & _ & Hmode)]].
  - left. simpl. rewrite !List.filter_app, H0, Hs. simpl. rewrite Hev. reflexivity.
  - left. simpl. rewrite !List.filter_app, H0, Hs. reflexivity.
  - right.
    assert (Hrun : is_run ev = true)
      by (destruct Hmode as [[-> _]|[[-> _]|[[-> _]|[[-> _]|[-> _]]]]]; reflexivity).
    assert (Hall : forall tail,
               List.filter is_run tail = [] ->
               List.filter is_run (t0 ++ ts ++ [GMSync.Print p; ev] ++ tail) = [ev]).
    { intros tail Htail. rewrite !List.filter_app, H0, Hs, Htail. simpl.
      rewrite Hrun. reflexivity. }
    assert (Hin : forall tail,
               In (GMSync.New_Sync (GMSync.syncback a) (GMSync.check a))
                 (t0 ++ ts ++ [GMSync.Print p; ev] ++ tail)).
    { intros tail. rewrite !in_app_iff. right. left. exact Hd. }
    assert (Hgoal : forall tail,
               List.filter is_run tail = [] ->
               let t := (t0 ++ ts ++ [GMSync.Print p; ev] ++ tail)%list in
               In (GMSync.New_Sync (GMSync.syncback a) (GMSync.check a)) t
               /\ (List.filter is_run t = [GMSync.Start_sync "initial"]
                   /\ GMSync.initial a = true
                   \/ List.filter is_run t = [GMSync.Start_sync "delta"]
                      /\ GMSync.initial a = false /\ GMSync.delta a = true
                   \/ List.filter is_run t = [GMSync.Start_sync "full"]
                      /\ GMSync.initial a = false /\ GMSync.delta a = false
                      /\ GMSync.full a = true
                   \/ List.filter is_run t = [GMSync.Start_sync "syncBack"]
                      /\ GMSync.initial a = false /\ GMSync.delta a = false
                      /\ GMSync.full a = false /\ GMSync.syncback a = true
                   \/ List.filter is_run t = [GMSync.Check_database]
                      /\ GMSync.initial a = false /\ GMSync.delta a = false
                      /\ GMSync.full a = false /\ GMSync.syncback a = false
                      /\ GMSync.check a = true)).
    { intros tail Htail t. split; [apply Hin|]. subst t. rewrite (Hall tail Htail).
      destruct Hmode as [[-> Hm]|[[-> Hm]|[[-> Hm]|[[-> Hm]|[-> Hm]]]]];
        [left|right; left|right; right; left|right; right; right; left
        |right; right; right; right]; (split; [reflexivity|exact Hm]). }
    destruct r as [[]|e]; [|destruct (GMSync.is_exception e)]; simpl fst.
    + rewrite <- ?app_assoc. apply (Hgoal [_]). reflexivity.
    + rewrite <- ?app_assoc. apply (Hgoal (GMSync.aborted e)). reflexivity.
    + specialize (Hgoal [] eq_refl). rewrite !app_nil_r in Hgoal. exact Hgoal.
Qed.

(** X23. How the script ends, when nothing but exceptions is raised
    outside the file.  It returns only when a flag was given, and then
    "Script ended" is the last line of the log.  It exits with status 1
    after the lines of the abort handler.  It exits with status 2 only
    when no flag was given, right after the help text and with nothing
    logged about the end: only after the config was loaded and every
    collaborator constructed.  And when the log folder cannot be made,
    the handler fails on the logger that does not exist yet. *)
Theorem main_exit_status (w : GMSync.world) (a : GMSync.args) :
  orderly w ->
  let flags := GMSync.initial a || GMSync.delta a || GMSync.full a
               || GMSync.syncback a || GMSync.check a || GMSync.update a in
  match GMSync.main w a with
  | (t, GMSync.Ended) =>
      last (logged t) = Some (INFO, "Script ended" ++ GMSync.newline)
      /\ flags = true
  | (t, GMSync.Leaves e) =>
      e = GMSync.SystemExit 1
      /\ (exists t0 inner,
            t = (t0 ++ GMSync.aborted inner)%list
            /\ GMSync.is_exception inner = true)
      \/ e = GMSync.SystemExit 2
         /\ flags = false
         /\ In (GMSync.New_Sync false false) t
         /\ last t = Some GMSync.Print_help
  | (t, GMSync.UnboundLocalError variable) =>
      variable = "log" /\ GMSync.log_folder_exists w = false
      /\ t = [GMSync.Makedirs GMSync.LOG_FOLDER]
  end.
Proof.
  intros Ho flags.
  pose proof (setup_orderly w a) as Hse.
  pose proof (setup_done w a) as Hd.
  pose proof Ho as (H1 & _ & _ & _ & _ & _ & _ & _ & _ & _ & _ & _ & _ & _ & _
                    & H12 & H13).
  unfold GMSync.main. rewrite body_eq.
  assert (Hlf : exists t0,
             (GMSync.log_folder w = (GMSync.Done tt, t0)
              \/ exists e, GMSync.log_folder w = (GMSync.Raise e, t0)
                           /\ GMSync.is_exception e = true
                           /\ GMSync.log_folder_exists w = false
                           /\ t0 = [GMSync.Makedirs GMSync.LOG_FOLDER])).
  { destruct (log_folder_cases w) as [->|[Hx ->]].
    - exists []. left. reflexivity.
    - exists [GMSync.Makedirs GMSync.LOG_FOLDER].
      destruct (GMSync.on_makedirs w) as [[]|e]; [left; reflexivity|].
      right. exists e. repeat split; [exact H1|exact Hx]. }
  destruct Hlf as [t0 [->|(e & -> & He & Hx & ->)]].
  2: { rewrite He. repeat split. exact Hx. }
  destruct (GMSync.setup w a) as [[[]|es] ts].
  2: { rewrite (Hse es ts Ho eq_refl). left. split; [reflexivity|].
       exists (t0 ++ ts)%list, es. rewrite <- app_assoc.
       split; [reflexivity|]. apply (Hse es ts Ho eq_refl). }
  specialize (Hd ts eq_refl).
  destruct (start_cases w a) as [(ev & r & -> & -> & Hev & Hflags)
                               |[[-> Hflags]|(p & ev & r & -> & Hflags & Hr & _)]].
  - simpl GMSync.is_exception. cbv iota. right. split; [reflexivity|].
    split; [exact Hflags|]. split.
    + fold flags in Hflags. unfold flags in Hflags.
      apply orb_false_iff in Hflags as [Hflags _].
      apply orb_false_iff in Hflags as [Hflags Hck].
      apply orb_false_iff in Hflags as [_ Hsb].
      rewrite Hsb, Hck in Hd. rewrite !in_app_iff. right. left. exact Hd.
    + change [ev; GMSync.Print_help] with ([ev] ++ [GMSync.Print_help])%list.
      rewrite !app_assoc. apply last_snoc.
  - split; [|exact Hflags].
    unfold logged. rewrite !app_assoc, omap_app. simpl. apply last_snoc.
  - specialize (Hr H13 H12). destruct r as [[]|e]; simpl in Hr.
    + split; [|exact Hflags].
      unfold logged. rewrite !app_assoc, omap_app. simpl. apply last_snoc.
    + rewrite Hr. left. split; [reflexivity|].
      exists (t0 ++ ts ++ [GMSync.Print p; ev])%list, e.
      rewrite <- !app_assoc. split; [reflexivity|exact Hr].
Qed.

(** X25. An [--env-file] that does not exist stops the script before
    anything is configured: no collaborator is constructed and nothing
    is run, and [main] does not return.  When everything before the
    check went well (the log folder and the log file,
    [update_environment] if asked for, and the default config), the
    script exits with status 1 after the lines of the abort handler for
    [ConfigError]. *)
Theorem missing_env_file_stops_before_config (w : GMSync.world) (a : GMSync.args) :
  GMSync.truthy (GMSync.env_file a) = true ->
  GMSync.env_file_exists w = false ->
  let t := (GMSync.main w a).1 in
  let e := (GMSync.main w a).2 in
  Forall (fun ev => is_construction ev = false /\ is_run ev = false) t
  /\ e <> GMSync.Ended
  /\ (GMSync.log_folder_exists w = true \/ GMSync.on_makedirs w = GMSync.Done tt ->
      GMSync.on_file_handler w = GMSync.Done tt ->
      (GMSync.update a = true ->
       (GMSync.update_environment w).1 = GMSync.Done tt) ->
      (exists p d, GMSync.on_find_default w = GMSync.Done p
                   /\ GMSync.on_dotenv_values w p = GMSync.Done d) ->
      e = GMSync.Leaves (GMSync.SystemExit 1)
      /\ exists t0,
           t = (t0 ++ GMSync.aborted
                        (GMSync.ConfigError
                           "Could not find the custom user config file, check your input!"))%list).
Proof.
  intros Ht Hx t e. subst t e.
  destruct (setup_missing_env_file w a Ht Hx) as (es & ts & Hs & Hq & Hes).
  destruct (main_when_setup_raises w a
              (fun ev => is_construction ev = false /\ is_run ev = false)
              es ts Hs) as (HP & Hend & Hexit);
    [split; reflexivity|repeat constructor|exact Hq|].
  split; [exact HP|]. split; [exact Hend|].
  intros Hlog Hfh Hue Hpd. specialize (Hes Hfh Hue Hpd). subst es.
  destruct (Hexit Hlog eq_refl) as [-> [t0 ->]].
  split; [reflexivity|]. exists (t0 ++ ts)%list. rewrite <- app_assoc. reflexivity.
Qed.

(** X26. [--update] empties the [.env] file before it reads the old
    config.  When [conf] cannot be imported, no key has been written,
    nothing is constructed or run, and [main] does not return; when
    everything before the import went well, the last thing the script
    has done before the abort handler is to open [.env] for writing, and
    it exits with status 1. *)
Theorem update_empties_env_before_reading_conf (w : GMSync.world) (a : GMSync.args)
    (e : GMSync.raised) :
  GMSync.update a = true ->
  GMSync.on_import_conf w = GMSync.Raise e ->
  let t := (GMSync.main w a).1 in
  Forall (fun ev => is_construction ev = false /\ is_run ev = false
                    /\ is_set_key ev = false) t
  /\ (GMSync.main w a).2 <> GMSync.Ended
  /\ (GMSync.log_folder_exists w = true \/ GMSync.on_makedirs w = GMSync.Done tt ->
      GMSync.on_file_handler w = GMSync.Done tt ->
      GMSync.data_folder_exists w = true
      \/ GMSync.on_makedirs_data w = GMSync.Done tt ->
      GMSync.on_open w = GMSync.Done tt ->
      GMSync.is_exception e = true ->
      (GMSync.main w a).2 = GMSync.Leaves (GMSync.SystemExit 1)
      /\ exists t0,
           t = (t0 ++ [GMSync.Open_w GMSync.ENV_FILE] ++ GMSync.aborted e)%list).
Proof.
  intros Hup Hi t. subst t.
  destruct (setup_import_raises w a e Hup Hi) as (es & ts & Hs & Hq & Hes).
  destruct (main_when_setup_raises w a
              (fun ev => is_construction ev = false /\ is_run ev = false
                         /\ is_set_key ev = false)
              es ts Hs) as (HP & Hend & Hexit);
    [repeat split; reflexivity|repeat constructor|exact Hq|].
  split; [exact HP|]. split; [exact Hend|].
  intros Hlog Hfh Hd Ho Hex. destruct (Hes Hfh Hd Ho) as [-> [t1 ->]].
  destruct (Hexit Hlog Hex) as [-> [t0 ->]].
  split; [reflexivity|]. exists (t0 ++ t1)%list. rewrite <- !app_assoc. reflexivity.
Qed.

(** Whether [os.rename] finds the file. *)
Definition found (w : GMSync.world) (filename : string) : bool :=
  match GMSync.on_rename w filename with
  | GMSync.Done _ => true
  | GMSync.Raise _ => false
  end.

(** The renames, the warnings and the keys of a trace. *)
Definition renames (t : list GMSync.event) : list (string * string) :=
  omap (fun ev => match ev with
                  | GMSync.Rename src dst => Some (src, dst)
                  | _ => None
                  end) t.
Definition warnings (t : list GMSync.event) : list string :=
  omap (fun ev => match ev with
                  | GMSync.Log WARNING msg => Some msg
                  | _ => None
                  end) t.
Definition keys (t : list GMSync.event) : list string :=
  omap (fun ev => match ev with
                  | GMSync.Set_key _ key _ => Some key
                  | _ => None
                  end) t.

(** X27. [update_environment] tries to move every file.  When the old
    config can be read and written to [.env], and [os.rename] raises
    nothing but [FileNotFoundError], the function returns; it has
    written the ten keys in order, it has tried to move each of the
    three files into [data], whatever became of the ones before, and it
    has warned about exactly the files that were not found. *)
Theorem update_environment_tries_every_file (w : GMSync.world) (c : GMSync.conf) :
  GMSync.data_folder_exists w = true \/ GMSync.on_makedirs_data w = GMSync.Done tt ->
  GMSync.on_open w = GMSync.Done tt ->
  GMSync.on_import_conf w = GMSync.Done c ->
  (forall key, GMSync.on_set_key w key = GMSync.Done tt) ->
  (forall filename e,
     GMSync.on_rename w filename = GMSync.Raise e ->
     GMSync.type_name e = "FileNotFoundError") ->
  let files := ["syncState.db"; "token.pickle"; "credentials.json"] in
  exists t,
    GMSync.update_environment w = (GMSync.Done tt, t)
    /\ keys t = ["TOKEN"; "BASE_URL"; "CREATE_REMINDERS"; "DELETE_ON_SYNC";
                 "STREET_REVERSAL"; "FIELDS"; "GOOGLE_LABELS_INCLUDE";
                 "GOOGLE_LABELS_EXCLUDE"; "MONICA_LABELS_INCLUDE";
                 "MONICA_LABELS_EXCLUDE"]
    /\ renames t = List.map (fun f => (f, "data/" ++ f)) files
    /\ warnings t
       = List.map (fun f => "Could not move " ++ f ++ ", file not found!")
           (List.filter (fun f => negb (found w f)) files)
    /\ last (logged t) = Some (INFO, "Finished updating environment").
Proof.
  intros Hd Ho Hi Hk Hr files. subst files. unfold found.
  script_unfold. rewrite Ho, Hi, !Hk.
  pose proof (Hr "syncState.db") as H1.
  pose proof (Hr "token.pickle") as H2.
  pose proof (Hr "credentials.json") as H3.
  destruct (GMSync.on_rename w "syncState.db") as [[]|e1] eqn:E1;
    [|rewrite (H1 e1 eq_refl)];
    (destruct (GMSync.on_rename w "token.pickle") as [[]|e2] eqn:E2;
     [|rewrite (H2 e2 eq_refl)]);
    (destruct (GMSync.on_rename w "credentials.json") as [[]|e3] eqn:E3;
     [|rewrite (H3 e3 eq_refl)]).
  all: destruct (GMSync.data_folder_exists w);
    [|destruct Hd as [Hd|Hd]; [discriminate Hd|rewrite Hd]].
  all: eexists; split; [reflexivity|].
  all: cbn [List.filter List.map]; rewrite E1, E2, E3.
  all: repeat split; reflexivity.
Qed.

(** ** The script at work *)

Module Host.

Definition file_not_found (filename : string) : GMSync.raised :=
  {| GMSync.type_name := "FileNotFoundError";
     GMSync.text := "[Errno 2] No such file or directory: '" ++ filename
                    ++ "' -> 'data/" ++ filename ++ "'";
     GMSync.is_exception := true |}.

Definition no_conf : GMSync.raised :=
  {| GMSync.type_name := "ModuleNotFoundError";
     GMSync.text := "No module named 'conf'";
     GMSync.is_exception := true |}.

Definition old_conf : GMSync.conf :=
  {| GMSync.TOKEN := "secret";
     GMSync.BASE_URL := "https://app.monicahq.com/api";
     GMSync.CREATE_REMINDERS := true;
     GMSync.DELETE_ON_SYNC := true;
     GMSync.STREET_REVERSAL := false;
     GMSync.FIELDS := [("career", true); ("address", false); ("notes", true)];
     GMSync.GOOGLE_LABELS := {| include := ["friends"]; exclude := [] |};
     GMSync.MONICA_LABELS := {| include := []; exclude := ["work"] |} |}.

(** A machine on which everything works; [logs] and [.env] are there,
    [data] and [token.pickle] are not. *)
Definition machine (import_conf : GMSync.result GMSync.conf) : GMSync.world :=
  {| GMSync.log_folder_exists := true;
     GMSync.on_makedirs := GMSync.Done tt;
     GMSync.on_file_handler := GMSync.Done tt;
     GMSync.data_folder_exists := false;
     GMSync.on_makedirs_data := GMSync.Done tt;
     GMSync.on_open := GMSync.Done tt;
     GMSync.on_import_conf := import_conf;
     GMSync.on_set_key := fun _ => GMSync.Done tt;
     GMSync.on_rename :=
       fun filename =>
         if String.eqb filename "token.pickle"
         then GMSync.Raise (file_not_found filename)
         else GMSync.Done tt;
     GMSync.on_find_default := GMSync.Done "/srv/sync/helpers/.env.default";
     GMSync.on_dotenv_values := fun _ => GMSync.Done ∅;
     GMSync.env_file_exists := false;
     GMSync.abspath := fun p => "/srv/sync/" ++ p;
     GMSync.on_find_dotenv := GMSync.Done "/srv/sync/.env";
     GMSync.environ := ∅;
     GMSync.on_Config := fun _ => GMSync.Done tt;
     GMSync.on_Database := GMSync.Done tt;
     GMSync.on_Google := GMSync.Done tt;
     GMSync.on_Monica := GMSync.Done tt;
     GMSync.on_Sync := GMSync.Done tt;
     GMSync.on_start_sync := fun _ => GMSync.Done tt;
     GMSync.on_check_database := GMSync.Done tt |}.

Definition no_flags : GMSync.args :=
  {| GMSync.initial := false; GMSync.syncback := false; GMSync.delta := false;
     GMSync.full := false; GMSync.check := false; GMSync.env_file := None;
     GMSync.update := false |}.

Definition delta_with (env_file : option string) (update : bool) : GMSync.args :=
  {| GMSync.initial := false; GMSync.syncback := true; GMSync.delta := true;
     GMSync.full := false; GMSync.check := false; GMSync.env_file := env_file;
     GMSync.update := update |}.

End Host.

(** X23 at work: the script is started without a flag. *)
Lemma main_exit_status_witness :
  let w := Host.machine (GMSync.Done Host.old_conf) in
  let a := Host.no_flags in
  let flags := GMSync.initial a || GMSync.delta a || GMSync.full a
               || GMSync.syncback a || GMSync.check a || GMSync.update a in
  match GMSync.main w a with
  | (t, GMSync.Ended) =>
      last (logged t) = Some (INFO, "Script ended" ++ GMSync.newline)
      /\ flags = true
  | (t, GMSync.Leaves e) =>
      e = GMSync.SystemExit 1
      /\ (exists t0 inner,
            t = (t0 ++ GMSync.aborted inner)%list
            /\ GMSync.is_exception inner = true)
      \/ e = GMSync.SystemExit 2
         /\ flags = false
         /\ In (GMSync.New_Sync false false) t
         /\ last t = Some GMSync.Print_help
  | (t, GMSync.UnboundLocalError variable) =>
      variable = "log" /\ GMSync.log_folder_exists w = false
      /\ t = [GMSync.Makedirs GMSync.LOG_FOLDER]
  end.
Proof.
  intros w a.
  apply (main_exit_status w a).
  unfold orderly. simpl. repeat split.
  intros filename. destruct (String.eqb filename "token.pickle"); reflexivity.
Defined.

(** X25 at work: the file named with [--env-file] is not there. *)
Lemma missing_env_file_witness :
  let w := Host.machine (GMSync.Done Host.old_conf) in
  let a := Host.delta_with (Some "private.env") false in
  let t := (GMSync.main w a).1 in
  let e := (GMSync.main w a).2 in
  Forall (fun ev => is_construction ev = false /\ is_run ev = false) t
  /\ e <> GMSync.Ended
  /\ (GMSync.log_folder_exists w = true \/ GMSync.on_makedirs w = GMSync.Done tt ->
      GMSync.on_file_handler w = GMSync.Done tt ->
      (GMSync.update a = true ->
       (GMSync.update_environment w).1 = GMSync.Done tt) ->
      (exists p d, GMSync.on_find_default w = GMSync.Done p
                   /\ GMSync.on_dotenv_values w p = GMSync.Done d) ->
      e = GMSync.Leaves (GMSync.SystemExit 1)
      /\ exists t0,
           t = (t0 ++ GMSync.aborted
                        (GMSync.ConfigError
                           "Could not find the custom user config file, check your input!"))%list).
Proof.
  intros w a.
  apply (missing_env_file_stops_before_config w a).
  - reflexivity.
  - reflexivity.
Defined.

(** X26 at work: [--update] on a machine without the old [conf.py]. *)
Lemma update_empties_env_witness :
  let w := Host.machine (GMSync.Raise Host.no_conf) in
  let a := Host.delta_with None true in
  let t := (GMSync.main w a).1 in
  Forall (fun ev => is_construction ev = false /\ is_run ev = false
                    /\ is_set_key ev = false) t
  /\ (GMSync.main w a).2 <> GMSync.Ended
  /\ (GMSync.log_folder_exists w = true \/ GMSync.on_makedirs w = GMSync.Done tt ->
      GMSync.on_file_handler w = GMSync.Done tt ->
      GMSync.data_folder_exists w = true
      \/ GMSync.on_makedirs_data w = GMSync.Done tt ->
      GMSync.on_open w = GMSync.Done tt ->
      GMSync.is_exception Host.no_conf = true ->
      (GMSync.main w a).2 = GMSync.Leaves (GMSync.SystemExit 1)
      /\ exists t0,
           t = (t0 ++ [GMSync.Open_w GMSync.ENV_FILE]
                ++ GMSync.aborted Host.no_conf)%list).
Proof.
  intros w a.
  apply (update_empties_env_before_reading_conf w a Host.no_conf).
  - reflexivity.
  - reflexivity.
Defined.

(** X27 at work: [token.pickle] is missing, the other two files are
    moved. *)
Lemma update_environment_tries_every_file_witness :
  let w := Host.machine (GMSync.Done Host.old_conf) in
  let files := ["syncState.db"; "token.pickle"; "credentials.json"] in
  exists t,
    GMSync.update_environment w = (GMSync.Done tt, t)
    /\ keys t = ["TOKEN"; "BASE_URL"; "CREATE_REMINDERS"; "DELETE_ON_SYNC";
                 "STREET_REVERSAL"; "FIELDS"; "GOOGLE_LABELS_INCLUDE";
                 "GOOGLE_LABELS_EXCLUDE"; "MONICA_LABELS_INCLUDE";
                 "MONICA_LABELS_EXCLUDE"]
    /\ renames t = List.map (fun f => (f, "data/" ++ f)) files
    /\ warnings t
       = List.map (fun f => "Could not move " ++ f ++ ", file not found!")
           (List.filter (fun f => negb (found w f)) files)
    /\ last (logged t) = Some (INFO, "Finished updating environment").
Proof.
  intros w.
  apply (update_environment_tries_every_file w Host.old_conf).
  - right. reflexivity.
  - reflexivity.
  - reflexivity.
  - intros key. reflexivity.
  - intros filename e H. simpl in H.
    destruct (String.eqb filename "token.pickle"); [|discriminate H].
    injection H as <-. reflexivity.
Defined.

(** The run of X27: what is written to [.env], and the one warning. *)
Example update_environment_on_machine :
  let t := (GMSync.update_environment (Host.machine (GMSync.Done Host.old_conf))).2 in
  List.filter is_set_key t
  = [GMSync.Set_key ".env" "TOKEN" "secret";
     GMSync.Set_key ".env" "BASE_URL" "https://app.monicahq.com/api";
     GMSync.Set_key ".env" "CREATE_REMINDERS" "True";
     GMSync.Set_key ".env" "DELETE_ON_SYNC" "True";
     GMSync.Set_key ".env" "STREET_REVERSAL" "False";
     GMSync.Set_key ".env" "FIELDS" "career,notes";
     GMSync.Set_key ".env" "GOOGLE_LABELS_INCLUDE" "friends";
     GMSync.Set_key ".env" "GOOGLE_LABELS_EXCLUDE" "";
     GMSync.Set_key ".env" "MONICA_LABELS_INCLUDE" "";
     GMSync.Set_key ".env" "MONICA_LABELS_EXCLUDE" "work"]
  /\ warnings t = ["Could not move token.pickle, file not found!"].
Proof. split; vm_compute; reflexivity. Qed.

(** A delta sync with [--syncback]: one run, in mode [delta]. *)
Example main_delta_with_syncback :
  GMSync.main (Host.machine (GMSync.Done Host.old_conf)) (Host.delta_with None false)
  = ([GMSync.Log INFO "Script started (v4.0.0)";
      GMSync.Log INFO "Loading default config from /srv/sync/helpers/.env.default";
      GMSync.Log INFO "Loading user config from /srv/sync/.env";
      GMSync.Log INFO "Config loading complete";
      GMSync.New_Config ∅;
      GMSync.Log INFO "Config successfully parsed";
      GMSync.New_Database; GMSync.New_Google; GMSync.New_Monica;
      GMSync.New_Sync true false;
      GMSync.Print (GMSync.newline ++ "Your choice (unordered):");
      GMSync.Print "- sync back";
      GMSync.Print ("- delta sync" ++ GMSync.newline);
      GMSync.Start_sync "delta";
      GMSync.Log INFO ("Script ended" ++ GMSync.newline)],
     GMSync.Ended).
Proof. vm_compute. reflexivity. Qed.
